(** * Coverage-gated test generation: a shallow embedding of the Go sources

    The development follows the automation utility of the repository:
    the coverage prober and function extractor ([coverage-analyzer.go],
    in its two revisions), the test generator with its prompt, the
    clean-up and the validation of generated test text, the branch and
    file upsert of the change publisher with its comments, and the driver
    ([main.go]) from the parsed flags on.

    Go strings are byte strings and are modelled by [string] (a list of
    8-bit [ascii] values).  Errors are modelled by their message text.
    Calls into the operating system, the Go parser and the hosting API
    are taken through records of operations, so that every theorem holds
    for every behaviour of those collaborators. *)

From Stdlib Require Import String Ascii List ZArith Bool Arith Lia ZifyNat.
From Stdlib Require Import Uint63 PrimFloat.
Import ListNotations.
Local Open Scope list_scope.
Local Open Scope string_scope.

(** ** Go's [strings] package, as far as the sources use it *)

Module Strings.

(** [s[i] >= utf8.RuneSelf] *)
Definition nonASCII (c : ascii) : bool := (128 <=? nat_of_ascii c)%nat.

Definition isUpperASCII (c : ascii) : bool :=
  ((65 <=? nat_of_ascii c) && (nat_of_ascii c <=? 90))%nat.

(** [strings.HasPrefix(s, prefix)] *)
Definition HasPrefix (s prefix : string) : bool := String.prefix prefix s.

(** [strings.Contains(s, substr)]: some tail of [s] starts with [substr]. *)
Fixpoint Contains (s substr : string) : bool :=
  HasPrefix s substr ||
  match s with
  | EmptyString => false
  | String _ s' => Contains s' substr
  end.

(** [strings.TrimSuffix(s, suffix)]: the one tail of [s] that can equal
    [suffix] is cut off. *)
Fixpoint TrimSuffix (s suffix : string) : string :=
  if String.eqb s suffix then EmptyString
  else match s with
       | EmptyString => EmptyString
       | String c s' => String c (TrimSuffix s' suffix)
       end.

(** [strings.ReplaceAll(s, old, new)] for a non-empty [old], as at every
    call site: non-overlapping occurrences, leftmost first.  [skip] counts
    the bytes of a matched occurrence still to be dropped. *)
Fixpoint replace_from (old new : string) (skip : nat) (s : string) : string :=
  match s with
  | EmptyString => EmptyString
  | String c s' =>
      match skip with
      | S k => replace_from old new k s'
      | O =>
          if HasPrefix s old
          then new ++ replace_from old new (String.length old - 1) s'
          else String c (replace_from old new 0 s')
      end
  end.

Definition ReplaceAll (s old new : string) : string := replace_from old new 0 s.

(** [strings.Split(s, sep)] for a one-byte separator: the pieces between
    the separators, one empty piece for the empty string. *)
Fixpoint Split (s : string) (sep : ascii) : list string :=
  match s with
  | EmptyString => [EmptyString]
  | String c s' =>
      if Ascii.eqb c sep then EmptyString :: Split s' sep
      else match Split s' sep with
           | piece :: rest => String c piece :: rest
           | [] => [String c EmptyString]
           end
  end.

Definition bytes (codes : list nat) : string :=
  string_of_list_ascii (map ascii_of_nat codes).

(** The UTF-8 encodings of the runes of which [unicode.IsSpace] holds:
    the six bytes of the table [asciiSpace] (9 to 13 and 32), U+0085 and
    U+00A0, and the [White_Space] table: U+1680, U+2000..U+200A, U+2028,
    U+2029, U+202F, U+205F and U+3000. *)
Definition spaceRunes : list string :=
  map bytes
    [ [9]; [10]; [11]; [12]; [13]; [32];
      [194; 133]; [194; 160];
      [225; 154; 128];
      [226; 128; 128]; [226; 128; 129]; [226; 128; 130]; [226; 128; 131];
      [226; 128; 132]; [226; 128; 133]; [226; 128; 134]; [226; 128; 135];
      [226; 128; 136]; [226; 128; 137]; [226; 128; 138];
      [226; 128; 168]; [226; 128; 169]; [226; 128; 175];
      [226; 129; 159];
      [227; 128; 128] ].

(** Length of the first of [runes] that [s] starts with, 0 for none. *)
Fixpoint matchLen (runes : list string) (s : string) : nat :=
  match runes with
  | [] => 0
  | r :: rs => if HasPrefix s r then String.length r else matchLen rs s
  end.

(** Drops every leading rune of [runes]; [skip] counts the bytes of a
    matched rune still to be dropped. *)
Fixpoint trimLeft_from (runes : list string) (skip : nat) (s : string) : string :=
  match s with
  | EmptyString => EmptyString
  | String _ s' =>
      match skip with
      | S k => trimLeft_from runes k s'
      | O =>
          match matchLen runes s with
          | O => s
          | S k => trimLeft_from runes k s'
          end
      end
  end.

Fixpoint reverse (s : string) : string :=
  match s with
  | EmptyString => EmptyString
  | String c s' => reverse s' ++ String c EmptyString
  end.

(** [strings.HasSuffix(s, suffix)] *)
Definition HasSuffix (s suffix : string) : bool :=
  HasPrefix (reverse s) (reverse suffix).

(** [strings.TrimLeftFunc(s, unicode.IsSpace)] *)
Definition TrimLeftSpace (s : string) : string := trimLeft_from spaceRunes 0 s.

(** [strings.TrimRightFunc(s, unicode.IsSpace)]: the same scan on the
    reversed string, against the reversed encodings. *)
Definition TrimRightSpace (s : string) : string :=
  reverse (trimLeft_from (map reverse spaceRunes) 0 (reverse s)).

(** [strings.TrimSpace(s)].  Go scans ASCII bytes from both ends and
    falls back to [TrimFunc(_, unicode.IsSpace)] at the first non-ASCII
    byte; both paths drop exactly the leading and the trailing white-space
    runes, a rune being recognised by its well-formed encoding. *)
Definition TrimSpace (s : string) : string := TrimRightSpace (TrimLeftSpace s).

(** [strings.ToLower(s)].  A string of ASCII bytes is lowered byte by
    byte; any other string goes through [Map(unicode.ToLower, s)], which
    rests on Go's Unicode case tables and is the parameter [mapToLower]. *)
Definition lowerASCII (c : ascii) : ascii :=
  if isUpperASCII c then ascii_of_nat (nat_of_ascii c + 32) else c.

Fixpoint mapBytes (f : ascii -> ascii) (s : string) : string :=
  match s with
  | EmptyString => EmptyString
  | String c s' => String (f c) (mapBytes f s')
  end.

Fixpoint existsByte (p : ascii -> bool) (s : string) : bool :=
  match s with
  | EmptyString => false
  | String c s' => p c || existsByte p s'
  end.

Definition ToLower (mapToLower : string -> string) (s : string) : string :=
  if existsByte nonASCII s then mapToLower s else mapBytes lowerASCII s.

End Strings.

Definition LF : ascii := "010"%char.
Definition nl : string := String LF EmptyString.

(** Go's [error]: [None] is [nil], [Some msg] an error with that text. *)
Definition error : Type := option string.

(** A call either returns or panics (nil dereference, index out of range). *)
Inductive outcome (A : Type) : Type :=
| Returns (a : A)
| Panics (reason : string).
Arguments Returns {A} a.
Arguments Panics {A} reason.

(** ** [go/token] and [go/ast], as far as the extractor looks at them *)

Module Token.

(** [token.IsExported(name)]: [unicode.IsUpper] of the first rune of
    [name].  A first byte below [utf8.RuneSelf] is that rune, and is upper
    case from 'A' to 'Z'; the empty name decodes to [RuneError], which is
    not.  For a name that starts with a non-ASCII byte the answer rests on
    Go's Unicode tables and is the parameter [upperNonASCII]. *)
Definition IsExported (upperNonASCII : string -> bool) (name : string) : bool :=
  match name with
  | EmptyString => false
  | String c _ =>
      if Strings.nonASCII c then upperNonASCII name else Strings.isUpperASCII c
  end.

End Token.

Module Ast.

(** A statement of a function body; only their number is inspected. *)
Inductive Stmt : Type := StmtText (src : string).

(** [*ast.FuncDecl]: [Name] is a pointer to an identifier, [Body] a pointer
    to a block ([nil] for a declaration without body); [PosLine] and
    [EndLine] are [fileSet.Position(fn.Pos()).Line] and
    [fileSet.Position(fn.End()).Line]. *)
Record FuncDecl : Type := mkFuncDecl {
  Name : option string;
  Body : option (list Stmt);
  PosLine : Z;
  EndLine : Z
}.

(** A top-level declaration.  [ast.Inspect] meets [*ast.FuncDecl] nodes
    only there: function literals and declaration statements inside bodies
    are other node types. *)
Inductive Decl : Type :=
| Func (fn : FuncDecl)
| Gen (src : string).

Record File : Type := mkFile { Decls : list Decl }.

End Ast.

(** ** [path/filepath] on a slash-separated system *)

Module Filepath.

Definition slash : ascii := "/"%char.

Definition dotdot : string := "..".

(** One element of the path met by [Clean]; [stack] holds the elements
    written so far, last one first.  Empty and [.] elements are dropped,
    [..] removes the last real element, is dropped at the root, and is kept
    in front of a relative path. *)
Definition cleanStep (rooted : bool) (stack : list string) (elem : string)
  : list string :=
  if String.eqb elem EmptyString || String.eqb elem "." then stack
  else if String.eqb elem dotdot then
    match stack with
    | top :: below =>
        if String.eqb top dotdot then elem :: stack else below
    | [] => if rooted then [] else [elem]
    end
  else elem :: stack.

(** [filepath.Clean(path)] *)
Definition Clean (path : string) : string :=
  match path with
  | EmptyString => "."
  | String c _ =>
      let rooted := Ascii.eqb c slash in
      let stack := fold_left (cleanStep rooted) (Strings.Split path slash) [] in
      let body := String.concat "/" (rev stack) in
      if rooted then "/" ++ body
      else match stack with
           | [] => "."
           | _ => body
           end
  end.

(** The path up to and including its last separator, empty without one. *)
Fixpoint uptoLastSlash (path : string) : string :=
  match path with
  | EmptyString => EmptyString
  | String c rest =>
      if Strings.existsByte (Ascii.eqb slash) path
      then String c (uptoLastSlash rest)
      else EmptyString
  end.

(** [filepath.Dir(path)] *)
Definition Dir (path : string) : string := Clean (uptoLastSlash path).

(** [filepath.Join(a, b)] *)
Definition Join (a b : string) : string :=
  if String.eqb a EmptyString then
    (if String.eqb b EmptyString then EmptyString else Clean b)
  else if String.eqb b EmptyString then Clean a
  else Clean (a ++ "/" ++ b).

End Filepath.

(** ** [regexp] and [strconv], for the one pattern of the prober *)

Module Regexp.

Definition isDigit (c : ascii) : bool :=
  ((48 <=? nat_of_ascii c) && (nat_of_ascii c <=? 57))%nat.

(** The longest run of digits at the head of [s], and what follows it. *)
Fixpoint takeDigits (s : string) : string * string :=
  match s with
  | EmptyString => (EmptyString, EmptyString)
  | String c rest =>
      if isDigit c
      then let (ds, after) := takeDigits rest in (String c ds, after)
      else (EmptyString, s)
  end.

(** [s] without the prefix [p], when it has it. *)
Fixpoint stripPrefix (p s : string) : option string :=
  match p, s with
  | EmptyString, _ => Some s
  | String a p', String b s' => if Ascii.eqb a b then stripPrefix p' s' else None
  | String _ _, EmptyString => None
  end.

(** A match of the pattern of [parseCoverageOutput] at the head of [s]:
    the literal [coverage: ], group 1 made of one or more digits, an
    optional dot and any number of digits, and the literal
    [% of statements].  The result is the text of group 1.  The group
    holds digits and at most one dot and must be followed by the percent
    sign, so the greedy reading below is the only way the pattern can match
    at this place. *)
Definition matchHere (s : string) : option string :=
  match stripPrefix "coverage: " s with
  | None => None
  | Some r1 =>
      let (d1, r2) := takeDigits r1 in
      match d1 with
      | EmptyString => None
      | _ =>
          let (dot, r3) :=
            match r2 with
            | String c r => if Ascii.eqb c "."%char then (".", r) else (EmptyString, r2)
            | EmptyString => (EmptyString, r2)
            end in
          let (d2, r4) := takeDigits r3 in
          if Strings.HasPrefix r4 "% of statements"
          then Some (d1 ++ dot ++ d2)
          else None
      end
  end.

(** [re.FindStringSubmatch(output)]: the leftmost match and its group, or
    the nil slice. *)
Fixpoint FindStringSubmatch (s : string) : list string :=
  match matchHere s with
  | Some group => ["coverage: " ++ group ++ "% of statements"; group]
  | None =>
      match s with
      | EmptyString => []
      | String _ rest => FindStringSubmatch rest
      end
  end.

End Regexp.

(** ** The operating system, as the prober meets it *)

(** The calls the prober makes, as they are logged. *)
Inductive Call : Type :=
| CallStat (name : string)
| CallGetwd
| CallAbs (path : string)
| CallChdir (dir : string)
| CallRemove (name : string)
| CallRun (argv : list string).

(** The operations, over a state of the outside world [W].  [os_Stat] gives
    the error of [os.Stat]; [exec_CombinedOutput] is
    [exec.CommandContext(ctx, argv...).CombinedOutput()]; [strconv_ParseFloat]
    is [strconv.ParseFloat(_, 64)], which returns a value next to its error. *)
Record OS (W : Type) : Type := mkOS {
  os_Stat : string -> W -> error * W;
  os_IsNotExist : error -> bool;
  os_Getwd : W -> (string * error) * W;
  os_Chdir : string -> W -> error * W;
  os_Remove : string -> W -> error * W;
  filepath_Abs : string -> W -> (string * error) * W;
  filepath_Dir : string -> string;
  filepath_Join : string -> string -> string;
  exec_CombinedOutput : list string -> W -> (string * error) * W;
  strconv_ParseFloat : string -> float * error
}.
Arguments os_Stat {W}.
Arguments os_IsNotExist {W}.
Arguments os_Getwd {W}.
Arguments os_Chdir {W}.
Arguments os_Remove {W}.
Arguments filepath_Abs {W}.
Arguments filepath_Dir {W}.
Arguments filepath_Join {W}.
Arguments exec_CombinedOutput {W}.
Arguments strconv_ParseFloat {W}.

(** The process: the outside world and the log of calls, oldest first. *)
Record Proc (W : Type) : Type := mkProc {
  world : W;
  calls : list Call
}.
Arguments mkProc {W}.
Arguments world {W}.
Arguments calls {W}.

(** A computation that returns [A] and leaves a new process state. *)
Definition M (W A : Type) : Type := Proc W -> A * Proc W.

Definition ret {W A} (a : A) : M W A := fun p => (a, p).

Definition bind {W A B} (m : M W A) (k : A -> M W B) : M W B :=
  fun p => let (a, p') := m p in k a p'.

Notation "x <- m ;; k" := (bind m (fun x => k))
  (at level 61, m at next level, right associativity).

(** One logged call into the world. *)
Definition perform {W A} (c : Call) (op : W -> A * W) : M W A :=
  fun p => let (a, w') := op (world p) in
           (a, mkProc w' (calls p ++ [c])%list).

(** [defer cleanup] around [body]: [cleanup] runs when [body] returns,
    whatever it returns. *)
Definition deferring {W A} (cleanup : M W unit) (body : M W A) : M W A :=
  a <- body ;; _ <- cleanup ;; ret a.

Definition errText (e : error) : string :=
  match e with
  | Some msg => msg
  | None => "<nil>"
  end.

(** ** [coverage-analyzer.go] *)

Record FunctionInfo : Type := mkFunctionInfo {
  Name : string;
  Content : string;
  StartLine : Z;
  EndLine : Z
}.

(** What the extractor reads from outside: [os.ReadFile],
    [parser.ParseFile] and the Unicode upper-case test behind
    [IsExported]. *)
Record SourceEnv : Type := mkSourceEnv {
  os_ReadFile : string -> string + string;
  parser_ParseFile : string -> string -> Ast.File + string;
  upperNonASCII : string -> bool
}.

Module CoverageAnalyzer.

(** [shouldIncludeFunction] *)
Definition shouldIncludeFunction (fn : Ast.FuncDecl) : bool :=
  match Ast.Name fn with
  | None => false
  | Some name =>
      if Strings.HasPrefix name "Test" || Strings.HasPrefix name "Benchmark"
      then false
      else match Ast.Body fn with
           | Some stmts => if (List.length stmts <? 3)%nat then false else true
           | None => true
           end
  end.

(** The loop that copies lines [startLine - 1 .. endLine - 1] of the
    file, each followed by a newline.  A negative first index is read
    before any bound is checked against zero. *)
Definition funcContent (lines : list string) (startLine endLine : Z)
  : outcome string :=
  let i0 := (startLine - 1)%Z in
  let stop := Z.min endLine (Z.of_nat (List.length lines)) in
  if ((i0 <? 0) && (i0 <? stop))%Z
  then Panics "index out of range"
  else Returns
         (String.concat EmptyString
            (map (fun l => l ++ nl)
               (firstn (Z.to_nat (stop - i0)) (skipn (Z.to_nat i0) lines)))).

(** The callback of [ast.Inspect] at one [*ast.FuncDecl]. *)
Definition visitFuncDecl (env : SourceEnv) (content : string)
    (fn : Ast.FuncDecl) (functions : list FunctionInfo)
  : outcome (list FunctionInfo) :=
  match Ast.Name fn with
  | None => Panics "nil pointer dereference"
  | Some name =>
      if Token.IsExported (upperNonASCII env) name || shouldIncludeFunction fn
      then
        match funcContent (Strings.Split content LF) (Ast.PosLine fn) (Ast.EndLine fn) with
        | Panics r => Panics r
        | Returns text =>
            Returns (functions ++ [mkFunctionInfo name text (Ast.PosLine fn) (Ast.EndLine fn)])%list
        end
      else Returns functions
  end.

(** [ast.Inspect] over the declarations of the file, in source order. *)
Fixpoint inspect (env : SourceEnv) (content : string) (decls : list Ast.Decl)
    (functions : list FunctionInfo) : outcome (list FunctionInfo) :=
  match decls with
  | [] => Returns functions
  | Ast.Gen _ :: rest => inspect env content rest functions
  | Ast.Func fn :: rest =>
      match visitFuncDecl env content fn functions with
      | Panics r => Panics r
      | Returns functions' => inspect env content rest functions'
      end
  end.

(** [ExtractModifiedFunctions] *)
Definition ExtractModifiedFunctions (env : SourceEnv) (filePath : string)
  : outcome (list FunctionInfo * error) :=
  match os_ReadFile env filePath with
  | inr e => Returns ([], Some ("failed to read file: " ++ e))
  | inl content =>
      match parser_ParseFile env filePath content with
      | inr e => Returns ([], Some ("failed to parse file: " ++ e))
      | inl node =>
          match inspect env content (Ast.Decls node) [] with
          | Panics r => Panics r
          | Returns functions => Returns (functions, None)
          end
      end
  end.

(** [parseCoverageOutput] *)
Definition parseCoverageOutput {W} (os : OS W) (output : string) : float * error :=
  let matches := Regexp.FindStringSubmatch output in
  if (List.length matches <? 2)%nat then (0%float, None)
  else
    let (coverage, err) := strconv_ParseFloat os (nth 1 matches EmptyString) in
    match err with
    | Some _ => (0%float, Some ("failed to parse coverage percentage: " ++ errText err))
    | None => (coverage, None)
    end.

(** [AnalyzeFile], as in [scripts/coverage-analyzer.go]: the command runs
    in the working directory of the process, on the package directory. *)
Definition AnalyzeFile {W} (os : OS W) (filePath : string) (threshold : float)
  : M W (bool * float * error) :=
  let testFile := Strings.TrimSuffix filePath ".go" ++ "_test.go" in
  statErr <- perform (CallStat testFile) (os_Stat os testFile) ;;
  if os_IsNotExist os statErr then ret (true, 0%float, None)
  else
    let packageDir := filepath_Dir os filePath in
    let packageDir := if String.eqb packageDir EmptyString then "." else packageDir in
    let argv := ["go"; "test"; "-cover"; "-coverprofile=coverage.out"; packageDir] in
    r <- perform (CallRun argv) (exec_CombinedOutput os argv) ;;
    let output := fst r in
    let err := snd r in
    match err with
    | Some _ =>
        if Strings.Contains output "no test files"
        then ret (true, 0%float, None)
        else ret (false, 0%float,
                  Some ("failed to run coverage: " ++ errText err ++ ", output: " ++ output))
    | None =>
        let (coverage, perr) := parseCoverageOutput os output in
        match perr with
        | Some _ =>
            ret (false, 0%float,
                 Some ("failed to parse coverage output: " ++ errText perr))
        | None =>
            _ <- perform (CallRemove "coverage.out") (os_Remove os "coverage.out") ;;
            ret (PrimFloat.ltb coverage threshold, coverage, None)
        end
    end.

End CoverageAnalyzer.

(** ** [coverage-analyzer.go], the revision that resolves the path and
    changes into the package directory *)

Module CoverageAnalyzerResolved.

(** [resolveFilePath] *)
Definition resolveFilePath {W} (os : OS W) (filePath : string) : M W string :=
  r <- perform CallGetwd (os_Getwd os) ;;
  match snd r with
  | None =>
      if Strings.HasSuffix (fst r) "/scripts" || Strings.HasSuffix (fst r) "\scripts"
      then ret (filepath_Join os ".." filePath)
      else ret filePath
  | Some _ => ret filePath
  end.

(** The deferred function: back to the original directory, then remove
    the coverage file. *)
Definition restore {W} (os : OS W) (originalDir : string) : M W unit :=
  _ <- perform (CallChdir originalDir) (os_Chdir os originalDir) ;;
  _ <- perform (CallRemove "coverage.out") (os_Remove os "coverage.out") ;;
  ret tt.

(** [AnalyzeFile] *)
Definition AnalyzeFile {W} (os : OS W) (filePath : string) (threshold : float)
  : M W (bool * float * error) :=
  resolvedPath <- resolveFilePath os filePath ;;
  let testFile := Strings.TrimSuffix resolvedPath ".go" ++ "_test.go" in
  statErr <- perform (CallStat testFile) (os_Stat os testFile) ;;
  if os_IsNotExist os statErr then ret (true, 0%float, None)
  else
    let packageDir := filepath_Dir os resolvedPath in
    let packageDir := if String.eqb packageDir EmptyString then "." else packageDir in
    wd <- perform CallGetwd (os_Getwd os) ;;
    let originalDir := fst wd in
    match snd wd with
    | Some _ =>
        ret (false, 0%float,
             Some ("failed to get current directory: " ++ errText (snd wd)))
    | None =>
        ab <- perform (CallAbs packageDir) (filepath_Abs os packageDir) ;;
        let absPackageDir := fst ab in
        match snd ab with
        | Some _ =>
            ret (false, 0%float,
                 Some ("failed to get absolute path: " ++ errText (snd ab)))
        | None =>
            cd <- perform (CallChdir absPackageDir) (os_Chdir os absPackageDir) ;;
            match cd with
            | Some _ =>
                ret (false, 0%float,
                     Some ("failed to change to package directory: " ++ errText cd))
            | None =>
                deferring (restore os originalDir)
                  (let argv := ["go"; "test"; "-cover"; "-coverprofile=coverage.out"; "."] in
                   r <- perform (CallRun argv) (exec_CombinedOutput os argv) ;;
                   let output := fst r in
                   let err := snd r in
                   match err with
                   | Some _ =>
                       if Strings.Contains output "no test files"
                       then ret (true, 0%float, None)
                       else ret (false, 0%float,
                                 Some ("failed to run coverage: " ++ errText err ++
                                       ", output: " ++ output))
                   | None =>
                       let (coverage, perr) := CoverageAnalyzer.parseCoverageOutput os output in
                       match perr with
                       | Some _ =>
                           ret (false, 0%float,
                                Some ("failed to parse coverage output: " ++ errText perr))
                       | None =>
                           ret (PrimFloat.ltb coverage threshold, coverage, None)
                       end
                   end)
            end
        end
    end.

End CoverageAnalyzerResolved.

(** ** A small operating system, to run the prober on

    One process with a working directory, a set of directories and files
    named by absolute paths, and a test command whose output, exit status
    and coverage profile are fixed in advance. *)

Module SimpleOS.

Record World : Type := mkWorld {
  cwd : string;
  dirs : list string;
  files : list string;
  run_output : string;
  run_error : error;
  run_writes_profile : bool
}.

Definition ENOENT : string := "no such file or directory".

(** A name as the kernel resolves it: against the working directory unless
    it starts at the root. *)
Definition resolve (w : World) (name : string) : string :=
  if Strings.HasPrefix name "/" then name else cwd w ++ "/" ++ name.

Definition member (name : string) (names : list string) : bool :=
  existsb (String.eqb name) names.

Definition stat (name : string) (w : World) : error * World :=
  if member (resolve w name) (files w) || member (resolve w name) (dirs w)
  then (None, w)
  else (Some ENOENT, w).

Definition isNotExist (e : error) : bool :=
  match e with
  | Some msg => String.eqb msg ENOENT
  | None => false
  end.

Definition getwd (w : World) : (string * error) * World := ((cwd w, None), w).

Definition abs (path : string) (w : World) : (string * error) * World :=
  ((if Strings.HasPrefix path "/" then Filepath.Clean path
    else Filepath.Join (cwd w) path, None), w).

Definition chdir (dir : string) (w : World) : error * World :=
  if member (resolve w dir) (dirs w)
  then (None, mkWorld (resolve w dir) (dirs w) (files w)
                (run_output w) (run_error w) (run_writes_profile w))
  else (Some ENOENT, w).

Definition remove (name : string) (w : World) : error * World :=
  if member (resolve w name) (files w)
  then (None, mkWorld (cwd w) (dirs w)
                (filter (fun f => negb (String.eqb (resolve w name) f)) (files w))
                (run_output w) (run_error w) (run_writes_profile w))
  else (Some ENOENT, w).

(** The test command writes its profile, named relative to the directory
    it is started in, and reports. *)
Definition run (argv : list string) (w : World) : (string * error) * World :=
  ((run_output w, run_error w),
   if run_writes_profile w
   then mkWorld (cwd w) (dirs w) (resolve w "coverage.out" :: files w)
          (run_output w) (run_error w) (run_writes_profile w)
   else w).

Definition digitValue (c : ascii) : Z := Z.of_nat (nat_of_ascii c) - 48.

Fixpoint decimalValue (acc : Z) (s : string) : Z :=
  match s with
  | EmptyString => acc
  | String c rest => decimalValue (10 * acc + digitValue c) rest
  end.

(** [strconv.ParseFloat] on the short decimals a coverage report holds:
    digits, then possibly a dot and digits, fewer than sixteen digits in
    all, for which the quotient of two exact floats is the correctly rounded
    value.  Anything else is reported as a syntax error by this stand-in. *)
Definition parseFloat (s : string) : float * error :=
  let (whole, r) := Regexp.takeDigits s in
  let frac :=
    match r with
    | String c r' => if Ascii.eqb c "."%char then Some (Regexp.takeDigits r') else None
    | EmptyString => Some (EmptyString, EmptyString)
    end in
  match whole, frac with
  | String _ _, Some (fd, EmptyString) =>
      if (String.length whole + String.length fd <? 16)%nat
      then (PrimFloat.div
              (PrimFloat.of_uint63 (Uint63.of_Z (decimalValue 0 (whole ++ fd))))
              (PrimFloat.of_uint63 (Uint63.of_Z (10 ^ Z.of_nat (String.length fd)))),
            None)
      else (0%float, Some "invalid syntax")
  | _, _ => (0%float, Some "invalid syntax")
  end.

Definition os : OS World :=
  mkOS World stat isNotExist getwd chdir remove abs
    Filepath.Dir Filepath.Join run parseFloat.

End SimpleOS.

(** ** [encoding/base64], the standard encoding *)

Module Base64.

Definition alphabet : string :=
  "ABCDEFGHIJKLMNOPQRSTUVWXYZabcdefghijklmnopqrstuvwxyz0123456789+/".

Definition digit (n : nat) : string :=
  match String.get n alphabet with
  | Some c => String c EmptyString
  | None => EmptyString
  end.

(** [base64.StdEncoding.EncodeToString]: three bytes give four digits, a
    last group of one or two bytes is padded with [=]. *)
Fixpoint EncodeToString (src : string) : string :=
  match src with
  | EmptyString => EmptyString
  | String a EmptyString =>
      let x := nat_of_ascii a in
      digit (x / 4) ++ digit (x mod 4 * 16) ++ "=="
  | String a (String b EmptyString) =>
      let x := nat_of_ascii a in
      let y := nat_of_ascii b in
      digit (x / 4) ++ digit (x mod 4 * 16 + y / 16) ++ digit (y mod 16 * 4) ++ "="
  | String a (String b (String c rest)) =>
      let x := nat_of_ascii a in
      let y := nat_of_ascii b in
      let z := nat_of_ascii c in
      digit (x / 4) ++ digit (x mod 4 * 16 + y / 16) ++
      digit (y mod 16 * 4 + z / 64) ++ digit (z mod 64) ++ EncodeToString rest
  end.

End Base64.

(** ** The hosting API, as the change publisher meets it *)

Module Github.

(** [*github.Response]; only the status code is read. *)
Record Response : Type := mkResponse { StatusCode : Z }.

(** [github.GitObject], [github.Reference], [github.RepositoryContent]:
    the fields the publisher reads or writes; a Go pointer is an option. *)
Record GitObject : Type := mkGitObject { ObjectSHA : option string }.

Record Reference : Type := mkReference {
  Ref : option string;
  Object : option GitObject
}.

Record RepositoryContent : Type := mkRepositoryContent { ContentSHA : option string }.

Record RepositoryContentFileOptions : Type := mkFileOptions {
  Message : option string;
  Content : string;
  Branch : option string;
  SHA : option string
}.

Record NewPullRequest : Type := mkNewPullRequest {
  Title : option string;
  Head : option string;
  Base : option string;
  Body : option string
}.

(** The requests, as they are logged: owner and repository first. *)
Inductive Request : Type :=
| GetRef (owner repo ref : string)
| DeleteRef (owner repo ref : string)
| CreateRef (owner repo : string) (ref : Reference)
| GetContents (owner repo path ref : string)
| CreateFile (owner repo path : string) (opts : RepositoryContentFileOptions)
| UpdateFile (owner repo path : string) (opts : RepositoryContentFileOptions)
| CreatePullRequest (owner repo : string) (pull : NewPullRequest).

(** The client, over a state of the remote side [R].  Every operation
    returns the pointers and the error of the Go method; results the
    publisher discards are left out.  [formatPercent] is the verb [%.2f]
    of package [fmt], applied to the coverage. *)
Record Client (R : Type) : Type := mkClient {
  Git_GetRef : string -> string -> string -> R ->
               (option Reference * option Response * error) * R;
  Git_DeleteRef : string -> string -> string -> R -> (option Response * error) * R;
  Git_CreateRef : string -> string -> Reference -> R -> error * R;
  Repositories_GetContents : string -> string -> string -> string -> R ->
               (option RepositoryContent * option Response * error) * R;
  Repositories_CreateFile : string -> string -> string ->
               RepositoryContentFileOptions -> R -> error * R;
  Repositories_UpdateFile : string -> string -> string ->
               RepositoryContentFileOptions -> R -> error * R;
  PullRequests_Create : string -> string -> NewPullRequest -> R -> error * R;
  formatPercent : float -> string
}.
Arguments Git_GetRef {R}.
Arguments Git_DeleteRef {R}.
Arguments Git_CreateRef {R}.
Arguments Repositories_GetContents {R}.
Arguments Repositories_CreateFile {R}.
Arguments Repositories_UpdateFile {R}.
Arguments PullRequests_Create {R}.
Arguments formatPercent {R}.

(** The remote side and the log of requests, oldest first. *)
Record Session (R : Type) : Type := mkSession {
  remote : R;
  requests : list Request
}.
Arguments mkSession {R}.
Arguments remote {R}.
Arguments requests {R}.

(** A computation that returns or panics, and leaves a session. *)
Definition G (R A : Type) : Type := Session R -> outcome A * Session R.

Definition greturn {R A} (a : A) : G R A := fun s => (Returns a, s).

Definition gpanic {R A} (reason : string) : G R A := fun s => (Panics reason, s).

Definition gbind {R A B} (m : G R A) (k : A -> G R B) : G R B :=
  fun s => match m s with
           | (Returns a, s') => k a s'
           | (Panics r, s') => (Panics r, s')
           end.

(** One logged request. *)
Definition request {R A} (q : Request) (op : R -> A * R) : G R A :=
  fun s => let (a, r') := op (remote s) in
           (Returns a, mkSession r' (requests s ++ [q])%list).

End Github.

Notation "x <~ m ;; k" := (Github.gbind m (fun x => k))
  (at level 61, m at next level, right associativity).

(** ** The change publisher *)

Record PRCreator (R : Type) : Type := mkPRCreator {
  client : Github.Client R;
  repoOwner : string;
  repoName : string
}.
Arguments client {R}.
Arguments repoOwner {R}.
Arguments repoName {R}.

Module Publisher.

Import Github.

(** [createOrUpdateFile].  [resp.StatusCode] is read whenever the lookup
    returned an error, and [existingFile.SHA] whenever it did not; either
    pointer may be nil. *)
Definition createOrUpdateFile {R} (pc : PRCreator R)
    (filePath content branchName : string) : G R error :=
  let owner := repoOwner pc in
  let repo := repoName pc in
  got <~ request (GetContents owner repo filePath branchName)
           (Repositories_GetContents (client pc) owner repo filePath branchName) ;;
  let existingFile := fst (fst got) in
  let resp := snd (fst got) in
  let err := snd got in
  let encodedContent := Base64.EncodeToString content in
  match err with
  | Some _ =>
      match resp with
      | None => gpanic "nil pointer dereference"
      | Some rsp =>
          if (StatusCode rsp =? 404)%Z then
            let fileOptions :=
              mkFileOptions (Some ("Add auto-generated tests for " ++ filePath))
                encodedContent (Some branchName) None in
            cerr <~ request (CreateFile owner repo filePath fileOptions)
                      (Repositories_CreateFile (client pc) owner repo filePath fileOptions) ;;
            match cerr with
            | Some _ => greturn (Some ("failed to create file: " ++ errText cerr))
            | None => greturn None
            end
          else greturn (Some ("failed to check file existence: " ++ errText err))
      end
  | None =>
      match existingFile with
      | None => gpanic "nil pointer dereference"
      | Some file =>
          let fileOptions :=
            mkFileOptions (Some ("Update auto-generated tests for " ++ filePath))
              encodedContent (Some branchName) (ContentSHA file) in
          uerr <~ request (UpdateFile owner repo filePath fileOptions)
                    (Repositories_UpdateFile (client pc) owner repo filePath fileOptions) ;;
          match uerr with
          | Some _ => greturn (Some ("failed to update file: " ++ errText uerr))
          | None => greturn None
          end
      end
  end.

Definition robot : string := Strings.bytes [240; 159; 164; 150].
Definition barChart : string := Strings.bytes [240; 159; 147; 138].
Definition warningSign : string := Strings.bytes [226; 154; 160; 239; 184; 143].
Definition testTube : string := Strings.bytes [240; 159; 167; 170].
Definition checkMark : string := Strings.bytes [226; 156; 133].
Definition wrench : string := Strings.bytes [240; 159; 148; 167].

(** [buildPRDescription] *)
Definition buildPRDescription {R} (pc : PRCreator R) (originalFile : string)
    (coverage : float) : string :=
  String.concat EmptyString
    [ "## " ++ robot ++ " Auto-Generated Unit Tests" ++ nl ++ nl;
      "This PR contains automatically generated unit tests for `" ++ originalFile ++ "`." ++ nl ++ nl;
      "### " ++ barChart ++ " Coverage Information" ++ nl;
      "- **Original Coverage**: " ++ formatPercent (client pc) coverage ++ "%" ++ nl;
      "- **Coverage Threshold**: 40.00%" ++ nl;
      "- **Status**: " ++ warningSign ++ " Below threshold, tests generated" ++ nl ++ nl;
      "### " ++ testTube ++ " Generated Tests Include" ++ nl;
      "- Basic functionality tests" ++ nl;
      "- Edge case handling" ++ nl;
      "- Error condition testing" ++ nl;
      "- Input validation tests" ++ nl ++ nl;
      "### " ++ checkMark ++ " Review Checklist" ++ nl;
      "- [ ] Tests cover the main functionality" ++ nl;
      "- [ ] Tests include proper error handling" ++ nl;
      "- [ ] Test names are descriptive" ++ nl;
      "- [ ] Tests are independent and repeatable" ++ nl;
      "- [ ] No hardcoded values in tests" ++ nl ++ nl;
      "### " ++ wrench ++ " Next Steps" ++ nl;
      "1. Review the generated tests" ++ nl;
      "2. Run `go test` to ensure all tests pass" ++ nl;
      "3. Modify or add additional tests if needed" ++ nl;
      "4. Merge when tests are satisfactory" ++ nl ++ nl;
      "---" ++ nl;
      "*This PR was automatically created by the Auto Test Generator workflow.*" ].

(** [CreateTestPR].  [resp.StatusCode] is read when the branch lookup
    returned an error, and [mainRef.Object.SHA] when the new reference is
    built. *)
Definition CreateTestPR {R} (pc : PRCreator R)
    (originalFile testFileName testContent branchName : string) (coverage : float)
  : G R error :=
  let owner := repoOwner pc in
  let repo := repoName pc in
  main <~ request (GetRef owner repo "refs/heads/main")
            (Git_GetRef (client pc) owner repo "refs/heads/main") ;;
  let mainRef := fst (fst main) in
  match snd main with
  | Some _ => greturn (Some ("failed to get main branch ref: " ++ errText (snd main)))
  | None =>
      let branchRef := "refs/heads/" ++ branchName in
      found <~ request (GetRef owner repo branchRef)
                 (Git_GetRef (client pc) owner repo branchRef) ;;
      let resp := snd (fst found) in
      let err := snd found in
      checked <~
        match err with
        | None =>
            del <~ request (DeleteRef owner repo branchRef)
                     (Git_DeleteRef (client pc) owner repo branchRef) ;;
            match snd del with
            | Some _ =>
                greturn (Some ("failed to delete existing branch: " ++ errText (snd del)))
            | None => greturn None
            end
        | Some _ =>
            match resp with
            | None => gpanic "nil pointer dereference"
            | Some rsp =>
                if negb (StatusCode rsp =? 404)%Z
                then greturn (Some ("failed to check branch existence: " ++ errText err))
                else greturn None
            end
        end ;;
      match checked with
      | Some _ => greturn checked
      | None =>
          match mainRef with
          | None => gpanic "nil pointer dereference"
          | Some mref =>
              match Object mref with
              | None => gpanic "nil pointer dereference"
              | Some obj =>
                  let newRef :=
                    mkReference (Some branchRef) (Some (mkGitObject (ObjectSHA obj))) in
                  cerr <~ request (CreateRef owner repo newRef)
                            (Git_CreateRef (client pc) owner repo newRef) ;;
                  match cerr with
                  | Some _ => greturn (Some ("failed to create branch: " ++ errText cerr))
                  | None =>
                      ferr <~ createOrUpdateFile pc testFileName testContent branchName ;;
                      match ferr with
                      | Some _ =>
                          greturn (Some ("failed to create test file: " ++ errText ferr))
                      | None =>
                          let title := testTube ++ " Auto-generated tests for " ++ originalFile in
                          let body := buildPRDescription pc originalFile coverage in
                          let pr :=
                            mkNewPullRequest (Some title) (Some branchName)
                              (Some "main") (Some body) in
                          perr <~ request (CreatePullRequest owner repo pr)
                                    (PullRequests_Create (client pc) owner repo pr) ;;
                          match perr with
                          | Some _ =>
                              greturn (Some ("failed to create pull request: " ++ errText perr))
                          | None => greturn None
                          end
                      end
                  end
              end
          end
      end
  end.

End Publisher.

(** ** A small hosting service, to run the publisher on

    Branch heads and file hashes in association lists, and a connection
    that answers a fixed number of requests before it is lost; a request
    on a lost connection returns a transport error and no response. *)

Module SimpleRemote.

Import Github.

Record Remote : Type := mkRemote {
  refs : list (string * string);
  blobs : list (string * string * string);
  answers : nat
}.

Definition lost : string := "dial tcp: connection refused".

Fixpoint lookup (key : string) (table : list (string * string)) : option string :=
  match table with
  | [] => None
  | (k, v) :: rest => if String.eqb k key then Some v else lookup key rest
  end.

Fixpoint lookupBlob (branch path : string) (table : list (string * string * string))
  : option string :=
  match table with
  | [] => None
  | (b, p, sha) :: rest =>
      if String.eqb b branch && String.eqb p path then Some sha
      else lookupBlob branch path rest
  end.

Definition spend (r : Remote) : Remote :=
  mkRemote (refs r) (blobs r) (Nat.pred (answers r)).

Definition getRef (owner repo ref : string) (r : Remote)
  : (option Reference * option Response * error) * Remote :=
  match answers r with
  | O => ((None, None, Some lost), r)
  | S _ =>
      match lookup ref (refs r) with
      | Some sha =>
          ((Some (mkReference (Some ref) (Some (mkGitObject (Some sha)))),
            Some (mkResponse 200), None), spend r)
      | None =>
          ((None, Some (mkResponse 404), Some "no match found for this ref"), spend r)
      end
  end.

Definition deleteRef (owner repo ref : string) (r : Remote)
  : (option Response * error) * Remote :=
  match answers r with
  | O => ((None, Some lost), r)
  | S n =>
      match lookup ref (refs r) with
      | Some _ =>
          ((Some (mkResponse 204), None),
           mkRemote (filter (fun kv => negb (String.eqb (fst kv) ref)) (refs r)) (blobs r) n)
      | None => ((Some (mkResponse 422), Some "Reference does not exist"), spend r)
      end
  end.

Definition createRef (owner repo : string) (ref : Reference) (r : Remote)
  : error * Remote :=
  match answers r with
  | O => (Some lost, r)
  | S n =>
      match Ref ref, Object ref with
      | Some name, Some (mkGitObject (Some sha)) =>
          match lookup name (refs r) with
          | Some _ => (Some "Reference already exists", spend r)
          | None => (None, mkRemote ((name, sha) :: refs r) (blobs r) n)
          end
      | _, _ => (Some "Invalid request", spend r)
      end
  end.

Definition getContents (owner repo path ref : string) (r : Remote)
  : (option RepositoryContent * option Response * error) * Remote :=
  match answers r with
  | O => ((None, None, Some lost), r)
  | S _ =>
      match lookupBlob ref path (blobs r) with
      | Some sha =>
          ((Some (mkRepositoryContent (Some sha)), Some (mkResponse 200), None), spend r)
      | None => ((None, Some (mkResponse 404), Some "Not Found"), spend r)
      end
  end.

Definition putFile (owner repo path : string) (opts : RepositoryContentFileOptions)
    (r : Remote) : error * Remote :=
  match answers r with
  | O => (Some lost, r)
  | S n =>
      match Branch opts with
      | None => (Some "Invalid request", spend r)
      | Some branch =>
          let current := lookupBlob branch path (blobs r) in
          let matches :=
            match current, SHA opts with
            | None, None => true
            | Some a, Some b => String.eqb a b
            | _, _ => false
            end in
          if matches
          then (None, mkRemote (refs r) ((branch, path, "sha:" ++ Content opts) :: blobs r) n)
          else (Some "sha does not match", spend r)
      end
  end.

Definition createPull (owner repo : string) (pull : NewPullRequest) (r : Remote)
  : error * Remote :=
  match answers r with
  | O => (Some lost, r)
  | S _ => (None, spend r)
  end.

Definition api : Client Remote :=
  mkClient Remote getRef deleteRef createRef getContents putFile putFile createPull
    (fun _ => "0.00").

Definition creator : PRCreator Remote := mkPRCreator Remote api "owner" "repo".

End SimpleRemote.

(** ** The clean-up of generated test text *)

Module TestGenerator.

Definition dquote : string := String (ascii_of_nat 34) EmptyString.

(** The quoted import path looked for in the text. *)
Definition quotedTesting : string := dquote ++ "testing" ++ dquote.

(** The loop over the lines that writes every line back and, after the
    first line that starts with [package ] once trimmed, the import. *)
Fixpoint insertImport (lines : list string) (importAdded : bool) : string :=
  match lines with
  | [] => EmptyString
  | line :: rest =>
      (line ++ nl) ++
      (if Strings.HasPrefix (Strings.TrimSpace line) "package " && negb importAdded
       then (nl ++ "import " ++ quotedTesting ++ nl) ++ insertImport rest true
       else insertImport rest importAdded)
  end.

(** [cleanupGeneratedCode]; the third argument, the list of imports, is
    not used. *)
Definition cleanupGeneratedCode (generatedCode packageName : string)
    (_ : list string) : string :=
  let generatedCode := Strings.ReplaceAll generatedCode "```go" EmptyString in
  let generatedCode := Strings.ReplaceAll generatedCode "```" EmptyString in
  let generatedCode :=
    if negb (Strings.Contains generatedCode "package ")
    then "package " ++ packageName ++ nl ++ nl ++ generatedCode
    else generatedCode in
  let generatedCode :=
    if negb (Strings.Contains generatedCode quotedTesting)
    then insertImport (Strings.Split generatedCode LF) false
    else generatedCode in
  Strings.TrimSpace generatedCode.

End TestGenerator.

(** ** [main.go]: the name of the branch *)

Module Driver.

(** [createBranchName]; [filepath_Dir] is [filepath.Dir] and [mapToLower]
    the Unicode path of [strings.ToLower]. *)
Definition createBranchName (filepath_Dir : string -> string)
    (mapToLower : string -> string) (filePath : string) : string :=
  let dir := filepath_Dir filePath in
  if String.eqb dir "." then "auto-tests-root"
  else
    let branchName := Strings.ReplaceAll dir "/" "-" in
    let branchName := Strings.ReplaceAll branchName "_" "-" in
    let branchName := Strings.ToLower mapToLower branchName in
    "auto-tests-" ++ branchName.

End Driver.

(** ** More of Go's [strings] package, for the test generator *)

Module StringsMore.

(** [strings.TrimPrefix(s, prefix)] *)
Definition TrimPrefix (s prefix : string) : string :=
  match Regexp.stripPrefix prefix s with
  | Some rest => rest
  | None => s
  end.

(** What a finished field adds to the result: nothing when no byte was
    read since the last white space. *)
Definition flush (field : string) : list string :=
  if String.eqb field EmptyString then [] else [field].

(** The scan of [strings.Fields]: [field] holds the bytes read since the
    last white-space rune, [skip] counts the bytes of a matched rune still
    to be dropped. *)
Fixpoint fields_from (skip : nat) (field : string) (s : string) : list string :=
  match s with
  | EmptyString => flush field
  | String c s' =>
      match skip with
      | S k => fields_from k field s'
      | O =>
          match Strings.matchLen Strings.spaceRunes s with
          | S k => (flush field ++ fields_from k EmptyString s')%list
          | O => fields_from 0 (field ++ String c EmptyString) s'
          end
      end
  end.

(** [strings.Fields(s)]: the pieces of [s] between runs of white-space
    runes, none of them empty. *)
Definition Fields (s : string) : list string := fields_from 0 EmptyString s.

End StringsMore.

Module Generator.

(** One line of the scan of [extractPackageInfo]. *)
Definition scanLine (st : string * list string * bool) (raw : string)
  : string * list string * bool :=
  let '(packageName, imports, inImportBlock) := st in
  let line := Strings.TrimSpace raw in
  let packageName :=
    if Strings.HasPrefix line "package " then
      match StringsMore.Fields line with
      | _ :: second :: _ => second
      | _ => packageName
      end
    else packageName in
  if Strings.HasPrefix line "import (" then (packageName, imports, true)
  else if inImportBlock then
    if String.eqb line ")" then (packageName, imports, false)
    else if negb (String.eqb line EmptyString) && negb (Strings.HasPrefix line "//")
         then (packageName, (imports ++ [line])%list, true)
         else (packageName, imports, true)
  else if Strings.HasPrefix line "import "
       then (packageName, (imports ++ [StringsMore.TrimPrefix line "import "])%list, false)
       else (packageName, imports, false).

(** [extractPackageInfo] *)
Definition extractPackageInfo (content : string) : string * list string :=
  let '(packageName, imports, _) :=
    fold_left scanLine (Strings.Split content LF) (EmptyString, [], false) in
  (packageName, imports).

(** The part of the prompt written for one function. *)
Definition functionSection (fn : FunctionInfo) : string :=
  nl ++ "Function: " ++ Name fn ++ nl ++ "```go" ++ nl ++ Content fn ++ "```" ++ nl.

(** [buildPrompt] *)
Definition buildPrompt (filePath originalContent : string)
    (functions : list FunctionInfo) (packageName : string) : string :=
  String.concat EmptyString
    [ "You are a Go unit test generator. Generate comprehensive unit tests for the following Go functions." ++ nl ++ nl;
      "Requirements:" ++ nl;
      "1. Use the standard Go testing package" ++ nl;
      "2. Generate basic unit tests with good coverage" ++ nl;
      "3. Include edge cases and error handling tests" ++ nl;
      "4. Use descriptive test names" ++ nl;
      "5. Add comments explaining test scenarios" ++ nl;
      "6. Follow Go testing best practices" ++ nl;
      "7. Make tests independent and repeatable" ++ nl ++ nl;
      "Original file: " ++ filePath ++ nl;
      "Package: " ++ packageName ++ nl ++ nl;
      "Original file content for context:" ++ nl;
      "```go" ++ nl;
      originalContent;
      nl ++ "```" ++ nl ++ nl;
      "Generate unit tests for these functions:" ++ nl;
      String.concat EmptyString (map functionSection functions);
      nl ++ "Generate ONLY the Go test file content. Start with package declaration and imports, then provide the test functions." ].

End Generator.

(** ** The process of the whole tool

    The test generator and the driver act on the operating system, on the
    generative model and on the hosting service.  Their effects are logged
    in one list, oldest first. *)

Module Tool.

Inductive Effect : Type :=
| OsCall (c : Call)
| ReadFile (name : string)
| WriteFile (name content : string) (perm : Z)
| NewClient (apiKey : string)
| GenerateContent (model temperature prompt : string)
| ApiCall (q : Github.Request)
| CreateComment (owner repo : string) (number : Z) (body : string)
| LogLine (text : string).

(** The machine the tool runs on [sys], the remote side of the hosting
    service [hub], and the log. *)
Record State (W R : Type) : Type := mkState {
  sys : W;
  hub : R;
  effects : list Effect
}.
Arguments mkState {W R}.
Arguments sys {W R}.
Arguments hub {W R}.
Arguments effects {W R}.

(** A computation that returns or panics, and leaves a state. *)
Definition T (W R A : Type) : Type := State W R -> outcome A * State W R.

Definition tret {W R A} (a : A) : T W R A := fun st => (Returns a, st).

Definition tpanic {W R A} (reason : string) : T W R A := fun st => (Panics reason, st).

Definition tbind {W R A B} (m : T W R A) (k : A -> T W R B) : T W R B :=
  fun st => match m st with
            | (Returns a, st') => k a st'
            | (Panics r, st') => (Panics r, st')
            end.

(** One logged effect on the machine. *)
Definition onSys {W R A} (e : Effect) (op : W -> A * W) : T W R A :=
  fun st => let (a, w') := op (sys st) in
            (Returns a, mkState w' (hub st) (effects st ++ [e])).

(** One logged effect on the hosting service. *)
Definition onHub {W R A} (e : Effect) (op : R -> A * R) : T W R A :=
  fun st => let (a, r') := op (hub st) in
            (Returns a, mkState (sys st) r' (effects st ++ [e])).

(** A line written by package [log]. *)
Definition logLine {W R} (text : string) : T W R unit :=
  fun st => (Returns tt, mkState (sys st) (hub st) (effects st ++ [LogLine text])).

(** A computation of the prober, run on the machine. *)
Definition ofM {W R A} (m : M W A) : T W R A :=
  fun st => let (a, p) := m (mkProc (sys st) []) in
            (Returns a, mkState (world p) (hub st) (effects st ++ map OsCall (calls p))).

(** A computation of the publisher, run on the hosting service. *)
Definition ofG {W R A} (m : Github.G R A) : T W R A :=
  fun st => let (o, s) := m (Github.mkSession (hub st) []) in
            (o, mkState (sys st) (Github.remote s)
                  (effects st ++ map ApiCall (Github.requests s))).

(** [defer cleanup] around [body]: [cleanup] runs when [body] returns or
    panics. *)
Definition deferring {W R A} (cleanup : T W R unit) (body : T W R A) : T W R A :=
  fun st => let (o, st1) := body st in (o, snd (cleanup st1)).

End Tool.

Notation "x <-- m ;; k" := (Tool.tbind m (fun x => k))
  (at level 61, m at next level, right associativity).

(** ** The generative model, as the test generator meets it *)

Module Genai.

(** [genai.Part]: text, or data of another kind. *)
Inductive Part : Type :=
| Text (text : string)
| Blob (mimeType data : string).

(** [genai.Content], [genai.Candidate] and
    [genai.GenerateContentResponse]; a Go pointer is an option. *)
Record Content : Type := mkContent { Parts : list Part }.

Record Candidate : Type := mkCandidate { CandidateContent : option Content }.

Record GenerateContentResponse : Type := mkGenerateContentResponse {
  Candidates : list (option Candidate)
}.

End Genai.

(** The machine of the test generator: the operating system of the
    prober, files read and written, and the client of the generative
    model. *)
Record Machine (W : Type) : Type := mkMachine {
  machine_os : OS W;
  os_ReadFileAt : string -> W -> (string * error) * W;
  os_WriteFile : string -> string -> Z -> W -> error * W;
  genai_NewClient : string -> W -> error * W;
  genai_GenerateContent : string -> string -> string -> W ->
                          (option Genai.GenerateContentResponse * error) * W
}.
Arguments machine_os {W}.
Arguments os_ReadFileAt {W}.
Arguments os_WriteFile {W}.
Arguments genai_NewClient {W}.
Arguments genai_GenerateContent {W}.

Module GeneratorIO.

Import Tool.

Section WithMachine.

Context {W R : Type}.
Variable m : Machine W.

(** One logged call of the prober's operating system. *)
Definition osCall {A} (c : Call) (op : W -> A * W) : T W R A := onSys (OsCall c) op.

(** [resolveFilePath], the same text as in [coverage-analyzer.go]. *)
Definition resolveFilePath (filePath : string) : T W R string :=
  ofM (CoverageAnalyzerResolved.resolveFilePath (machine_os m) filePath).

(** [validateGeneratedCode].  The deferred calls run last in, first out:
    the working directory is set back before the temporary file is
    removed. *)
Definition validateGeneratedCode (originalFilePath testContent : string) : T W R error :=
  let os := machine_os m in
  let testFilePath := Strings.TrimSuffix originalFilePath ".go" ++ "_test_temp.go" in
  werr <-- onSys (WriteFile testFilePath testContent 420)
             (os_WriteFile m testFilePath testContent 420) ;;
  match werr with
  | Some _ => tret (Some ("failed to write temp test file: " ++ errText werr))
  | None =>
      deferring (_ <-- osCall (CallRemove testFilePath) (os_Remove os testFilePath) ;; tret tt)
        (let packageDir := filepath_Dir os originalFilePath in
         let packageDir := if String.eqb packageDir EmptyString then "." else packageDir in
         ab <-- osCall (CallAbs packageDir) (filepath_Abs os packageDir) ;;
         let absPackageDir := fst ab in
         match snd ab with
         | Some _ => tret (Some ("failed to get absolute path: " ++ errText (snd ab)))
         | None =>
             wd <-- osCall CallGetwd (os_Getwd os) ;;
             let originalDir := fst wd in
             match snd wd with
             | Some _ =>
                 tret (Some ("failed to get current directory: " ++ errText (snd wd)))
             | None =>
                 cd <-- osCall (CallChdir absPackageDir) (os_Chdir os absPackageDir) ;;
                 match cd with
                 | Some _ =>
                     tret (Some ("failed to change to package directory: " ++ errText cd))
                 | None =>
                     deferring
                       (_ <-- osCall (CallChdir originalDir) (os_Chdir os originalDir) ;;
                        tret tt)
                       (tret None)
                 end
             end
         end)
  end.

(** The loop that joins the text parts of a candidate. *)
Definition textOf (parts : list Genai.Part) : string :=
  fold_left (fun generatedCode part =>
               match part with
               | Genai.Text text => generatedCode ++ text
               | _ => generatedCode
               end) parts EmptyString.

(** [GenerateTests].  The response, its first candidate and the content of
    that candidate are read through pointers. *)
Definition GenerateTests (filePath : string) (functions : list FunctionInfo)
  : T W R (string * error) :=
  resolvedPath <-- resolveFilePath filePath ;;
  read <-- onSys (ReadFile resolvedPath) (os_ReadFileAt m resolvedPath) ;;
  match snd read with
  | Some _ =>
      tret (EmptyString, Some ("failed to read original file: " ++ errText (snd read)))
  | None =>
      let originalContent := fst read in
      let (packageName, imports) := Generator.extractPackageInfo originalContent in
      let prompt := Generator.buildPrompt filePath originalContent functions packageName in
      got <-- onSys (GenerateContent "gemini-1.5-flash" "0.3" prompt)
                (genai_GenerateContent m "gemini-1.5-flash" "0.3" prompt) ;;
      match snd got with
      | Some _ =>
          tret (EmptyString, Some ("failed to generate content: " ++ errText (snd got)))
      | None =>
          match fst got with
          | None => tpanic "nil pointer dereference"
          | Some resp =>
              match Genai.Candidates resp with
              | [] => tret (EmptyString, Some "no content generated")
              | first :: _ =>
                  match first with
                  | None => tpanic "nil pointer dereference"
                  | Some candidate =>
                      match Genai.CandidateContent candidate with
                      | None => tpanic "nil pointer dereference"
                      | Some content =>
                          let generatedCode := textOf (Genai.Parts content) in
                          let testContent :=
                            TestGenerator.cleanupGeneratedCode generatedCode packageName
                              imports in
                          verr <-- validateGeneratedCode resolvedPath testContent ;;
                          match verr with
                          | Some _ =>
                              tret (EmptyString,
                                    Some ("generated code doesn't compile: " ++ errText verr))
                          | None => tret (testContent, None)
                          end
                      end
                  end
              end
          end
      end
  end.

End WithMachine.

End GeneratorIO.

(** ** [strconv.Atoi] *)

Module Strconv.

Fixpoint onlyDigits (s : string) : bool :=
  match s with
  | EmptyString => true
  | String c rest => Regexp.isDigit c && onlyDigits rest
  end.

Fixpoint digitsValue (acc : Z) (s : string) : Z :=
  match s with
  | EmptyString => acc
  | String c rest => digitsValue (10 * acc + (Z.of_nat (nat_of_ascii c) - 48)) rest
  end.

(** [strconv.Atoi(s)] for a 64-bit [int]: an optional sign and decimal
    digits.  [quote] is [strconv.Quote], which the text of the error
    applies to [s]. *)
Definition Atoi (quote : string -> string) (s : string) : Z * error :=
  let syntax := "strconv.Atoi: parsing " ++ quote s ++ ": invalid syntax" in
  let range := "strconv.Atoi: parsing " ++ quote s ++ ": value out of range" in
  let (negative, digits) :=
    match s with
    | String c rest =>
        if Ascii.eqb c "-" then (true, rest)
        else if Ascii.eqb c "+" then (false, rest)
        else (false, s)
    | EmptyString => (false, s)
    end in
  if String.eqb digits EmptyString || negb (onlyDigits digits) then (0%Z, Some syntax)
  else
    let n := digitsValue 0 digits in
    if negative
    then (if (2 ^ 63 <? n)%Z then ((- 2 ^ 63)%Z, Some range) else ((- n)%Z, None))
    else (if (2 ^ 63 - 1 <? n)%Z then ((2 ^ 63 - 1)%Z, Some range) else (n, None)).

End Strconv.

(** ** [main.go]: the driver *)

(** [Config] *)
Record Config : Type := mkConfig {
  PRNumber : string;
  ChangedFiles : string;
  RepoOwner : string;
  RepoName : string;
  GithubToken : string;
  GeminiAPIKey : string;
  CoverageThreshold : float
}.

(** The revision of [coverage-analyzer.go] the tool is built with. *)
Inductive Revision : Type :=
| Direct
| Resolving.

(** What the driver is built on: the machine, the Go parser and Unicode
    tables, the client of the hosting service made for a token, the
    comments on issues, and [strconv.Quote]. *)
Record Services (W R : Type) : Type := mkServices {
  machine : Machine W;
  source : SourceEnv;
  unicode_ToLower : string -> string;
  github_NewClient : string -> Github.Client R;
  Issues_CreateComment : string -> string -> Z -> string -> R -> error * R;
  strconv_Quote : string -> string;
  revision : Revision
}.
Arguments machine {W R}.
Arguments source {W R}.
Arguments unicode_ToLower {W R}.
Arguments github_NewClient {W R}.
Arguments Issues_CreateComment {W R}.
Arguments strconv_Quote {W R}.
Arguments revision {W R}.

Module Main.

Import Tool.

Section WithServices.

Context {W R : Type}.
Variable sv : Services W R.

(** [NewPRCreator] *)
Definition NewPRCreator (token repoOwner repoName : string) : PRCreator R :=
  mkPRCreator R (github_NewClient sv token) repoOwner repoName.

(** [CommentOnPR] *)
Definition CommentOnPR (pc : PRCreator R) (prNumber message : string) : T W R error :=
  if String.eqb prNumber EmptyString then tret None
  else
    let (prNum, err) := Strconv.Atoi (strconv_Quote sv) prNumber in
    match err with
    | Some _ => tret (Some ("invalid PR number: " ++ errText err))
    | None =>
        cerr <-- onHub (CreateComment (repoOwner pc) (repoName pc) prNum message)
                   (Issues_CreateComment sv (repoOwner pc) (repoName pc) prNum message) ;;
        match cerr with
        | Some _ => tret (Some ("failed to create comment: " ++ errText cerr))
        | None => tret None
        end
    end.

(** [AnalyzeFile] of the revision built in. *)
Definition AnalyzeFile (filePath : string) (threshold : float)
  : T W R (bool * float * error) :=
  match revision sv with
  | Direct => ofM (CoverageAnalyzer.AnalyzeFile (machine_os (machine sv)) filePath threshold)
  | Resolving =>
      ofM (CoverageAnalyzerResolved.AnalyzeFile (machine_os (machine sv)) filePath threshold)
  end.

(** [ExtractModifiedFunctions] of the revision built in: the file is read
    from the machine, at the resolved path in the later revision. *)
Definition ExtractModifiedFunctions (filePath : string)
  : T W R (list FunctionInfo * error) :=
  resolvedPath <--
    match revision sv with
    | Direct => tret filePath
    | Resolving => GeneratorIO.resolveFilePath (machine sv) filePath
    end ;;
  read <-- onSys (ReadFile resolvedPath) (os_ReadFileAt (machine sv) resolvedPath) ;;
  fun st =>
    (CoverageAnalyzer.ExtractModifiedFunctions
       (mkSourceEnv
          (fun _ => match snd read with
                    | None => inl (fst read)
                    | Some e => inr e
                    end)
          (parser_ParseFile (source sv)) (upperNonASCII (source sv)))
       resolvedPath, st).

(** [createBranchName] *)
Definition createBranchName (filePath : string) : string :=
  Driver.createBranchName (filepath_Dir (machine_os (machine sv))) (unicode_ToLower sv)
    filePath.

Definition crossMark : string := Strings.bytes [226; 157; 140].

(** The verb [%.2f] followed by a percent sign. *)
Definition percent (pc : PRCreator R) (coverage : float) : string :=
  Github.formatPercent (client pc) coverage ++ "%".

(** The body of the loop of [main] for one line of the changed files. *)
Definition processFile (config : Config) (pc : PRCreator R) (file : string) : T W R unit :=
  let file := Strings.TrimSpace file in
  if String.eqb file EmptyString then tret tt
  else
    _ <-- logLine ("Processing file: " ++ file) ;;
    analysis <-- AnalyzeFile file (CoverageThreshold config) ;;
    let needsTests := fst (fst analysis) in
    let coverage := snd (fst analysis) in
    match snd analysis with
    | Some _ =>
        _ <-- logLine ("Error analyzing coverage for " ++ file ++ ": " ++
                       errText (snd analysis)) ;;
        _ <-- CommentOnPR pc (PRNumber config)
                (crossMark ++ " Failed to analyze coverage for `" ++ file ++ "`: " ++
                 errText (snd analysis)) ;;
        tret tt
    | None =>
        if negb needsTests then
          logLine ("File " ++ file ++ " has sufficient coverage (" ++
                   percent pc coverage ++ "), skipping")
        else
          _ <-- logLine ("File " ++ file ++ " needs tests (coverage: " ++
                         percent pc coverage ++ ")") ;;
          extracted <-- ExtractModifiedFunctions file ;;
          let functions := fst extracted in
          match snd extracted with
          | Some _ =>
              _ <-- logLine ("Error extracting functions from " ++ file ++ ": " ++
                             errText (snd extracted)) ;;
              _ <-- CommentOnPR pc (PRNumber config)
                      (crossMark ++ " Failed to extract functions from `" ++ file ++ "`: " ++
                       errText (snd extracted)) ;;
              tret tt
          | None =>
              match functions with
              | [] => logLine ("No functions found in " ++ file ++ " that need testing")
              | _ :: _ =>
                  generated <--
                    GeneratorIO.GenerateTests (machine sv) file functions ;;
                  let testContent := fst generated in
                  match snd generated with
                  | Some _ =>
                      _ <-- logLine ("Error generating tests for " ++ file ++ ": " ++
                                     errText (snd generated)) ;;
                      _ <-- CommentOnPR pc (PRNumber config)
                              (crossMark ++ " Failed to generate tests for `" ++ file ++
                               "`: " ++ errText (snd generated)) ;;
                      tret tt
                  | None =>
                      let testFileName := Strings.TrimSuffix file ".go" ++ "_test.go" in
                      let branchName := createBranchName file in
                      perr <-- ofG (Publisher.CreateTestPR pc file testFileName testContent
                                      branchName coverage) ;;
                      match perr with
                      | Some _ =>
                          _ <-- logLine ("Error creating PR for " ++ file ++ ": " ++
                                         errText perr) ;;
                          _ <-- CommentOnPR pc (PRNumber config)
                                  (crossMark ++ " Failed to create PR for tests of `" ++
                                   file ++ "`: " ++ errText perr) ;;
                          tret tt
                      | None =>
                          _ <-- logLine ("Successfully created test PR for " ++ file) ;;
                          _ <-- CommentOnPR pc (PRNumber config)
                                  (Publisher.checkMark ++ " Generated unit tests for `" ++
                                   file ++ "` (coverage was " ++ percent pc coverage ++
                                   "). New PR created with branch `" ++ branchName ++ "`") ;;
                          tret tt
                      end
                  end
              end
          end
    end.

(** The loop of [main]. *)
Fixpoint processFiles (config : Config) (pc : PRCreator R) (changedFiles : list string)
  : T W R unit :=
  match changedFiles with
  | [] => tret tt
  | file :: rest =>
      _ <-- processFile config pc file ;;
      processFiles config pc rest
  end.

(** [main], from the parsed flags on.  [NewTestGenerator] panics when the
    client of the generative model cannot be made. *)
Definition main (config : Config) : T W R unit :=
  if String.eqb (ChangedFiles config) EmptyString
  then logLine "No changed files to process"
  else
    nerr <-- onSys (NewClient (GeminiAPIKey config))
               (genai_NewClient (machine sv) (GeminiAPIKey config)) ;;
    match nerr with
    | Some _ => tpanic ("Failed to create Gemini client: " ++ errText nerr)
    | None =>
        let prCreator :=
          NewPRCreator (GithubToken config) (RepoOwner config) (RepoName config) in
        _ <-- processFiles config prCreator (Strings.Split (ChangedFiles config) LF) ;;
        logLine "Test generation process completed"
    end.

End WithServices.

End Main.

(** ** A small machine, to run the generator and the driver on

    The small operating system, the text of its files, and a generative
    model with one answer to every prompt. *)

Module SimpleMachine.

Record World : Type := mkWorld {
  base : SimpleOS.World;
  texts : list (string * string);
  answer : option Genai.GenerateContentResponse * error
}.

(** An operation of the small operating system, on the machine. *)
Definition lift {A} (op : SimpleOS.World -> A * SimpleOS.World) (w : World) : A * World :=
  let (a, b) := op (base w) in (a, mkWorld b (texts w) (answer w)).

Definition remove (name : string) (w : World) : error * World :=
  let (e, b) := SimpleOS.remove name (base w) in
  (e, mkWorld b
        (filter (fun kv => negb (String.eqb (fst kv) (SimpleOS.resolve (base w) name)))
           (texts w))
        (answer w)).

Definition os : OS World :=
  mkOS World (fun name => lift (SimpleOS.stat name)) SimpleOS.isNotExist
    (lift SimpleOS.getwd) (fun dir => lift (SimpleOS.chdir dir)) remove
    (fun path => lift (SimpleOS.abs path)) Filepath.Dir Filepath.Join
    (fun argv => lift (SimpleOS.run argv)) SimpleOS.parseFloat.

Definition readFile (name : string) (w : World) : (string * error) * World :=
  match SimpleRemote.lookup (SimpleOS.resolve (base w) name) (texts w) with
  | Some text => ((text, None), w)
  | None => ((EmptyString, Some ("open " ++ name ++ ": " ++ SimpleOS.ENOENT)), w)
  end.

(** A file is written where its directory exists. *)
Definition writeFile (name content : string) (perm : Z) (w : World) : error * World :=
  let path := SimpleOS.resolve (base w) name in
  if SimpleOS.member (Filepath.Dir path) (SimpleOS.dirs (base w))
  then (None,
        mkWorld
          (SimpleOS.mkWorld (SimpleOS.cwd (base w)) (SimpleOS.dirs (base w))
             (path :: SimpleOS.files (base w)) (SimpleOS.run_output (base w))
             (SimpleOS.run_error (base w)) (SimpleOS.run_writes_profile (base w)))
          ((path, content) :: texts w) (answer w))
  else (Some ("open " ++ name ++ ": " ++ SimpleOS.ENOENT), w).

Definition newClient (apiKey : string) (w : World) : error * World := (None, w).

Definition generate (model temperature prompt : string) (w : World)
  : (option Genai.GenerateContentResponse * error) * World :=
  (answer w, w).

Definition machine : Machine World := mkMachine World os readFile writeFile newClient generate.

End SimpleMachine.

(** ** Small services, to run the driver on *)

Module SimpleServices.

Definition createComment (owner repo : string) (number : Z) (body : string)
    (r : SimpleRemote.Remote) : error * SimpleRemote.Remote :=
  match SimpleRemote.answers r with
  | O => (Some SimpleRemote.lost, r)
  | S _ => (None, SimpleRemote.spend r)
  end.

(** [strconv.Quote] on texts that need no escape. *)
Definition quote (s : string) : string :=
  TestGenerator.dquote ++ s ++ TestGenerator.dquote.

End SimpleServices.

(** * The vocabulary of the statements *)

(** ** Byte strings *)

Fixpoint sdrop (n : nat) (s : string) : string :=
  match n, s with
  | O, _ => s
  | S _, EmptyString => EmptyString
  | S k, String _ rest => sdrop k rest
  end.

Definition noLF (s : string) : bool := negb (Strings.existsByte (Ascii.eqb LF) s).

(** Concatenations of members of [runes]. *)
Inductive Runs (runes : list string) : string -> Prop :=
| Runs_nil : Runs runes EmptyString
| Runs_cons r s : In r runes -> Runs runes s -> Runs runes (r ++ s).

(** Two runes are the same, or neither starts the other. *)
Definition unrelated (r r' : string) : bool :=
  String.eqb r r' || negb (Strings.HasPrefix r r' || Strings.HasPrefix r' r).

(** No member of [runes] starts another one, and none is empty. *)
Definition prefixFree (runes : list string) : bool :=
  forallb (fun r => negb (String.eqb r EmptyString) && forallb (unrelated r) runes) runes.

(** A continuation byte of UTF-8. *)
Definition isCont (c : ascii) : bool :=
  ((128 <=? nat_of_ascii c) && (nat_of_ascii c <? 192))%nat.

(** A rune starts with a byte that is no continuation byte and goes on
    with continuation bytes only. *)
Definition wellFormedRune (r : string) : bool :=
  match r with
  | EmptyString => false
  | String h t =>
      negb (isCont h) && negb (Strings.existsByte (fun c => negb (isCont c)) t)
  end.

(** ** The function extractor *)

(** What [parser.ParseFile] guarantees of a function declaration: it has
    a name, and its position is on a line of the file. *)
Definition parsed_decl (d : Ast.Decl) : Prop :=
  match d with
  | Ast.Func fn => Ast.Name fn <> None /\ (1 <= Ast.PosLine fn)%Z
  | Ast.Gen _ => True
  end.

(** A source file of three one-statement functions: one whose name starts
    with the reserved prefix, one unexported, one exported. *)
Definition netutil_go : string :=
  String.concat nl
    [ "package netutil";
      EmptyString;
      "func TestConnection(addr string) error {";
      "    return dial(addr)";
      "}";
      EmptyString;
      "func dial(addr string) error {";
      "    return nil";
      "}";
      EmptyString;
      "func Address() string {";
      "    return defaultAddress";
      "}";
      EmptyString ].

Definition netutil_ast : Ast.File :=
  Ast.mkFile
    [ Ast.Gen "package netutil";
      Ast.Func (Ast.mkFuncDecl (Some "TestConnection")
                  (Some [Ast.StmtText "return dial(addr)"]) 3 5);
      Ast.Func (Ast.mkFuncDecl (Some "dial")
                  (Some [Ast.StmtText "return nil"]) 7 9);
      Ast.Func (Ast.mkFuncDecl (Some "Address")
                  (Some [Ast.StmtText "return defaultAddress"]) 11 13) ].

Definition netutil_env : SourceEnv :=
  mkSourceEnv
    (fun path => if String.eqb path "pkg/netutil.go" then inl netutil_go
                 else inr "no such file or directory")
    (fun _ content => if String.eqb content netutil_go then inl netutil_ast
                      else inr "expected 'package'")
    (fun _ => false).

(** ** The coverage prober *)

Definition testFileOf (filePath : string) : string :=
  Strings.TrimSuffix filePath ".go" ++ "_test.go".

Definition packageDirOf {W} (os : OS W) (filePath : string) : string :=
  if String.eqb (filepath_Dir os filePath) EmptyString then "."
  else filepath_Dir os filePath.

Definition runArgv {W} (os : OS W) (filePath : string) : list string :=
  ["go"; "test"; "-cover"; "-coverprofile=coverage.out"; packageDirOf os filePath].

(** The process once [os.Stat] has answered. *)
Definition afterStat {W} (os : OS W) (filePath : string) (p : Proc W) : Proc W :=
  mkProc (snd (os_Stat os (testFileOf filePath) (world p)))
         (calls p ++ [CallStat (testFileOf filePath)]).

(** The process once the test command has returned. *)
Definition afterRun {W} (os : OS W) (filePath : string) (p : Proc W) : Proc W :=
  mkProc (snd (exec_CombinedOutput os (runArgv os filePath) (world (afterStat os filePath p))))
         (calls p ++ [CallStat (testFileOf filePath); CallRun (runArgv os filePath)]).

Definition statError {W} (os : OS W) (filePath : string) (p : Proc W) : error :=
  fst (os_Stat os (testFileOf filePath) (world p)).

Definition runResult {W} (os : OS W) (filePath : string) (p : Proc W) : string * error :=
  fst (exec_CombinedOutput os (runArgv os filePath) (world (afterStat os filePath p))).

(** The path [resolveFilePath] returns for a working directory. *)
Definition resolvedFrom {W} (os : OS W) (wd : string * error) (filePath : string) : string :=
  match snd wd with
  | None =>
      if Strings.HasSuffix (fst wd) "/scripts" || Strings.HasSuffix (fst wd) "\scripts"
      then filepath_Join os ".." filePath
      else filePath
  | Some _ => filePath
  end.

(** A checkout with a tested calculator and an untested factorial. *)
Definition repo_world (output : string) (err : error) : SimpleOS.World :=
  SimpleOS.mkWorld "/repo" ["/repo"; "/repo/pkg"]
    ["/repo/pkg/calculator.go"; "/repo/pkg/calculator_test.go"; "/repo/pkg/factorial.go"]
    output err true.

Definition passing_run : Proc SimpleOS.World :=
  mkProc (repo_world "ok   pkg   0.012s   coverage: 55.5% of statements" None) [].

Definition failing_run : Proc SimpleOS.World :=
  mkProc (repo_world "--- FAIL: TestAdd (0.00s)   FAIL   coverage: 55.5% of statements"
            (Some "exit status 1")) [].

Definition allDigits (s : string) : bool :=
  negb (Strings.existsByte (fun c => negb (Regexp.isDigit c)) s).

(** The texts of group 1: one or more digits, an optional dot, digits. *)
Definition isNumber (g : string) : Prop :=
  exists d1 d2,
    d1 <> EmptyString /\ allDigits d1 = true /\ allDigits d2 = true /\
    (g = d1 ++ d2 \/ g = d1 ++ "." ++ d2).

(** The pattern matches at the head of [s], with [g] in group 1. *)
Definition matchesAt (s g : string) : Prop :=
  isNumber g /\ exists post, s = "coverage: " ++ g ++ "% of statements" ++ post.

(** What follows a run of digits: nothing, or a byte that is no digit. *)
Definition stopsDigits (r : string) : bool :=
  match r with
  | EmptyString => true
  | String c _ => negb (Regexp.isDigit c)
  end.

(** ** The change publisher *)

Definition addOptions (filePath content branchName : string)
  : Github.RepositoryContentFileOptions :=
  Github.mkFileOptions (Some ("Add auto-generated tests for " ++ filePath))
    (Base64.EncodeToString content) (Some branchName) None.

Definition updateOptions (filePath content branchName : string) (sha : option string)
  : Github.RepositoryContentFileOptions :=
  Github.mkFileOptions (Some ("Update auto-generated tests for " ++ filePath))
    (Base64.EncodeToString content) (Some branchName) sha.

(** What [CreateTestPR] does once the branch check has passed: create the
    branch at the head of [main], write the file, open the pull request. *)
Definition createAndPublish {R} (pc : PRCreator R) (mainRef : option Github.Reference)
    (originalFile testFileName testContent branchName : string) (coverage : float)
  : Github.G R error :=
  match mainRef with
  | None => Github.gpanic "nil pointer dereference"
  | Some mref =>
      match Github.Object mref with
      | None => Github.gpanic "nil pointer dereference"
      | Some obj =>
          let newRef :=
            Github.mkReference (Some ("refs/heads/" ++ branchName))
              (Some (Github.mkGitObject (Github.ObjectSHA obj))) in
          cerr <~ Github.request (Github.CreateRef (repoOwner pc) (repoName pc) newRef)
                    (Github.Git_CreateRef (client pc) (repoOwner pc) (repoName pc) newRef) ;;
          match cerr with
          | Some _ => Github.greturn (Some ("failed to create branch: " ++ errText cerr))
          | None =>
              ferr <~ Publisher.createOrUpdateFile pc testFileName testContent branchName ;;
              match ferr with
              | Some _ => Github.greturn (Some ("failed to create test file: " ++ errText ferr))
              | None =>
                  let pr :=
                    Github.mkNewPullRequest
                      (Some (Publisher.testTube ++ " Auto-generated tests for " ++ originalFile))
                      (Some branchName) (Some "main")
                      (Some (Publisher.buildPRDescription pc originalFile coverage)) in
                  perr <~ Github.request (Github.CreatePullRequest (repoOwner pc) (repoName pc) pr)
                            (Github.PullRequests_Create (client pc) (repoOwner pc) (repoName pc) pr) ;;
                  match perr with
                  | Some _ => Github.greturn (Some ("failed to create pull request: " ++ errText perr))
                  | None => Github.greturn None
                  end
              end
          end
      end
  end.

(** ** The name of the branch *)

Definition cleaned (dir : string) : string :=
  Strings.ReplaceAll (Strings.ReplaceAll dir "/" "-") "_" "-".

(** ** The clean-up of generated test text *)

Definition tick : ascii := "`"%char.

Definition fence : string := "```".

Fixpoint leadTicks (s : string) : nat :=
  match s with
  | EmptyString => 0
  | String c rest => if Ascii.eqb tick c then S (leadTicks rest) else 0
  end.

Definition importLine : string := "import " ++ TestGenerator.quotedTesting.

Definition isPackageLine (line : string) : bool :=
  Strings.HasPrefix (Strings.TrimSpace line) "package ".

Definition hasPackageLine (text : string) : bool :=
  existsb isPackageLine (Strings.Split text LF).

Definition countPackageLines (text : string) : nat :=
  List.length (filter isPackageLine (Strings.Split text LF)).

(** The lines written back, each with its newline. *)
Definition unlines (lines : list string) : string :=
  String.concat EmptyString (map (fun l => l ++ nl) lines).

(** The generated text without its code fences. *)
Definition stripFences (raw : string) : string :=
  Strings.ReplaceAll (Strings.ReplaceAll raw "```go" EmptyString) "```" EmptyString.

(** The text the import step looks at: the stripped text, behind a
    [package] line when it had no [package ] anywhere. *)
Definition withPackage (raw packageName : string) : string :=
  if Strings.Contains (stripFences raw) "package " then stripFences raw
  else "package " ++ packageName ++ nl ++ nl ++ stripFences raw.

(** A package name none of whose bytes occurs in a white-space rune. *)
Definition wordByte (c : ascii) : bool :=
  negb (existsb (Strings.existsByte (Ascii.eqb c)) Strings.spaceRunes).

Definition isWord (name : string) : bool :=
  negb (String.eqb name EmptyString) &&
  negb (Strings.existsByte (fun c => negb (wordByte c)) name).

(** A generated text of two package clauses. *)
Definition two_clauses : string := "package a" ++ nl ++ "package b".

(** A fenced answer of the model, without package clause or import. *)
Definition fenced_answer : string :=
  "```go" ++ nl ++ "func TestAdd(t *testing.T) {}" ++ nl ++ "```".

(** ** Descriptors and line spans *)

(** The function declarations of a file, in source order. *)
Fixpoint funcDecls (decls : list Ast.Decl) : list Ast.FuncDecl :=
  match decls with
  | [] => []
  | Ast.Func fn :: rest => fn :: funcDecls rest
  | Ast.Gen _ :: rest => funcDecls rest
  end.

(** The declarations worth a descriptor, said without the prefix test:
    exported, or without a body, or with three statements or more. *)
Definition kept (env : SourceEnv) (fn : Ast.FuncDecl) : bool :=
  match Ast.Name fn with
  | None => false
  | Some name =>
      Token.IsExported (upperNonASCII env) name ||
      match Ast.Body fn with
      | Some stmts => (3 <=? List.length stmts)%nat
      | None => true
      end
  end.

(** Lines [first] to [last] of a text, counted from 1, each with its
    newline. *)
Definition linesOf (content : string) (first last : Z) : string :=
  unlines (firstn (Z.to_nat (last - (first - 1)))
             (skipn (Z.to_nat (first - 1)) (Strings.Split content LF))).

(** The descriptor of a declaration: its name, its line span, and the
    lines of the span, as far as the file has them. *)
Definition describes (content : string) (fn : Ast.FuncDecl) (info : FunctionInfo) : Prop :=
  Ast.Name fn = Some (Name info) /\
  StartLine info = Ast.PosLine fn /\
  EndLine info = Ast.EndLine fn /\
  Content info =
    linesOf content (Ast.PosLine fn)
      (Z.min (Ast.EndLine fn) (Z.of_nat (List.length (Strings.Split content LF)))).

(** ** Paths *)

(** A path element that [Clean] keeps as it is: not empty, not [.] or
    [..], and without separator. *)
Definition plain (elem : string) : bool :=
  negb (String.eqb elem EmptyString) && negb (String.eqb elem ".") &&
  negb (String.eqb elem Filepath.dotdot) &&
  negb (Strings.existsByte (Ascii.eqb Filepath.slash) elem).

(** The elements joined by separators. *)
Definition pathOf (elems : list string) : string := String.concat "/" elems.

(** A directory name that the branch name takes over as it is: plain, of
    ASCII bytes, with no capital and no underscore. *)
Definition simple (elem : string) : bool :=
  plain elem &&
  negb (Strings.existsByte
          (fun c => Strings.nonASCII c || Strings.isUpperASCII c || Ascii.eqb "_" c) elem).

(** ** Runs of the prober *)

(** A passing run whose report has no coverage line. *)
Definition silent_run : Proc SimpleOS.World :=
  mkProc (repo_world "ok   pkg   0.012s" None) [].

(** A checkout whose package directory cannot be entered. *)
Definition locked_run : Proc SimpleOS.World :=
  mkProc
    (SimpleOS.mkWorld "/repo" ["/repo"]
       ["/repo/pkg/calculator.go"; "/repo/pkg/calculator_test.go"]
       "ok   pkg   0.012s   coverage: 55.5% of statements" None true) [].

(** The tool started in the [scripts] directory of the checkout. *)
Definition scripts_run : Proc SimpleOS.World :=
  mkProc
    (SimpleOS.mkWorld "/repo/scripts" ["/repo"; "/repo/pkg"; "/repo/scripts"]
       ["/repo/pkg/calculator.go"; "/repo/pkg/calculator_test.go"]
       "ok   pkg   0.012s   coverage: 55.5% of statements" None true) [].

(** ** Requests of the publisher *)

Definition branchReference (branchName : string) (sha : option string) : Github.Reference :=
  Github.mkReference (Some ("refs/heads/" ++ branchName)) (Some (Github.mkGitObject sha)).

Definition pullRequest {R} (pc : PRCreator R) (originalFile branchName : string)
    (coverage : float) : Github.NewPullRequest :=
  Github.mkNewPullRequest
    (Some (Publisher.testTube ++ " Auto-generated tests for " ++ originalFile))
    (Some branchName) (Some "main")
    (Some (Publisher.buildPRDescription pc originalFile coverage)).

(** A repository with a [main] branch, on a connection that holds. *)
Definition fresh_session : Github.Session SimpleRemote.Remote :=
  Github.mkSession (SimpleRemote.mkRemote [("refs/heads/main", "c0ffee")] [] 10) [].

(** ** Decoding base64 *)

Fixpoint indexOf (c : ascii) (s : string) : option nat :=
  match s with
  | EmptyString => None
  | String d rest => if Ascii.eqb c d then Some 0%nat else option_map S (indexOf c rest)
  end.

(** The value of a digit of the standard alphabet. *)
Definition sextet (c : ascii) : option nat := indexOf c Base64.alphabet.

(** Decoding of the standard encoding: four digits give three bytes;
    padding is accepted in the last group only, behind zero bits. *)
Fixpoint DecodeString (s : string) : option string :=
  match s with
  | EmptyString => Some EmptyString
  | String c0 (String c1 (String c2 (String c3 rest))) =>
      match sextet c0, sextet c1 with
      | Some v0, Some v1 =>
          let b0 := ascii_of_nat (v0 * 4 + v1 / 16) in
          if Ascii.eqb c2 "=" then
            if Ascii.eqb c3 "=" && String.eqb rest EmptyString && Nat.eqb (v1 mod 16) 0
            then Some (String b0 EmptyString)
            else None
          else
            match sextet c2 with
            | Some v2 =>
                let b1 := ascii_of_nat (v1 mod 16 * 16 + v2 / 4) in
                if Ascii.eqb c3 "=" then
                  if String.eqb rest EmptyString && Nat.eqb (v2 mod 4) 0
                  then Some (String b0 (String b1 EmptyString))
                  else None
                else
                  match sextet c3, DecodeString rest with
                  | Some v3, Some tail =>
                      Some (String b0 (String b1
                              (String (ascii_of_nat (v2 mod 4 * 64 + v3)) tail)))
                  | _, _ => None
                  end
            | None => None
            end
      | _, _ => None
      end
  | _ => None
  end.

(** The digit of [n] is one byte, no padding sign, and has the value [n]. *)
Definition digit_ok (n : nat) : bool :=
  match Base64.digit n with
  | String c EmptyString =>
      negb (Ascii.eqb c "=") &&
      match sextet c with
      | Some m => Nat.eqb m n
      | None => false
      end
  | _ => false
  end.

(** ** The test generator *)

Definition tempFileOf (originalFilePath : string) : string :=
  Strings.TrimSuffix originalFilePath ".go" ++ "_test_temp.go".

(** The prompt written for a file of this content. *)
Definition promptFor (filePath content : string) (functions : list FunctionInfo) : string :=
  Generator.buildPrompt filePath content functions
    (fst (Generator.extractPackageInfo content)).

(** The test text made from the parts of an answer, for a file of this
    content. *)
Definition testTextFor (content : string) (parts : list Genai.Part) : string :=
  TestGenerator.cleanupGeneratedCode (GeneratorIO.textOf parts)
    (fst (Generator.extractPackageInfo content))
    (snd (Generator.extractPackageInfo content)).

(** ** The log of the tool *)

(** The computation adds to the log effects of which [P] holds, and no
    others. *)
Definition appends {W R A} (P : Tool.Effect -> Prop) (m : Tool.T W R A) : Prop :=
  forall st, exists more,
    Tool.effects (snd (m st)) = (Tool.effects st ++ more)%list /\ Forall P more.

(** Any effect but a comment on the pull request. *)
Definition noComment (e : Tool.Effect) : Prop :=
  match e with
  | Tool.CreateComment _ _ _ _ => False
  | _ => True
  end.

(** A line of the changed files that names no file. *)
Definition blank (line : string) : bool :=
  String.eqb (Strings.TrimSpace line) EmptyString.

(** The state with one more effect in the log. *)
Definition logged {W R} (st : Tool.State W R) (e : Tool.Effect) : Tool.State W R :=
  Tool.mkState (Tool.sys st) (Tool.hub st) (Tool.effects st ++ [e]).

(** ** Comments on the pull request *)

(** The texts [strconv.Atoi] reads as a number: an optional sign and one
    or more decimal digits. *)
Definition isDecimal (s : string) : bool :=
  let digits :=
    match s with
    | String c rest =>
        if Ascii.eqb c "-" then rest else if Ascii.eqb c "+" then rest else s
    | EmptyString => s
    end in
  negb (String.eqb digits EmptyString || negb (Strconv.onlyDigits digits)).

(** The state once the hosting service has taken a comment. *)
Definition commented {W R} (sv : Services W R) (pc : PRCreator R) (number : Z)
    (message : string) (st : Tool.State W R) : Tool.State W R :=
  Tool.mkState (Tool.sys st)
    (snd (Issues_CreateComment sv (repoOwner pc) (repoName pc) number message (Tool.hub st)))
    (Tool.effects st ++ [Tool.CreateComment (repoOwner pc) (repoName pc) number message]).

(** ** Runs on the small machine *)

(** The services over the small machine and the small hosting service,
    with the parser that knows one file. *)
Definition small_services (parse : SourceEnv) (rev : Revision)
  : Services SimpleMachine.World SimpleRemote.Remote :=
  mkServices SimpleMachine.World SimpleRemote.Remote SimpleMachine.machine parse
    (Strings.mapBytes Strings.lowerASCII) (fun _ => SimpleRemote.api)
    SimpleServices.createComment SimpleServices.quote rev.

(** An answer of the model with one candidate of these parts. *)
Definition answered (parts : list Genai.Part)
  : option Genai.GenerateContentResponse * error :=
  (Some (Genai.mkGenerateContentResponse
           [Some (Genai.mkCandidate (Some (Genai.mkContent parts)))]), None).

(** A checkout with a tested calculator and an untested [netutil.go],
    whose test command reports [output]. *)
Definition checkout (output : string) (err : error)
    (answer : option Genai.GenerateContentResponse * error) : SimpleMachine.World :=
  SimpleMachine.mkWorld
    (SimpleOS.mkWorld "/repo" ["/repo"; "/repo/pkg"]
       ["/repo/pkg/calculator.go"; "/repo/pkg/calculator_test.go"; "/repo/pkg/netutil.go"]
       output err true)
    [("/repo/pkg/netutil.go", netutil_go)]
    answer.

Definition good_parts : list Genai.Part :=
  [Genai.Text ("```go" ++ nl); Genai.Blob "image/png" "...";
   Genai.Text ("func TestAddress(t *testing.T) {}" ++ nl ++ "```")].

Definition good_answer : option Genai.GenerateContentResponse * error :=
  answered good_parts.

Definition small_hub : SimpleRemote.Remote :=
  SimpleRemote.mkRemote [("refs/heads/main", "c0ffee")] [] 10.

(** The tool before its first effect. *)
Definition tool_state (w : SimpleMachine.World)
  : Tool.State SimpleMachine.World SimpleRemote.Remote :=
  Tool.mkState w small_hub [].

Definition small_config (prNumber changedFiles : string) : Config :=
  mkConfig prNumber changedFiles "owner" "repo" "token" "key" 40%float.

Definition passing_checkout : SimpleMachine.World :=
  checkout "ok   pkg   0.012s   coverage: 55.5% of statements" None good_answer.

Definition direct : Services SimpleMachine.World SimpleRemote.Remote :=
  small_services netutil_env Direct.

Definition failing_checkout : SimpleMachine.World :=
  checkout "--- FAIL: TestAdd (0.00s)   FAIL" (Some "exit status 1") good_answer.

Definition unread_checkout : SimpleMachine.World :=
  SimpleMachine.mkWorld (SimpleMachine.base passing_checkout) [] good_answer.

Definition no_candidates : option Genai.GenerateContentResponse * error :=
  (Some (Genai.mkGenerateContentResponse []), None).

Definition blocked_answer : option Genai.GenerateContentResponse * error :=
  (Some (Genai.mkGenerateContentResponse [Some (Genai.mkCandidate None)]), None).

Definition address_info : FunctionInfo :=
  mkFunctionInfo "Address"
    ("func Address() string {" ++ nl ++ "    return defaultAddress" ++ nl ++ "}" ++ nl) 11 13.

Definition connection_info : FunctionInfo :=
  mkFunctionInfo "TestConnection"
    ("func TestConnection(addr string) error {" ++ nl ++ "    return dial(addr)" ++ nl ++
     "}" ++ nl) 3 5.

(** * Properties *)

(** ** Byte strings *)

Lemma HasPrefix_nil s : Strings.HasPrefix s EmptyString = true.
Proof. now destruct s. Qed.

Lemma HasPrefix_of_nil c p : Strings.HasPrefix EmptyString (String c p) = false.
Proof. reflexivity. Qed.

Lemma HasPrefix_cons c s d p :
  Strings.HasPrefix (String c s) (String d p) = Ascii.eqb d c && Strings.HasPrefix s p.
Proof.
  unfold Strings.HasPrefix. cbn [String.prefix].
  destruct (Ascii.ascii_dec d c) as [->|Hne].
  - now rewrite Ascii.eqb_refl.
  - apply Ascii.eqb_neq in Hne. now rewrite Hne.
Qed.

Lemma HasPrefix_first c s d p :
  Strings.HasPrefix (String c s) (String d p) = true -> c = d.
Proof.
  rewrite HasPrefix_cons. intros H. apply andb_true_iff in H.
  destruct H as [H _]. apply Ascii.eqb_eq in H. congruence.
Qed.

Lemma HasPrefix_app p s : Strings.HasPrefix (p ++ s) p = true.
Proof.
  induction p as [|c p IH]; [apply HasPrefix_nil|].
  cbn [append]. now rewrite HasPrefix_cons, Ascii.eqb_refl, IH.
Qed.

Lemma existsByte_app p a b :
  Strings.existsByte p (a ++ b) = Strings.existsByte p a || Strings.existsByte p b.
Proof.
  induction a as [|c a IH]; simpl; [reflexivity|].
  now rewrite IH, orb_assoc.
Qed.

(** Replacing a one-byte [old]: every byte equal to it gives way to [new]. *)
Lemma replace_byte_cons c new x s :
  Strings.replace_from (String c EmptyString) new 0 (String x s) =
  if Ascii.eqb c x then new ++ Strings.replace_from (String c EmptyString) new 0 s
  else String x (Strings.replace_from (String c EmptyString) new 0 s).
Proof.
  cbn [Strings.replace_from String.length Nat.sub].
  rewrite HasPrefix_cons, HasPrefix_nil, andb_true_r. reflexivity.
Qed.

Lemma ReplaceAll_byte_gone c new s :
  Strings.existsByte (Ascii.eqb c) new = false ->
  Strings.existsByte (Ascii.eqb c) (Strings.ReplaceAll s (String c EmptyString) new) = false.
Proof.
  intros Hnew. unfold Strings.ReplaceAll.
  induction s as [|x s IH]; [reflexivity|].
  rewrite replace_byte_cons. destruct (Ascii.eqb c x) eqn:E.
  - now rewrite existsByte_app, Hnew, IH.
  - simpl. now rewrite E, IH.
Qed.

Lemma ReplaceAll_byte_keeps p c new s :
  Strings.existsByte p new = false ->
  Strings.existsByte p s = false ->
  Strings.existsByte p (Strings.ReplaceAll s (String c EmptyString) new) = false.
Proof.
  intros Hnew. unfold Strings.ReplaceAll.
  induction s as [|x s IH]; [reflexivity|].
  simpl Strings.existsByte at 1. intros H. apply orb_false_iff in H. destruct H as [Hx Hs].
  rewrite replace_byte_cons. destruct (Ascii.eqb c x).
  - now rewrite existsByte_app, Hnew, IH.
  - simpl. now rewrite Hx, IH.
Qed.

Lemma lowerASCII_not_upper c : Strings.isUpperASCII (Strings.lowerASCII c) = false.
Proof. destruct c as [[] [] [] [] [] [] [] []]; reflexivity. Qed.

Lemma lowerASCII_slash c :
  Ascii.eqb "/" (Strings.lowerASCII c) = Ascii.eqb "/" c.
Proof. destruct c as [[] [] [] [] [] [] [] []]; reflexivity. Qed.

Lemma lowerASCII_underscore c :
  Ascii.eqb "_" (Strings.lowerASCII c) = Ascii.eqb "_" c.
Proof. destruct c as [[] [] [] [] [] [] [] []]; reflexivity. Qed.

Lemma mapBytes_lower_no_upper s :
  Strings.existsByte Strings.isUpperASCII (Strings.mapBytes Strings.lowerASCII s) = false.
Proof.
  induction s as [|c s IH]; [reflexivity|].
  cbn [Strings.existsByte Strings.mapBytes].
  now rewrite lowerASCII_not_upper, IH.
Qed.

Lemma mapBytes_lower_slash s :
  Strings.existsByte (Ascii.eqb "/") (Strings.mapBytes Strings.lowerASCII s) =
  Strings.existsByte (Ascii.eqb "/") s.
Proof.
  induction s as [|c s IH]; [reflexivity|].
  cbn [Strings.existsByte Strings.mapBytes].
  now rewrite lowerASCII_slash, IH.
Qed.

Lemma mapBytes_lower_underscore s :
  Strings.existsByte (Ascii.eqb "_") (Strings.mapBytes Strings.lowerASCII s) =
  Strings.existsByte (Ascii.eqb "_") s.
Proof.
  induction s as [|c s IH]; [reflexivity|].
  cbn [Strings.existsByte Strings.mapBytes].
  now rewrite lowerASCII_underscore, IH.
Qed.

(** ** The function extractor *)

Section Extractor.

Variable env : SourceEnv.

Abbreviation exported := (Token.IsExported (upperNonASCII env)).

Lemma funcContent_returns lines startLine endLine :
  (1 <= startLine)%Z ->
  exists text, CoverageAnalyzer.funcContent lines startLine endLine = Returns text.
Proof.
  intros Hpos. unfold CoverageAnalyzer.funcContent.
  replace (startLine - 1 <? 0)%Z with false by (symmetry; apply Z.ltb_ge; lia).
  simpl. eexists. reflexivity.
Qed.

Lemma inspect_app content ds1 ds2 acc :
  CoverageAnalyzer.inspect env content (ds1 ++ ds2) acc =
  match CoverageAnalyzer.inspect env content ds1 acc with
  | Panics r => Panics r
  | Returns acc' => CoverageAnalyzer.inspect env content ds2 acc'
  end.
Proof.
  revert acc. induction ds1 as [|d ds1 IH]; intros acc; simpl.
  - reflexivity.
  - destruct d as [fn|src]; [|apply IH].
    destruct (CoverageAnalyzer.visitFuncDecl env content fn acc); [apply IH|reflexivity].
Qed.

(** The walk only appends: what a declaration list contributes does not
    depend on what was collected before it. *)
Lemma inspect_appends content ds :
  forall acc fns,
    CoverageAnalyzer.inspect env content ds acc = Returns fns ->
    exists added, fns = (acc ++ added)%list /\
      forall acc', CoverageAnalyzer.inspect env content ds acc' = Returns (acc' ++ added)%list.
Proof.
  induction ds as [|d ds IH]; intros acc fns H; simpl in *.
  - inversion H; subst. exists []. split; [now rewrite app_nil_r|].
    intros acc'. now rewrite app_nil_r.
  - destruct d as [fn|src]; [|apply IH; exact H].
    unfold CoverageAnalyzer.visitFuncDecl in *.
    destruct (Ast.Name fn) as [name|]; [|discriminate].
    destruct (exported name || CoverageAnalyzer.shouldIncludeFunction fn).
    + destruct (CoverageAnalyzer.funcContent _ _ _) as [text|r]; [|discriminate].
      destruct (IH _ _ H) as (added & -> & Hall).
      exists (mkFunctionInfo name text (Ast.PosLine fn) (Ast.EndLine fn) :: added).
      split; [now rewrite <- app_assoc|].
      intros acc'. rewrite Hall. now rewrite <- app_assoc.
    + destruct (IH _ _ H) as (added & -> & Hall).
      exists added. split; [reflexivity|]. intros acc'. apply Hall.
Qed.

Lemma inspect_returns content ds :
  Forall parsed_decl ds ->
  forall acc, exists fns, CoverageAnalyzer.inspect env content ds acc = Returns fns.
Proof.
  induction 1 as [|d ds Hd _ IH]; intros acc; simpl.
  - eexists; reflexivity.
  - destruct d as [fn|src]; [|apply IH].
    destruct Hd as [Hname Hpos].
    unfold CoverageAnalyzer.visitFuncDecl.
    destruct (Ast.Name fn) as [name|]; [|congruence].
    destruct (exported name || CoverageAnalyzer.shouldIncludeFunction fn); [|apply IH].
    destruct (funcContent_returns (Strings.Split content LF) _ (Ast.EndLine fn) Hpos) as [text ->].
    apply IH.
Qed.

(** A non-exported declaration with a short body leaves the collected
    list as it was. *)
Lemma visit_short_unexported content fn name stmts acc :
  Ast.Name fn = Some name ->
  exported name = false ->
  Ast.Body fn = Some stmts ->
  (List.length stmts < 3)%nat ->
  CoverageAnalyzer.visitFuncDecl env content fn acc = Returns acc.
Proof.
  intros Hn He Hb Hlen.
  unfold CoverageAnalyzer.visitFuncDecl, CoverageAnalyzer.shouldIncludeFunction.
  rewrite Hn, He, Hb.
  destruct (Nat.ltb_spec (List.length stmts) 3) as [_|Hge]; [|lia].
  now destruct (Strings.HasPrefix name "Test" || Strings.HasPrefix name "Benchmark").
Qed.

(** An exported declaration is appended whatever its body is. *)
Lemma visit_exported content fn name acc fns :
  Ast.Name fn = Some name ->
  exported name = true ->
  CoverageAnalyzer.visitFuncDecl env content fn acc = Returns fns ->
  exists text,
    fns = (acc ++ [mkFunctionInfo name text (Ast.PosLine fn) (Ast.EndLine fn)])%list.
Proof.
  intros Hn He. unfold CoverageAnalyzer.visitFuncDecl. rewrite Hn, He. simpl.
  destruct (CoverageAnalyzer.funcContent _ _ _) as [text|r]; [|discriminate].
  intros H; inversion H. now exists text.
Qed.

Lemma inspect_keeps_exported content ds fn name :
  In (Ast.Func fn) ds ->
  Ast.Name fn = Some name ->
  exported name = true ->
  forall acc fns,
    CoverageAnalyzer.inspect env content ds acc = Returns fns ->
    exists text, In (mkFunctionInfo name text (Ast.PosLine fn) (Ast.EndLine fn)) fns.
Proof.
  intros Hin Hn He acc fns H.
  apply in_split in Hin. destruct Hin as (pre & post & ->).
  rewrite inspect_app in H.
  destruct (CoverageAnalyzer.inspect env content pre acc) as [acc1|]; [|discriminate].
  simpl in H.
  destruct (CoverageAnalyzer.visitFuncDecl env content fn acc1) as [acc2|] eqn:Hv; [|discriminate].
  destruct (visit_exported _ _ _ _ _ Hn He Hv) as [text ->].
  destruct (inspect_appends _ _ _ _ H) as (added & -> & _).
  exists text. apply in_or_app. left. apply in_or_app. right. now left.
Qed.

Lemma inspect_drops_short_unexported content pre post fn name stmts acc :
  Ast.Name fn = Some name ->
  exported name = false ->
  Ast.Body fn = Some stmts ->
  (List.length stmts < 3)%nat ->
  CoverageAnalyzer.inspect env content (pre ++ Ast.Func fn :: post) acc =
  CoverageAnalyzer.inspect env content (pre ++ post) acc.
Proof.
  intros Hn He Hb Hlen.
  rewrite !inspect_app.
  destruct (CoverageAnalyzer.inspect env content pre acc) as [acc1|]; [|reflexivity].
  simpl. now rewrite (visit_short_unexported content fn name stmts acc1).
Qed.

(** C9.  For a file that reads and parses, the extractor returns a list
    in which (a) every exported function declaration of the file appears,
    with its name and line span, whatever the size of its body, and from
    which (b) every non-exported declaration with a body of fewer than
    three top-level statements is left out: the list is the one the walk
    returns for the file without that declaration. *)
Theorem extract_exported_kept_short_unexported_dropped :
  forall filePath content node,
    os_ReadFile env filePath = inl content ->
    parser_ParseFile env filePath content = inl node ->
    Forall parsed_decl (Ast.Decls node) ->
    exists fns,
      CoverageAnalyzer.ExtractModifiedFunctions env filePath = Returns (fns, None) /\
      (forall fn name,
          In (Ast.Func fn) (Ast.Decls node) ->
          Ast.Name fn = Some name ->
          exported name = true ->
          exists text, In (mkFunctionInfo name text (Ast.PosLine fn) (Ast.EndLine fn)) fns) /\
      (forall pre fn post name stmts,
          Ast.Decls node = (pre ++ Ast.Func fn :: post)%list ->
          Ast.Name fn = Some name ->
          exported name = false ->
          Ast.Body fn = Some stmts ->
          (List.length stmts < 3)%nat ->
          CoverageAnalyzer.inspect env content (pre ++ post) [] = Returns fns).
Proof.
  intros filePath content node Hread Hparse Hwf.
  destruct (inspect_returns content _ Hwf []) as [fns Hfns].
  exists fns. unfold CoverageAnalyzer.ExtractModifiedFunctions.
  rewrite Hread, Hparse, Hfns. split; [reflexivity|]. split.
  - intros fn name Hin Hn He.
    exact (inspect_keeps_exported content _ fn name Hin Hn He [] fns Hfns).
  - intros pre fn post name stmts Hsplit Hn He Hb Hlen.
    rewrite Hsplit in Hfns.
    now rewrite (inspect_drops_short_unexported content pre post fn name stmts []) in Hfns.
Qed.

End Extractor.

Lemma extract_exported_kept_short_unexported_dropped_witness :
  os_ReadFile netutil_env "pkg/netutil.go" = inl netutil_go /\
  parser_ParseFile netutil_env "pkg/netutil.go" netutil_go = inl netutil_ast /\
  exists fns,
    CoverageAnalyzer.ExtractModifiedFunctions netutil_env "pkg/netutil.go" = Returns (fns, None) /\
    (forall fn name,
        In (Ast.Func fn) (Ast.Decls netutil_ast) ->
        Ast.Name fn = Some name ->
        Token.IsExported (upperNonASCII netutil_env) name = true ->
        exists text, In (mkFunctionInfo name text (Ast.PosLine fn) (Ast.EndLine fn)) fns) /\
    (forall pre fn post name stmts,
        Ast.Decls netutil_ast = (pre ++ Ast.Func fn :: post)%list ->
        Ast.Name fn = Some name ->
        Token.IsExported (upperNonASCII netutil_env) name = false ->
        Ast.Body fn = Some stmts ->
        (List.length stmts < 3)%nat ->
        CoverageAnalyzer.inspect netutil_env netutil_go (pre ++ post) [] = Returns fns).
Proof.
  split; [reflexivity|]. split; [reflexivity|].
  apply (extract_exported_kept_short_unexported_dropped
           netutil_env "pkg/netutil.go" netutil_go netutil_ast).
  - reflexivity.
  - reflexivity.
  - repeat constructor; simpl; try discriminate; try lia.
Defined.

(** Every name with a reserved prefix starts with an ASCII capital, so it
    is exported and the prefix test of [shouldIncludeFunction] is never
    consulted for it. *)
Lemma reserved_prefix_exported up name :
  Strings.HasPrefix name "Test" || Strings.HasPrefix name "Benchmark" = true ->
  Token.IsExported up name = true.
Proof.
  intros H. destruct name as [|c rest]; [discriminate H|].
  apply orb_true_iff in H.
  destruct H as [H|H]; apply HasPrefix_first in H; subst c; reflexivity.
Qed.

Lemma visit_reserved_prefix env content fn name acc fns :
  Ast.Name fn = Some name ->
  Strings.HasPrefix name "Test" || Strings.HasPrefix name "Benchmark" = true ->
  CoverageAnalyzer.visitFuncDecl env content fn acc = Returns fns ->
  exists text,
    fns = (acc ++ [mkFunctionInfo name text (Ast.PosLine fn) (Ast.EndLine fn)])%list.
Proof.
  intros Hn Hp. apply visit_exported; [exact Hn|].
  now apply reserved_prefix_exported.
Qed.

(** C1.  The extractor does return descriptors whose name starts with a
    reserved prefix: on a file that declares [TestConnection] the returned
    list holds that function, next to the exported [Address]; only the
    unexported one-statement [dial] is left out. *)
Theorem extract_returns_reserved_prefix_name :
  CoverageAnalyzer.ExtractModifiedFunctions netutil_env "pkg/netutil.go" =
    Returns
      ([ mkFunctionInfo "TestConnection"
           ("func TestConnection(addr string) error {" ++ nl ++
            "    return dial(addr)" ++ nl ++ "}" ++ nl) 3 5;
         mkFunctionInfo "Address"
           ("func Address() string {" ++ nl ++
            "    return defaultAddress" ++ nl ++ "}" ++ nl) 11 13 ], None)
  /\ Strings.HasPrefix "TestConnection" "Test" = true.
Proof. split; vm_compute; reflexivity. Qed.

(** ** The coverage prober *)

Section Prober.

Context {W : Type}.
Variable os : OS W.

Lemma AnalyzeFile_stat filePath threshold p :
  os_IsNotExist os (statError os filePath p) = true ->
  CoverageAnalyzer.AnalyzeFile os filePath threshold p =
    ((true, 0%float, None), afterStat os filePath p).
Proof.
  intros H. unfold CoverageAnalyzer.AnalyzeFile, bind, perform, statError, afterStat in *.
  fold (testFileOf filePath).
  destruct (os_Stat os (testFileOf filePath) (world p)) as [e w'].
  simpl in *. now rewrite H.
Qed.

(** With a test file in place the command is run, and the rest of
    [AnalyzeFile] is decided by what it returns. *)
Lemma AnalyzeFile_run filePath threshold p :
  os_IsNotExist os (statError os filePath p) = false ->
  CoverageAnalyzer.AnalyzeFile os filePath threshold p =
    (let output := fst (runResult os filePath p) in
     let err := snd (runResult os filePath p) in
     match err with
     | Some _ =>
         if Strings.Contains output "no test files"
         then ret (true, 0%float, None)
         else ret (false, 0%float,
                   Some ("failed to run coverage: " ++ errText err ++ ", output: " ++ output))
     | None =>
         let (coverage, perr) := CoverageAnalyzer.parseCoverageOutput os output in
         match perr with
         | Some _ =>
             ret (false, 0%float,
                  Some ("failed to parse coverage output: " ++ errText perr))
         | None =>
             _ <- perform (CallRemove "coverage.out") (os_Remove os "coverage.out") ;;
             ret (PrimFloat.ltb coverage threshold, coverage, None)
         end
     end) (afterRun os filePath p).
Proof.
  intros H.
  unfold CoverageAnalyzer.AnalyzeFile, statError, runResult, afterRun, afterStat in *.
  fold (testFileOf filePath). unfold bind at 1. unfold perform at 1.
  destruct (os_Stat os (testFileOf filePath) (world p)) as [e w'].
  simpl in H. rewrite H.
  fold (packageDirOf os filePath). fold (runArgv os filePath).
  unfold bind at 1. unfold perform at 1. cbn [world calls snd fst].
  destruct (exec_CombinedOutput os (runArgv os filePath) w') as [[output err] w''].
  cbn [fst snd]. rewrite <- app_assoc. reflexivity.
Qed.

(** C6.  When [os.Stat] of the adjacent test file (the path with its
    [.go] suffix replaced by [_test.go]) reports that it does not exist,
    [AnalyzeFile] returns [needsTests = true], [coverage = 0] and no error,
    and the only call it has made is that [os.Stat]: the test command is not
    run. *)
Theorem AnalyzeFile_without_test_file :
  forall filePath threshold p,
    os_IsNotExist os (fst (os_Stat os (Strings.TrimSuffix filePath ".go" ++ "_test.go") (world p))) = true ->
    fst (CoverageAnalyzer.AnalyzeFile os filePath threshold p) = (true, 0%float, None) /\
    calls (snd (CoverageAnalyzer.AnalyzeFile os filePath threshold p)) =
      (calls p ++ [CallStat (Strings.TrimSuffix filePath ".go" ++ "_test.go")])%list.
Proof.
  intros filePath threshold p H.
  rewrite (AnalyzeFile_stat filePath threshold p H). split; reflexivity.
Qed.

(** C7.  When the test file is there and the test command fails,
    [AnalyzeFile] returns [(true, 0, nil)] exactly when the output of the
    command contains [no test files]; for every other failure it returns
    [needsTests = false] together with a non-nil error that reports the
    failed run. *)
Theorem AnalyzeFile_runner_failure :
  forall filePath threshold p output e,
    os_IsNotExist os (statError os filePath p) = false ->
    runResult os filePath p = (output, Some e) ->
    (fst (CoverageAnalyzer.AnalyzeFile os filePath threshold p) = (true, 0%float, None)
       <-> Strings.Contains output "no test files" = true) /\
    (Strings.Contains output "no test files" = false ->
       fst (CoverageAnalyzer.AnalyzeFile os filePath threshold p) =
         (false, 0%float,
          Some ("failed to run coverage: " ++ e ++ ", output: " ++ output))).
Proof.
  intros filePath threshold p output e Hstat Hrun.
  rewrite (AnalyzeFile_run filePath threshold p Hstat), Hrun. cbn [fst snd errText].
  destruct (Strings.Contains output "no test files"); cbn [ret fst]; split.
  - tauto.
  - discriminate.
  - split; discriminate.
  - reflexivity.
Qed.

(** C2.  When the test file is there, the test command succeeds and its
    output holds a match of the coverage pattern whose number
    [strconv.ParseFloat] accepts as [c], [AnalyzeFile] returns
    [needsTests = (c < threshold)], [coverage = c] and no error. *)
Theorem AnalyzeFile_threshold :
  forall filePath threshold p output whole group c,
    os_IsNotExist os (statError os filePath p) = false ->
    runResult os filePath p = (output, None) ->
    Regexp.FindStringSubmatch output = [whole; group] ->
    strconv_ParseFloat os group = (c, None) ->
    fst (CoverageAnalyzer.AnalyzeFile os filePath threshold p) =
      (PrimFloat.ltb c threshold, c, None).
Proof.
  intros filePath threshold p output whole group c Hstat Hrun Hfind Hparse.
  rewrite (AnalyzeFile_run filePath threshold p Hstat), Hrun. cbn [fst snd].
  unfold CoverageAnalyzer.parseCoverageOutput. rewrite Hfind. cbn [List.length Nat.ltb Nat.leb nth].
  rewrite Hparse. unfold bind, perform.
  destruct (os_Remove os "coverage.out" (world (afterRun os filePath p))) as [e w'].
  reflexivity.
Qed.

End Prober.

Lemma AnalyzeFile_without_test_file_witness :
  os_IsNotExist SimpleOS.os
    (fst (os_Stat SimpleOS.os (Strings.TrimSuffix "pkg/factorial.go" ".go" ++ "_test.go")
            (world passing_run))) = true /\
  fst (CoverageAnalyzer.AnalyzeFile SimpleOS.os "pkg/factorial.go" 40%float passing_run) =
    (true, 0%float, None) /\
  calls (snd (CoverageAnalyzer.AnalyzeFile SimpleOS.os "pkg/factorial.go" 40%float passing_run)) =
    (calls passing_run ++
     [CallStat (Strings.TrimSuffix "pkg/factorial.go" ".go" ++ "_test.go")])%list.
Proof.
  split; [vm_compute; reflexivity|].
  apply (AnalyzeFile_without_test_file SimpleOS.os "pkg/factorial.go" 40%float passing_run).
  vm_compute; reflexivity.
Defined.

Lemma AnalyzeFile_runner_failure_witness :
  (fst (CoverageAnalyzer.AnalyzeFile SimpleOS.os "pkg/calculator.go" 40%float failing_run) =
     (true, 0%float, None)
   <-> Strings.Contains (SimpleOS.run_output (world failing_run)) "no test files" = true) /\
  (Strings.Contains (SimpleOS.run_output (world failing_run)) "no test files" = false ->
   fst (CoverageAnalyzer.AnalyzeFile SimpleOS.os "pkg/calculator.go" 40%float failing_run) =
     (false, 0%float,
      Some ("failed to run coverage: " ++ "exit status 1" ++ ", output: " ++
            SimpleOS.run_output (world failing_run)))).
Proof.
  apply (AnalyzeFile_runner_failure SimpleOS.os "pkg/calculator.go" 40%float failing_run
           (SimpleOS.run_output (world failing_run)) "exit status 1").
  - vm_compute; reflexivity.
  - vm_compute; reflexivity.
Defined.

Lemma AnalyzeFile_threshold_witness :
  fst (CoverageAnalyzer.AnalyzeFile SimpleOS.os "pkg/calculator.go" 40%float passing_run) =
    (PrimFloat.ltb 55.5%float 40%float, 55.5%float, None).
Proof.
  apply (AnalyzeFile_threshold SimpleOS.os "pkg/calculator.go" 40%float passing_run
           (SimpleOS.run_output (world passing_run))
           "coverage: 55.5% of statements" "55.5" 55.5%float).
  - vm_compute; reflexivity.
  - vm_compute; reflexivity.
  - vm_compute; reflexivity.
  - vm_compute; reflexivity.
Defined.

(** On a failed run the first revision returns at once: the log of calls
    ends with the test command, and no [os.Remove] follows it. *)
Lemma AnalyzeFile_failure_skips_remove {W} (os : OS W) filePath threshold p output e :
  os_IsNotExist os (statError os filePath p) = false ->
  runResult os filePath p = (output, Some e) ->
  snd (CoverageAnalyzer.AnalyzeFile os filePath threshold p) = afterRun os filePath p.
Proof.
  intros Hstat Hrun.
  rewrite (AnalyzeFile_run os filePath threshold p Hstat), Hrun. cbn [fst snd].
  now destruct (Strings.Contains output "no test files").
Qed.

(** C8.  The coverage file is not removed on every exit path on which the
    test command ran.  In the first revision a failed test run returns the
    error and leaves [/repo/coverage.out] behind.  In the revision that
    changes directory, the deferred function restores the working directory
    first and removes [coverage.out] afterwards, relative to the restored
    directory: the process is back in [/repo], and the profile written in
    [/repo/pkg] is still there. *)
Theorem AnalyzeFile_leaves_coverage_file :
  (let r := CoverageAnalyzer.AnalyzeFile SimpleOS.os "pkg/calculator.go" 40%float failing_run in
   snd (fst r) <> None /\
   calls (snd r) =
     [CallStat "pkg/calculator_test.go";
      CallRun ["go"; "test"; "-cover"; "-coverprofile=coverage.out"; "pkg"]] /\
   SimpleOS.member "/repo/coverage.out" (SimpleOS.files (world (snd r))) = true)
  /\
  (let r := CoverageAnalyzerResolved.AnalyzeFile SimpleOS.os "pkg/calculator.go" 40%float passing_run in
   fst r = (false, 55.5%float, None) /\
   calls (snd r) =
     [CallGetwd; CallStat "pkg/calculator_test.go"; CallGetwd; CallAbs "pkg";
      CallChdir "/repo/pkg";
      CallRun ["go"; "test"; "-cover"; "-coverprofile=coverage.out"; "."];
      CallChdir "/repo"; CallRemove "coverage.out"] /\
   SimpleOS.cwd (world (snd r)) = "/repo" /\
   SimpleOS.member "/repo/pkg/coverage.out" (SimpleOS.files (world (snd r))) = true).
Proof.
  split.
  - cbv zeta. split; [|split].
    + vm_compute. discriminate.
    + vm_compute. reflexivity.
    + vm_compute. reflexivity.
  - cbv zeta. repeat split; vm_compute; reflexivity.
Qed.

(** ** The change publisher *)

Section PublisherProperties.

Import Github.

Context {R : Type}.
Variable pc : PRCreator R.

Abbreviation owner := (repoOwner pc).
Abbreviation repo := (repoName pc).

(** Not found: the file is created, and the options carry no hash. *)
Lemma createOrUpdateFile_not_found filePath content branchName s file rsp e r1 :
  Repositories_GetContents (client pc) owner repo filePath branchName (remote s) =
    ((file, Some rsp, Some e), r1) ->
  StatusCode rsp = 404%Z ->
  exists cerr r2,
    Repositories_CreateFile (client pc) owner repo filePath
      (addOptions filePath content branchName) r1 = (cerr, r2) /\
    Publisher.createOrUpdateFile pc filePath content branchName s =
      (Returns (match cerr with
                | Some m => Some ("failed to create file: " ++ m)
                | None => None
                end),
       mkSession r2
         (requests s ++
          [GetContents owner repo filePath branchName;
           CreateFile owner repo filePath (addOptions filePath content branchName)])%list).
Proof.
  intros Hget H404.
  destruct (Repositories_CreateFile (client pc) owner repo filePath
              (addOptions filePath content branchName) r1) as [cerr r2] eqn:Hc.
  exists cerr, r2. split; [reflexivity|].
  unfold Publisher.createOrUpdateFile, gbind, request. rewrite Hget. cbn [fst snd remote requests].
  rewrite H404. cbn [Z.eqb Pos.eqb]. cbv zeta.
  unfold addOptions in *. cbn [remote requests]. rewrite Hc.
  rewrite <- app_assoc. now destruct cerr.
Qed.

(** Found: the file is updated, and the options carry the hash of the
    file that the lookup returned. *)
Lemma createOrUpdateFile_found filePath content branchName s file resp r1 :
  Repositories_GetContents (client pc) owner repo filePath branchName (remote s) =
    ((Some file, resp, None), r1) ->
  exists uerr r2,
    Repositories_UpdateFile (client pc) owner repo filePath
      (updateOptions filePath content branchName (ContentSHA file)) r1 = (uerr, r2) /\
    Publisher.createOrUpdateFile pc filePath content branchName s =
      (Returns (match uerr with
                | Some m => Some ("failed to update file: " ++ m)
                | None => None
                end),
       mkSession r2
         (requests s ++
          [GetContents owner repo filePath branchName;
           UpdateFile owner repo filePath
             (updateOptions filePath content branchName (ContentSHA file))])%list).
Proof.
  intros Hget.
  destruct (Repositories_UpdateFile (client pc) owner repo filePath
              (updateOptions filePath content branchName (ContentSHA file)) r1)
    as [uerr r2] eqn:Hu.
  exists uerr, r2. split; [reflexivity|].
  unfold Publisher.createOrUpdateFile, gbind, request. rewrite Hget. cbn [fst snd remote requests].
  cbv zeta. unfold updateOptions in *. cbn [remote requests]. rewrite Hu.
  rewrite <- app_assoc. now destruct uerr.
Qed.

(** Any other answered lookup failure is returned as an error, and nothing
    is written. *)
Lemma createOrUpdateFile_lookup_failure filePath content branchName s file rsp e r1 :
  Repositories_GetContents (client pc) owner repo filePath branchName (remote s) =
    ((file, Some rsp, Some e), r1) ->
  StatusCode rsp <> 404%Z ->
  Publisher.createOrUpdateFile pc filePath content branchName s =
    (Returns (Some ("failed to check file existence: " ++ e)),
     mkSession r1 (requests s ++ [GetContents owner repo filePath branchName])%list).
Proof.
  intros Hget H404.
  unfold Publisher.createOrUpdateFile, gbind, request. rewrite Hget. cbn [fst snd remote requests].
  apply Z.eqb_neq in H404. rewrite H404. reflexivity.
Qed.

(** A lookup failure without a response: the status code is read through
    a nil pointer. *)
Lemma createOrUpdateFile_no_response filePath content branchName s file e r1 :
  Repositories_GetContents (client pc) owner repo filePath branchName (remote s) =
    ((file, None, Some e), r1) ->
  Publisher.createOrUpdateFile pc filePath content branchName s =
    (Panics "nil pointer dereference",
     mkSession r1 (requests s ++ [GetContents owner repo filePath branchName])%list).
Proof.
  intros Hget.
  unfold Publisher.createOrUpdateFile, gbind, request. rewrite Hget. reflexivity.
Qed.

(** The file upsert only adds requests to the log. *)
Lemma createOrUpdateFile_log filePath content branchName s :
  exists more,
    requests (snd (Publisher.createOrUpdateFile pc filePath content branchName s)) =
    (requests s ++ more)%list.
Proof.
  unfold Publisher.createOrUpdateFile, gbind, request, greturn, gpanic.
  destruct (Repositories_GetContents _ _ _ _ _ _) as [[[file resp] err] r2].
  cbn [fst snd remote requests].
  destruct err as [e|].
  - destruct resp as [rsp|].
    + destruct (StatusCode rsp =? 404)%Z.
      * cbv zeta. cbn [remote requests].
        destruct (Repositories_CreateFile _ _ _ _ _ _) as [[m|] r3];
          cbn [snd requests]; eexists; rewrite <- ?app_assoc; reflexivity.
      * cbn [snd requests]. eexists; reflexivity.
    + cbn [snd requests]. eexists; reflexivity.
  - destruct file as [f|].
    + cbv zeta. cbn [remote requests].
      destruct (Repositories_UpdateFile _ _ _ _ _ _) as [[m|] r3];
        cbn [snd requests]; eexists; rewrite <- ?app_assoc; reflexivity.
    + cbn [snd requests]. eexists; reflexivity.
Qed.

(** Its first request creates the branch, from the hash that [main]
    points to. *)
Lemma createAndPublish_creates_branch mref obj
    originalFile testFileName testContent branchName coverage s :
  Object mref = Some obj ->
  exists later,
    requests (snd (createAndPublish pc (Some mref) originalFile testFileName testContent
                     branchName coverage s)) =
    (requests s ++
     CreateRef owner repo
       (mkReference (Some ("refs/heads/" ++ branchName)%string)
          (Some (mkGitObject (ObjectSHA obj)))) :: later)%list.
Proof.
  intros Hobj. unfold createAndPublish. rewrite Hobj. cbv zeta.
  unfold gbind at 1. unfold request at 1.
  destruct (Git_CreateRef _ _ _ _ _) as [cerr r1].
  destruct cerr as [m|]; [exists []; reflexivity|].
  unfold gbind at 1.
  match goal with
  | |- context [Publisher.createOrUpdateFile pc ?f ?c ?b ?s1] =>
      destruct (createOrUpdateFile_log f c b s1) as [more Hmore];
      destruct (Publisher.createOrUpdateFile pc f c b s1) as [[ferr|reason] s2]
  end; cbn [snd requests] in Hmore.
  - destruct ferr as [m|].
    + exists more. cbn [snd greturn]. rewrite Hmore. now rewrite <- app_assoc.
    + cbv zeta. unfold gbind, request, greturn.
      destruct (PullRequests_Create _ _ _ _ _) as [[m|] r2];
        cbn [snd requests]; rewrite Hmore; eexists; rewrite <- !app_assoc; reflexivity.
  - exists more. cbn [snd]. rewrite Hmore. now rewrite <- app_assoc.
Qed.

Section BranchCheck.

Variables originalFile testFileName testContent branchName : string.
Variable coverage : float.
Variable s : Session R.
Variables (mainRef : option Reference) (mainResp : option Response) (r1 : R).

Hypothesis main_found :
  Git_GetRef (client pc) owner repo "refs/heads/main" (remote s) =
    ((mainRef, mainResp, None), r1).

Abbreviation branchRef := ("refs/heads/" ++ branchName).

Abbreviation lookedUp :=
  (requests s ++ [GetRef owner repo "refs/heads/main"; GetRef owner repo branchRef])%list.

(** Runs the publisher up to the answer [Hget] of the second look-up. *)
Local Ltac look_up_branch Hget :=
  unfold Publisher.CreateTestPR; cbv zeta;
  unfold gbind at 1; unfold request at 1; rewrite main_found;
  cbn [fst snd remote requests];
  unfold gbind at 1; unfold gbind at 1; unfold request at 1;
  cbn [remote requests]; rewrite Hget; cbn [fst snd].

(** The branch exists: it is deleted, and the publisher goes on to create
    it anew. *)
Lemma CreateTestPR_existing_branch found resp r2 dresp r3 :
  Git_GetRef (client pc) owner repo branchRef r1 = ((found, resp, None), r2) ->
  Git_DeleteRef (client pc) owner repo branchRef r2 = ((dresp, None), r3) ->
  Publisher.CreateTestPR pc originalFile testFileName testContent branchName coverage s =
    createAndPublish pc mainRef originalFile testFileName testContent branchName coverage
      (mkSession r3 (lookedUp ++ [DeleteRef owner repo branchRef])%list).
Proof.
  intros Hget Hdel.
  look_up_branch Hget.
  unfold gbind at 1. unfold request at 1. cbn [remote requests]. rewrite Hdel.
  cbn [fst snd greturn]. rewrite <- !app_assoc. reflexivity.
Qed.

(** The deletion fails: that error is returned. *)
Lemma CreateTestPR_delete_failure found resp r2 dresp e r3 :
  Git_GetRef (client pc) owner repo branchRef r1 = ((found, resp, None), r2) ->
  Git_DeleteRef (client pc) owner repo branchRef r2 = ((dresp, Some e), r3) ->
  Publisher.CreateTestPR pc originalFile testFileName testContent branchName coverage s =
    (Returns (Some ("failed to delete existing branch: " ++ e)),
     mkSession r3 (lookedUp ++ [DeleteRef owner repo branchRef])%list).
Proof.
  intros Hget Hdel.
  look_up_branch Hget.
  unfold gbind at 1. unfold request at 1. cbn [remote requests]. rewrite Hdel.
  cbn [fst snd greturn]. rewrite <- !app_assoc. reflexivity.
Qed.

(** Not found: nothing is deleted, and the publisher goes on the same
    way. *)
Lemma CreateTestPR_branch_not_found found rsp e r2 :
  Git_GetRef (client pc) owner repo branchRef r1 = ((found, Some rsp, Some e), r2) ->
  StatusCode rsp = 404%Z ->
  Publisher.CreateTestPR pc originalFile testFileName testContent branchName coverage s =
    createAndPublish pc mainRef originalFile testFileName testContent branchName coverage
      (mkSession r2 lookedUp).
Proof.
  intros Hget H404.
  look_up_branch Hget. rewrite H404. cbn [Z.eqb Pos.eqb negb greturn].
  rewrite <- !app_assoc. reflexivity.
Qed.

(** Any other answered lookup failure is returned as an error. *)
Lemma CreateTestPR_lookup_failure found rsp e r2 :
  Git_GetRef (client pc) owner repo branchRef r1 = ((found, Some rsp, Some e), r2) ->
  StatusCode rsp <> 404%Z ->
  Publisher.CreateTestPR pc originalFile testFileName testContent branchName coverage s =
    (Returns (Some ("failed to check branch existence: " ++ e)), mkSession r2 lookedUp).
Proof.
  intros Hget H404.
  look_up_branch Hget. apply Z.eqb_neq in H404. rewrite H404. cbn [negb greturn].
  rewrite <- !app_assoc. reflexivity.
Qed.

(** A lookup failure without a response: the status code is read through
    a nil pointer. *)
Lemma CreateTestPR_no_response found e r2 :
  Git_GetRef (client pc) owner repo branchRef r1 = ((found, None, Some e), r2) ->
  Publisher.CreateTestPR pc originalFile testFileName testContent branchName coverage s =
    (Panics "nil pointer dereference", mkSession r2 lookedUp).
Proof.
  intros Hget.
  look_up_branch Hget. cbn [gpanic].
  rewrite <- !app_assoc. reflexivity.
Qed.

End BranchCheck.

End PublisherProperties.

(** C5.  A lookup that fails without a response (the connection is lost
    before the request is answered) is not returned as an error: the
    publisher panics on the nil response.  The same happens for every
    client, by [createOrUpdateFile_no_response]. *)
Theorem createOrUpdateFile_panics_without_response :
  Publisher.createOrUpdateFile SimpleRemote.creator "pkg/calculator_test.go"
    "package pkg" "auto-tests-pkg"
    (Github.mkSession (SimpleRemote.mkRemote [("refs/heads/main", "c0ffee")] [] 0) []) =
  (Panics "nil pointer dereference",
   Github.mkSession (SimpleRemote.mkRemote [("refs/heads/main", "c0ffee")] [] 0)
     [Github.GetContents "owner" "repo" "pkg/calculator_test.go" "auto-tests-pkg"]).
Proof. vm_compute. reflexivity. Qed.

(** C4.  A branch lookup that fails without a response (the connection
    is lost after the head of [main] was read) is not returned as an error
    for the file: the publisher panics on the nil response.  The same
    happens for every client, by [CreateTestPR_no_response]. *)
Theorem CreateTestPR_panics_without_response :
  Publisher.CreateTestPR SimpleRemote.creator "pkg/calculator.go" "pkg/calculator_test.go"
    "package pkg" "auto-tests-pkg" 0%float
    (Github.mkSession (SimpleRemote.mkRemote [("refs/heads/main", "c0ffee")] [] 1) []) =
  (Panics "nil pointer dereference",
   Github.mkSession (SimpleRemote.mkRemote [("refs/heads/main", "c0ffee")] [] 0)
     [Github.GetRef "owner" "repo" "refs/heads/main";
      Github.GetRef "owner" "repo" "refs/heads/auto-tests-pkg"]).
Proof. vm_compute. reflexivity. Qed.

(** ** The name of the branch *)

Section BranchName.

Variable filepath_Dir : string -> string.
Variable mapToLower : string -> string.

(** What is used of Go's Unicode case tables, through
    [Map(unicode.ToLower, s)]: the result holds no ASCII capital, and no
    slash or underscore that was not in [s] (lower-case mappings are
    letters). *)
Hypothesis mapToLower_no_upper :
  forall s, Strings.existsByte Strings.isUpperASCII (mapToLower s) = false.
Hypothesis mapToLower_slash :
  forall s, Strings.existsByte (Ascii.eqb "/") s = false ->
            Strings.existsByte (Ascii.eqb "/") (mapToLower s) = false.
Hypothesis mapToLower_underscore :
  forall s, Strings.existsByte (Ascii.eqb "_") s = false ->
            Strings.existsByte (Ascii.eqb "_") (mapToLower s) = false.

Lemma cleaned_no_slash dir : Strings.existsByte (Ascii.eqb "/") (cleaned dir) = false.
Proof.
  unfold cleaned. apply ReplaceAll_byte_keeps; [reflexivity|].
  apply ReplaceAll_byte_gone. reflexivity.
Qed.

Lemma cleaned_no_underscore dir : Strings.existsByte (Ascii.eqb "_") (cleaned dir) = false.
Proof. unfold cleaned. apply ReplaceAll_byte_gone. reflexivity. Qed.

Lemma ToLower_no_upper s :
  Strings.existsByte Strings.isUpperASCII (Strings.ToLower mapToLower s) = false.
Proof.
  unfold Strings.ToLower. destruct (Strings.existsByte Strings.nonASCII s).
  - apply mapToLower_no_upper.
  - apply mapBytes_lower_no_upper.
Qed.

Lemma ToLower_slash s :
  Strings.existsByte (Ascii.eqb "/") s = false ->
  Strings.existsByte (Ascii.eqb "/") (Strings.ToLower mapToLower s) = false.
Proof.
  intros H. unfold Strings.ToLower. destruct (Strings.existsByte Strings.nonASCII s).
  - now apply mapToLower_slash.
  - now rewrite mapBytes_lower_slash.
Qed.

Lemma ToLower_underscore s :
  Strings.existsByte (Ascii.eqb "_") s = false ->
  Strings.existsByte (Ascii.eqb "_") (Strings.ToLower mapToLower s) = false.
Proof.
  intros H. unfold Strings.ToLower. destruct (Strings.existsByte Strings.nonASCII s).
  - now apply mapToLower_underscore.
  - now rewrite mapBytes_lower_underscore.
Qed.

(** C10.  For every file path, [createBranchName] returns a string that
    starts with [auto-tests-], holds no ASCII capital letter, no slash and
    no underscore; and when [filepath.Dir] of the path is the current
    directory [.], it returns exactly [auto-tests-root]. *)
Theorem createBranchName_shape :
  forall filePath,
    let name := Driver.createBranchName filepath_Dir mapToLower filePath in
    Strings.HasPrefix name "auto-tests-" = true /\
    Strings.existsByte Strings.isUpperASCII name = false /\
    Strings.existsByte (Ascii.eqb "/") name = false /\
    Strings.existsByte (Ascii.eqb "_") name = false /\
    (filepath_Dir filePath = "." -> name = "auto-tests-root").
Proof.
  intros filePath. cbv zeta. unfold Driver.createBranchName.
  destruct (String.eqb (filepath_Dir filePath) ".") eqn:E.
  - repeat split; reflexivity.
  - fold (cleaned (filepath_Dir filePath)).
    split; [apply HasPrefix_app|]. split; [|split; [|split]].
    + rewrite existsByte_app, ToLower_no_upper. reflexivity.
    + rewrite existsByte_app, ToLower_slash; [reflexivity|apply cleaned_no_slash].
    + rewrite existsByte_app, ToLower_underscore; [reflexivity|apply cleaned_no_underscore].
    + intros H. rewrite H in E. discriminate.
Qed.

End BranchName.

(** Lowering byte by byte is what [Map(unicode.ToLower, s)] does on every
    string whose non-ASCII runes have no lower-case mapping. *)
Lemma createBranchName_shape_witness :
  let name :=
    Driver.createBranchName Filepath.Dir (Strings.mapBytes Strings.lowerASCII)
      "pkg/Sub_Dir/calculator.go" in
  Filepath.Dir "pkg/Sub_Dir/calculator.go" = "pkg/Sub_Dir" /\
  name = "auto-tests-pkg-sub-dir" /\
  Strings.HasPrefix name "auto-tests-" = true /\
  Strings.existsByte Strings.isUpperASCII name = false /\
  Strings.existsByte (Ascii.eqb "/") name = false /\
  Strings.existsByte (Ascii.eqb "_") name = false /\
  (Filepath.Dir "pkg/Sub_Dir/calculator.go" = "." -> name = "auto-tests-root").
Proof.
  cbv zeta. split; [vm_compute; reflexivity|]. split; [vm_compute; reflexivity|].
  apply (createBranchName_shape Filepath.Dir (Strings.mapBytes Strings.lowerASCII)).
  - apply mapBytes_lower_no_upper.
  - intros s H. now rewrite mapBytes_lower_slash.
  - intros s H. now rewrite mapBytes_lower_underscore.
Defined.

(** ** The clean-up of generated test text *)

Lemma sapp_nil_r s : s ++ EmptyString = s.
Proof. induction s as [|c s IH]; simpl; [reflexivity|now rewrite IH]. Qed.

Lemma sapp_assoc a b c : (a ++ b) ++ c = a ++ (b ++ c).
Proof. induction a as [|x a IH]; simpl; [reflexivity|now rewrite IH]. Qed.

Lemma HasPrefix_app_l s t p :
  Strings.HasPrefix s p = true -> Strings.HasPrefix (s ++ t) p = true.
Proof.
  revert s. induction p as [|d p IH]; intros s H; [apply HasPrefix_nil|].
  destruct s as [|c s]; [discriminate H|].
  cbn [append]. rewrite HasPrefix_cons in *.
  apply andb_true_iff in H. destruct H as [-> H]. now rewrite (IH _ H).
Qed.

Lemma Contains_cons c s sub :
  Strings.Contains (String c s) sub =
  Strings.HasPrefix (String c s) sub || Strings.Contains s sub.
Proof. reflexivity. Qed.

Lemma Contains_nil sub :
  Strings.Contains EmptyString sub = Strings.HasPrefix EmptyString sub.
Proof. cbn [Strings.Contains]. apply orb_false_r. Qed.

Lemma Contains_app_r s t sub :
  Strings.Contains s sub = true -> Strings.Contains (s ++ t) sub = true.
Proof.
  induction s as [|c s IH]; intros H.
  - rewrite Contains_nil in H. destruct sub; [|discriminate H].
    destruct t; reflexivity.
  - rewrite Contains_cons in H. cbn [append]. rewrite Contains_cons.
    apply orb_true_iff in H. apply orb_true_iff. destruct H as [H|H].
    + left. now apply (HasPrefix_app_l (String c s) t).
    + right. now apply IH.
Qed.

Lemma Contains_app_l a s sub :
  Strings.Contains s sub = true -> Strings.Contains (a ++ s) sub = true.
Proof.
  intros H. induction a as [|c a IH]; [exact H|].
  cbn [append]. rewrite Contains_cons, IH. apply orb_true_r.
Qed.

(** What a text does not contain, none of its parts contains. *)
Lemma Contains_infix a m b sub :
  Strings.Contains (a ++ m ++ b) sub = false -> Strings.Contains m sub = false.
Proof.
  intros H. destruct (Strings.Contains m sub) eqn:E; [|reflexivity].
  rewrite (Contains_app_l a (m ++ b) sub) in H; [discriminate H|].
  now apply Contains_app_r.
Qed.

(** *** Code fences *)

Lemma HasPrefix_fence s : Strings.HasPrefix s fence = (3 <=? leadTicks s)%nat.
Proof.
  unfold fence.
  destruct s as [|c1 s]; [reflexivity|]. rewrite HasPrefix_cons. cbn [leadTicks].
  fold tick. destruct (Ascii.eqb tick c1); [|reflexivity].
  destruct s as [|c2 s]; [reflexivity|]. rewrite HasPrefix_cons. cbn [leadTicks].
  fold tick. destruct (Ascii.eqb tick c2); [|reflexivity].
  destruct s as [|c3 s]; [reflexivity|]. rewrite HasPrefix_cons, HasPrefix_nil. cbn [leadTicks].
  fold tick. destruct (Ascii.eqb tick c3); reflexivity.
Qed.

Lemma HasPrefix_fence_inv s :
  Strings.HasPrefix s fence = true ->
  exists rest, s = String tick (String tick (String tick rest)).
Proof.
  unfold fence. intros H.
  destruct s as [|c1 [|c2 [|c3 rest]]]; try discriminate H.
  - rewrite HasPrefix_cons in H. apply andb_true_iff in H. destruct H as [_ H]. discriminate H.
  - rewrite !HasPrefix_cons in H. apply andb_true_iff in H. destruct H as [_ H].
    apply andb_true_iff in H. destruct H as [_ H]. discriminate H.
  - rewrite !HasPrefix_cons in H.
    apply andb_true_iff in H. destruct H as [H1 H].
    apply andb_true_iff in H. destruct H as [H2 H].
    apply andb_true_iff in H. destruct H as [H3 _].
    apply Ascii.eqb_eq in H1, H2, H3. subst. now exists rest.
Qed.

(** Removing the fences leaves no fence: the text written so far never
    starts with more ticks than the text still to be read, and that has
    fewer than three wherever a byte is copied. *)
Lemma replace_fence_invariant s :
  forall k,
    Strings.Contains (Strings.replace_from fence EmptyString k s) fence = false /\
    (leadTicks (Strings.replace_from fence EmptyString k s) <= leadTicks (sdrop k s))%nat.
Proof.
  induction s as [|c s IH]; intros k.
  - destruct k; split; reflexivity || apply Nat.le_refl.
  - destruct k as [|k]; [|apply IH].
    cbn [Strings.replace_from sdrop].
    destruct (Strings.HasPrefix (String c s) fence) eqn:E.
    + destruct (HasPrefix_fence_inv _ E) as [rest Hs].
      assert (Hlead : leadTicks (String c s) = 3 + leadTicks rest)
        by (rewrite Hs; reflexivity).
      assert (Hdrop : sdrop 2 s = rest) by (injection Hs as _ ->; reflexivity).
      destruct (IH 2) as [Hc Hl]. rewrite Hdrop in Hl.
      change (String.length fence - 1) with 2. cbn [append].
      split; [exact Hc|]. rewrite Hlead. lia.
    + destruct (IH 0) as [Hc Hl]. cbn [sdrop] in Hl.
      rewrite HasPrefix_fence in E. apply Nat.leb_gt in E. cbn [leadTicks] in E.
      split.
      * rewrite Contains_cons, Hc, orb_false_r, HasPrefix_fence.
        apply Nat.leb_gt. cbn [leadTicks].
        destruct (Ascii.eqb tick c); lia.
      * cbn [leadTicks]. destruct (Ascii.eqb tick c); lia.
Qed.

Lemma ReplaceAll_fence_free s :
  Strings.Contains (Strings.ReplaceAll s fence EmptyString) fence = false.
Proof. apply (replace_fence_invariant s 0). Qed.

Lemma leadTicks_sep a c b :
  Ascii.eqb tick c = false -> leadTicks (a ++ String c b) = leadTicks a.
Proof.
  intros Hc. induction a as [|x a IH]; cbn [append leadTicks].
  - now rewrite Hc.
  - now rewrite IH.
Qed.

(** A fence does not reach across a byte that is not a tick. *)
Lemma Contains_fence_sep a c b :
  Ascii.eqb tick c = false ->
  Strings.Contains (a ++ String c b) fence =
  Strings.Contains a fence || Strings.Contains b fence.
Proof.
  intros Hc. induction a as [|x a IH].
  - cbn [append]. rewrite Contains_cons, HasPrefix_fence. cbn [leadTicks].
    rewrite Hc. reflexivity.
  - cbn [append]. rewrite !Contains_cons, IH, !HasPrefix_fence.
    change (String x (a ++ String c b)) with (String x a ++ String c b).
    rewrite leadTicks_sep by exact Hc. now rewrite orb_assoc.
Qed.

(** *** Lines *)

Lemma Split_cons s sep : exists piece rest, Strings.Split s sep = piece :: rest.
Proof.
  destruct s as [|c s]; cbn [Strings.Split]; [now eexists; eexists|].
  destruct (Ascii.eqb c sep); [now eexists; eexists|].
  destruct (Strings.Split s sep); now eexists; eexists.
Qed.

(** Joining the lines with newlines gives the text back. *)
Lemma concat_Split s : String.concat nl (Strings.Split s LF) = s.
Proof.
  induction s as [|c s IH]; [reflexivity|].
  cbn [Strings.Split]. destruct (Split_cons s LF) as (piece & rest & Hs).
  rewrite Hs in *. destruct (Ascii.eqb c LF) eqn:E.
  - apply Ascii.eqb_eq in E. subst c.
    change (String.concat nl (EmptyString :: piece :: rest))
      with (String LF (String.concat nl (piece :: rest))).
    now rewrite IH.
  - destruct rest as [|next rest].
    + cbn [String.concat] in *. now rewrite IH.
    + change (String.concat nl (String c piece :: next :: rest))
        with (String c (String.concat nl (piece :: next :: rest))).
      now rewrite IH.
Qed.

Lemma tick_not_LF : Ascii.eqb tick LF = false.
Proof. reflexivity. Qed.

Lemma Contains_fence_concat lines :
  Strings.Contains (String.concat nl lines) fence =
  existsb (fun l => Strings.Contains l fence) lines.
Proof.
  induction lines as [|l lines IH]; [reflexivity|].
  destruct lines as [|l' lines].
  - cbn [String.concat existsb]. now rewrite orb_false_r.
  - change (String.concat nl (l :: l' :: lines))
      with (l ++ String LF (String.concat nl (l' :: lines))).
    rewrite Contains_fence_sep by exact tick_not_LF. now rewrite IH.
Qed.

Lemma insertImport_cons line rest importAdded :
  TestGenerator.insertImport (line :: rest) importAdded =
  line ++ String LF
    (if Strings.HasPrefix (Strings.TrimSpace line) "package " && negb importAdded
     then String LF (importLine ++ String LF (TestGenerator.insertImport rest true))
     else TestGenerator.insertImport rest importAdded).
Proof.
  cbn [TestGenerator.insertImport]. rewrite sapp_assoc. cbn [nl append].
  destruct (Strings.HasPrefix (Strings.TrimSpace line) "package " && negb importAdded);
    reflexivity.
Qed.

Lemma insertImport_fence_free lines :
  forall importAdded,
    existsb (fun l => Strings.Contains l fence) lines = false ->
    Strings.Contains (TestGenerator.insertImport lines importAdded) fence = false.
Proof.
  induction lines as [|l lines IH]; intros importAdded H; [reflexivity|].
  cbn [existsb] in H. apply orb_false_iff in H. destruct H as [Hl Hrest].
  rewrite insertImport_cons, Contains_fence_sep, Hl by exact tick_not_LF.
  cbn [orb].
  destruct (Strings.HasPrefix (Strings.TrimSpace l) "package " && negb importAdded).
  - change (String LF (importLine ++ String LF (TestGenerator.insertImport lines true)))
      with (EmptyString ++ String LF (importLine ++ String LF (TestGenerator.insertImport lines true))).
    rewrite !Contains_fence_sep by exact tick_not_LF.
    rewrite (IH true Hrest). reflexivity.
  - apply IH, Hrest.
Qed.

(** *** Trimming *)

Lemma HasPrefix_split s p : Strings.HasPrefix s p = true -> s = p ++ sdrop (String.length p) s.
Proof.
  revert s. induction p as [|d p IH]; intros s H; [reflexivity|].
  destruct s as [|c s]; [discriminate H|].
  rewrite HasPrefix_cons in H. apply andb_true_iff in H. destruct H as [Hc Hp].
  apply Ascii.eqb_eq in Hc. subst d. cbn [append String.length sdrop].
  now rewrite <- (IH s Hp).
Qed.

Lemma matchLen_found runes s k :
  Strings.matchLen runes s = S k ->
  exists r, In r runes /\ String.length r = S k /\ s = r ++ sdrop (S k) s.
Proof.
  induction runes as [|r runes IH]; cbn [Strings.matchLen]; [discriminate|].
  destruct (Strings.HasPrefix s r) eqn:E; intros H.
  - exists r. split; [now left|]. split; [exact H|].
    rewrite <- H. now apply HasPrefix_split.
  - destruct (IH H) as (r' & Hin & Hlen & Hs). exists r'. split; [now right|]. now split.
Qed.

Lemma trimLeft_skip runes s :
  forall k, Strings.trimLeft_from runes k s = Strings.trimLeft_from runes 0 (sdrop k s).
Proof.
  induction s as [|c s IH]; intros k.
  - now destruct k.
  - destruct k as [|k]; [reflexivity|]. cbn [Strings.trimLeft_from sdrop]. apply IH.
Qed.

Lemma trimLeft_step runes s :
  Strings.trimLeft_from runes 0 s =
  match Strings.matchLen runes s with
  | O => s
  | S k => Strings.trimLeft_from runes 0 (sdrop (S k) s)
  end.
Proof.
  destruct s as [|c s].
  - cbn [Strings.trimLeft_from]. now destruct (Strings.matchLen runes EmptyString).
  - cbn [Strings.trimLeft_from].
    destruct (Strings.matchLen runes (String c s)); [reflexivity|].
    cbn [sdrop]. apply trimLeft_skip.
Qed.

Lemma length_sapp a b : String.length (a ++ b) = String.length a + String.length b.
Proof. induction a as [|c a IH]; simpl; [reflexivity|now rewrite IH]. Qed.

(** The scan drops a run of runes and returns the rest. *)
Lemma trimLeft_decompose runes :
  forall n s, (String.length s <= n)%nat ->
    exists a, Runs runes a /\ s = a ++ Strings.trimLeft_from runes 0 s.
Proof.
  induction n as [|n IH]; intros s Hlen.
  - destruct s; [|simpl in Hlen; lia]. exists EmptyString. split; [constructor|reflexivity].
  - rewrite trimLeft_step. destruct (Strings.matchLen runes s) as [|k] eqn:E.
    + exists EmptyString. split; [constructor|reflexivity].
    + destruct (matchLen_found _ _ _ E) as (r & Hin & Hr & Hs).
      assert (Hshort : (String.length (sdrop (S k) s) <= n)%nat).
      { apply (f_equal String.length) in Hs. rewrite length_sapp, Hr in Hs. lia. }
      destruct (IH _ Hshort) as (a & Ha & Heq).
      exists (r ++ a). split; [now constructor|].
      rewrite sapp_assoc, <- Heq. exact Hs.
Qed.

Lemma reverse_app a b : Strings.reverse (a ++ b) = Strings.reverse b ++ Strings.reverse a.
Proof.
  induction a as [|c a IH]; cbn [append Strings.reverse].
  - now rewrite sapp_nil_r.
  - now rewrite IH, sapp_assoc.
Qed.

Lemma reverse_involutive s : Strings.reverse (Strings.reverse s) = s.
Proof.
  induction s as [|c s IH]; [reflexivity|].
  cbn [Strings.reverse]. rewrite reverse_app, IH. reflexivity.
Qed.

(** [TrimSpace] cuts a run of white-space runes off either end. *)
Lemma TrimSpace_decompose t :
  exists a b,
    t = a ++ Strings.TrimSpace t ++ b /\
    Runs Strings.spaceRunes a /\
    Runs (map Strings.reverse Strings.spaceRunes) (Strings.reverse b).
Proof.
  destruct (trimLeft_decompose Strings.spaceRunes _ t (Nat.le_refl _)) as (a & Ha & Hleft).
  fold (Strings.TrimLeftSpace t) in Hleft.
  destruct (trimLeft_decompose (map Strings.reverse Strings.spaceRunes) _
              (Strings.reverse (Strings.TrimLeftSpace t)) (Nat.le_refl _))
    as (b' & Hb & Hright).
  exists a, (Strings.reverse b'). split; [|split].
  - unfold Strings.TrimSpace, Strings.TrimRightSpace.
    rewrite <- reverse_app, <- Hright, reverse_involutive. exact Hleft.
  - exact Ha.
  - now rewrite reverse_involutive.
Qed.

Lemma TrimSpace_fence_free t :
  Strings.Contains t fence = false -> Strings.Contains (Strings.TrimSpace t) fence = false.
Proof.
  intros H. destruct (TrimSpace_decompose t) as (a & b & Ht & _).
  rewrite Ht in H. now apply Contains_infix in H.
Qed.

Lemma Contains_spec s sub :
  Strings.Contains s sub = true <-> exists a b, s = a ++ sub ++ b.
Proof.
  split.
  - induction s as [|c s IH]; intros H.
    + rewrite Contains_nil in H. exists EmptyString, EmptyString.
      destruct sub; [reflexivity|discriminate H].
    + rewrite Contains_cons in H. apply orb_true_iff in H. destruct H as [H|H].
      * exists EmptyString, (sdrop (String.length sub) (String c s)).
        now apply HasPrefix_split.
      * destruct (IH H) as (a & b & ->). now exists (String c a), b.
  - intros (a & b & ->). apply Contains_app_l, Contains_app_r.
    destruct sub as [|c sub]; [reflexivity|].
    rewrite Contains_cons.
    rewrite <- (sapp_nil_r (String c sub)) at 1. now rewrite HasPrefix_app.
Qed.

Lemma Contains_reverse s sub :
  Strings.Contains s sub = true ->
  Strings.Contains (Strings.reverse s) (Strings.reverse sub) = true.
Proof.
  intros H. apply Contains_spec in H. destruct H as (a & b & ->).
  apply Contains_spec. exists (Strings.reverse b), (Strings.reverse a).
  now rewrite !reverse_app, sapp_assoc.
Qed.

Lemma Runs_no_byte runes c a :
  Runs runes a ->
  existsb (Strings.existsByte (Ascii.eqb c)) runes = false ->
  Strings.existsByte (Ascii.eqb c) a = false.
Proof.
  intros Ha Hrunes. induction Ha as [|r s Hin _ IH]; [reflexivity|].
  rewrite existsByte_app, IH, orb_false_r.
  destruct (Strings.existsByte (Ascii.eqb c) r) eqn:E; [|reflexivity].
  rewrite <- Hrunes. symmetry. apply existsb_exists. now exists r.
Qed.

(** A text that starts with [q] is not found any earlier for a prefix
    without [q]. *)
Lemma Contains_after a x q mid :
  Strings.existsByte (Ascii.eqb q) a = false ->
  Strings.Contains (a ++ x) (String q mid) = Strings.Contains x (String q mid).
Proof.
  induction a as [|c a IH]; intros H; [reflexivity|].
  cbn [Strings.existsByte] in H. apply orb_false_iff in H. destruct H as [Hc Ha].
  cbn [append]. rewrite Contains_cons, HasPrefix_cons, Hc, IH by exact Ha. reflexivity.
Qed.

(** Trimming keeps every occurrence of a text whose first and last byte
    belong to no white-space rune. *)
Lemma Contains_TrimSpace t q mid init z :
  String q mid = init ++ String z EmptyString ->
  existsb (Strings.existsByte (Ascii.eqb q)) Strings.spaceRunes = false ->
  existsb (Strings.existsByte (Ascii.eqb z)) (map Strings.reverse Strings.spaceRunes) = false ->
  Strings.Contains t (String q mid) = true ->
  Strings.Contains (Strings.TrimSpace t) (String q mid) = true.
Proof.
  intros Hlast Hq Hz H.
  destruct (TrimSpace_decompose t) as (a & b & Ht & Ha & Hb).
  rewrite Ht in H.
  rewrite Contains_after in H by (eapply Runs_no_byte; eassumption).
  apply Contains_reverse in H.
  rewrite reverse_app, Hlast, reverse_app in H. cbn [Strings.reverse append] in H.
  rewrite Contains_after in H by (eapply Runs_no_byte; eassumption).
  apply Contains_reverse in H.
  rewrite reverse_involutive in H.
  change (String z (Strings.reverse init))
    with (Strings.reverse (String z EmptyString) ++ Strings.reverse init) in H.
  rewrite <- reverse_app, reverse_involutive, <- Hlast in H. exact H.
Qed.

Lemma quotedTesting_TrimSpace t :
  Strings.Contains t TestGenerator.quotedTesting = true ->
  Strings.Contains (Strings.TrimSpace t) TestGenerator.quotedTesting = true.
Proof.
  apply (Contains_TrimSpace t _ _ (TestGenerator.dquote ++ "testing") (ascii_of_nat 34));
    vm_compute; reflexivity.
Qed.

(** *** The import *)

Lemma unlines_cons l lines : unlines (l :: lines) = l ++ String LF (unlines lines).
Proof.
  unfold unlines. cbn [map]. destruct lines as [|l' lines].
  - cbn [map String.concat]. reflexivity.
  - cbn [map String.concat]. rewrite sapp_assoc. reflexivity.
Qed.

Lemma insertImport_added lines : TestGenerator.insertImport lines true = unlines lines.
Proof.
  induction lines as [|l lines IH]; [reflexivity|].
  rewrite insertImport_cons, unlines_cons, andb_false_r. now rewrite IH.
Qed.

(** The import goes immediately after the first package line. *)
Lemma insertImport_position pre line post :
  existsb isPackageLine pre = false ->
  isPackageLine line = true ->
  TestGenerator.insertImport (pre ++ line :: post) false =
  unlines pre ++ line ++ nl ++ nl ++ importLine ++ nl ++ unlines post.
Proof.
  intros Hpre Hline. induction pre as [|l pre IH].
  - cbn [app]. rewrite insertImport_cons. fold (isPackageLine line). rewrite Hline.
    cbn [andb negb]. rewrite insertImport_added. reflexivity.
  - cbn [existsb] in Hpre. apply orb_false_iff in Hpre. destruct Hpre as [Hl Hpre].
    cbn [app]. rewrite insertImport_cons. fold (isPackageLine l). rewrite Hl.
    cbn [andb]. rewrite (IH Hpre), unlines_cons, sapp_assoc. reflexivity.
Qed.

Lemma first_package_line lines :
  existsb isPackageLine lines = true ->
  exists pre line post,
    lines = (pre ++ line :: post)%list /\
    existsb isPackageLine pre = false /\ isPackageLine line = true.
Proof.
  induction lines as [|l lines IH]; [discriminate|].
  cbn [existsb]. destruct (isPackageLine l) eqn:E; intros H.
  - exists [], l, lines. now repeat split.
  - destruct (IH H) as (pre & line & post & -> & Hpre & Hline).
    exists (l :: pre), line, post. repeat split; [|exact Hline].
    cbn [existsb]. now rewrite E.
Qed.

Lemma insertImport_has_import lines :
  existsb isPackageLine lines = true ->
  Strings.Contains (TestGenerator.insertImport lines false) TestGenerator.quotedTesting = true.
Proof.
  intros H. destruct (first_package_line lines H) as (pre & line & post & -> & Hpre & Hline).
  rewrite (insertImport_position pre line post Hpre Hline).
  apply Contains_spec.
  exists (unlines pre ++ line ++ nl ++ nl ++ "import "), (nl ++ unlines post).
  unfold importLine. rewrite !sapp_assoc. reflexivity.
Qed.

(** *** Package lines *)

Lemma Split_app_LF x y :
  Strings.Split (x ++ String LF y) LF = (Strings.Split x LF ++ Strings.Split y LF)%list.
Proof.
  induction x as [|c x IH]; cbn [append Strings.Split].
  - rewrite Ascii.eqb_refl. reflexivity.
  - rewrite IH. destruct (Ascii.eqb c LF); [reflexivity|].
    destruct (Split_cons x LF) as (p & r & ->). reflexivity.
Qed.

Lemma Split_noLF z : noLF z = true -> Strings.Split z LF = [z].
Proof.
  unfold noLF. induction z as [|c z IH]; intros H; [reflexivity|].
  cbn [Strings.existsByte] in H. apply negb_true_iff, orb_false_iff in H.
  destruct H as [Hc Hz]. cbn [Strings.Split].
  rewrite Ascii.eqb_sym, Hc, IH by now rewrite Hz. reflexivity.
Qed.

Lemma Split_lines_noLF s : forallb noLF (Strings.Split s LF) = true.
Proof.
  induction s as [|c s IH]; [reflexivity|].
  cbn [Strings.Split]. destruct (Ascii.eqb c LF) eqn:E.
  - cbn [forallb]. exact IH.
  - destruct (Split_cons s LF) as (p & r & Hs). rewrite Hs in *.
    cbn [forallb] in *. apply andb_true_iff in IH. destruct IH as [Hp Hr].
    rewrite Hr, andb_true_r. unfold noLF in *. cbn [Strings.existsByte].
    rewrite Ascii.eqb_sym, E. exact Hp.
Qed.

(** A text without newline in front of [x] joins the first line of [x]. *)
Lemma Split_app_noLF z x :
  noLF z = true ->
  exists p r, Strings.Split x LF = p :: r /\ Strings.Split (z ++ x) LF = (z ++ p) :: r.
Proof.
  unfold noLF. intros H. destruct (Split_cons x LF) as (p & r & Hx).
  exists p, r. split; [exact Hx|].
  induction z as [|c z IH]; [exact Hx|].
  cbn [Strings.existsByte] in H. apply negb_true_iff, orb_false_iff in H.
  destruct H as [Hc Hz]. cbn [append Strings.Split].
  rewrite Ascii.eqb_sym, Hc, IH by now rewrite Hz. reflexivity.
Qed.

(** A text without newline behind [x] joins the last line of [x]. *)
Lemma Split_app_noLF_r x z :
  noLF z = true ->
  exists init final,
    Strings.Split x LF = (init ++ [final])%list /\
    Strings.Split (x ++ z) LF = (init ++ [(final ++ z)%string])%list.
Proof.
  intros Hz. induction x as [|c x IH].
  - exists [], EmptyString. split; [reflexivity|]. now apply Split_noLF.
  - destruct IH as (init & final & Hx & Hxz). cbn [append Strings.Split].
    rewrite Hx, Hxz. destruct (Ascii.eqb c LF).
    + exists (EmptyString :: init), final. split; reflexivity.
    + destruct init as [|p init].
      * exists [], (String c final). split; reflexivity.
      * exists (String c p :: init), final. split; reflexivity.
Qed.

Lemma isPackageLine_empty : isPackageLine EmptyString = false.
Proof. reflexivity. Qed.

Lemma isPackageLine_import : isPackageLine importLine = false.
Proof. vm_compute. reflexivity. Qed.

(** The rewritten text still has every package line of the lines it was
    made from. *)
Lemma insertImport_keeps_package_line lines :
  forall importAdded,
    forallb noLF lines = true ->
    existsb isPackageLine lines = true ->
    hasPackageLine (TestGenerator.insertImport lines importAdded) = true.
Proof.
  induction lines as [|l lines IH]; intros importAdded Hlf H; [discriminate H|].
  cbn [forallb] in Hlf. apply andb_true_iff in Hlf. destruct Hlf as [Hl Hlines].
  rewrite insertImport_cons. unfold hasPackageLine.
  rewrite Split_app_LF, (Split_noLF l Hl), existsb_app. cbn [existsb].
  cbn [existsb] in H. destruct (isPackageLine l) eqn:E; [reflexivity|].
  cbn [orb] in *. unfold isPackageLine in E. rewrite E. cbn [andb].
  apply (IH importAdded Hlines H).
Qed.

(** If [r'] starts [r ++ s], one of [r], [r'] starts the other. *)
Lemma HasPrefix_comparable r s r' :
  Strings.HasPrefix (r ++ s) r' = true ->
  Strings.HasPrefix r r' = true \/ Strings.HasPrefix r' r = true.
Proof.
  revert r'. induction r as [|c r IH]; intros r' H.
  - right. apply HasPrefix_nil.
  - destruct r' as [|d r']; [left; apply HasPrefix_nil|].
    cbn [append] in H. rewrite HasPrefix_cons in H.
    apply andb_true_iff in H. destruct H as [Hc H].
    rewrite !HasPrefix_cons, (Ascii.eqb_sym c d), Hc. cbn [andb]. now apply IH.
Qed.

Lemma prefixFree_spaceRunes : prefixFree Strings.spaceRunes = true.
Proof. vm_compute. reflexivity. Qed.

Lemma prefixFree_reversed : prefixFree (map Strings.reverse Strings.spaceRunes) = true.
Proof. vm_compute. reflexivity. Qed.

Lemma prefixFree_nonempty runes r :
  prefixFree runes = true -> In r runes -> exists k, String.length r = S k.
Proof.
  intros Hfree Hin. unfold prefixFree in Hfree.
  rewrite forallb_forall in Hfree. specialize (Hfree r Hin).
  apply andb_true_iff in Hfree. destruct Hfree as [Hne _].
  destruct r; [discriminate Hne|]. now eexists.
Qed.

Lemma matchLen_prefix_free runes r s :
  prefixFree runes = true -> In r runes ->
  Strings.matchLen runes (r ++ s) = String.length r.
Proof.
  intros Hfree Hin.
  assert (Hsub : forall l, incl l runes -> In r l ->
                   Strings.matchLen l (r ++ s) = String.length r).
  { induction l as [|r1 l IH]; intros Hincl Hl; [destruct Hl|].
    cbn [Strings.matchLen].
    destruct (Strings.HasPrefix (r ++ s) r1) eqn:E.
    - unfold prefixFree in Hfree. rewrite forallb_forall in Hfree.
      specialize (Hfree r Hin). apply andb_true_iff in Hfree. destruct Hfree as [_ Hfree].
      rewrite forallb_forall in Hfree.
      specialize (Hfree r1 (Hincl r1 (or_introl eq_refl))).
      unfold unrelated in Hfree. apply orb_true_iff in Hfree.
      destruct Hfree as [Heq|Hno].
      + apply String.eqb_eq in Heq. now subst r1.
      + apply HasPrefix_comparable in E. apply negb_true_iff, orb_false_iff in Hno.
        destruct Hno as [H1 H2]. destruct E as [E|E]; congruence.
    - destruct Hl as [->|Hl].
      + rewrite HasPrefix_app in E. discriminate E.
      + apply IH; [|exact Hl]. intros x Hx. apply Hincl. now right. }
  apply Hsub; [apply incl_refl|exact Hin].
Qed.

Lemma sdrop_app r x : sdrop (String.length r) (r ++ x) = x.
Proof. induction r as [|c r IH]; [reflexivity|exact IH]. Qed.

Lemma trimLeft_absorb_rune runes r x :
  prefixFree runes = true -> In r runes ->
  Strings.trimLeft_from runes 0 (r ++ x) = Strings.trimLeft_from runes 0 x.
Proof.
  intros Hfree Hin. rewrite trimLeft_step, (matchLen_prefix_free runes r x Hfree Hin).
  destruct (prefixFree_nonempty runes r Hfree Hin) as [k Hk].
  rewrite Hk, <- Hk, sdrop_app. reflexivity.
Qed.

Lemma trimLeft_absorb runes a x :
  prefixFree runes = true -> Runs runes a ->
  Strings.trimLeft_from runes 0 (a ++ x) = Strings.trimLeft_from runes 0 x.
Proof.
  intros Hfree Ha. induction Ha as [|r s Hin _ IH]; [reflexivity|].
  rewrite sapp_assoc, trimLeft_absorb_rune by assumption. exact IH.
Qed.

Lemma matchLen_none runes s :
  (forall r, In r runes -> r <> EmptyString) ->
  (Strings.matchLen runes s = 0 <->
   forall r, In r runes -> Strings.HasPrefix s r = false).
Proof.
  induction runes as [|r1 runes IH]; intros Hne; cbn [Strings.matchLen].
  - split; [intros _ r []|reflexivity].
  - assert (Hne' : forall r, In r runes -> r <> EmptyString)
      by (intros r Hr; apply Hne; now right).
    specialize (IH Hne').
    destruct (Strings.HasPrefix s r1) eqn:E; split.
    + intros Hlen. exfalso. apply (Hne r1 (or_introl eq_refl)).
      now destruct r1.
    + intros H. rewrite (H r1 (or_introl eq_refl)) in E. discriminate E.
    + intros Hlen r [<-|Hin]; [exact E|]. now apply (proj1 IH Hlen r).
    + intros H. apply IH. intros r Hin. apply H. now right.
Qed.

Lemma prefixFree_no_empty runes :
  prefixFree runes = true -> forall r, In r runes -> r <> EmptyString.
Proof.
  intros Hfree r Hin ->.
  destruct (prefixFree_nonempty runes EmptyString Hfree Hin) as [k Hk]. discriminate Hk.
Qed.

Lemma spaceRunes_wellFormed : forallb wellFormedRune Strings.spaceRunes = true.
Proof. vm_compute. reflexivity. Qed.

Lemma HasPrefix_continuation w h r0 q :
  isCont h = false ->
  Strings.existsByte (fun c => negb (isCont c)) q = false ->
  Strings.HasPrefix (w ++ String h r0) q = true ->
  Strings.HasPrefix w q = true.
Proof.
  intros Hh. revert q. induction w as [|c w IH]; intros q Hq H.
  - destruct q as [|d q]; [reflexivity|].
    cbn [append] in H. rewrite HasPrefix_cons in H.
    apply andb_true_iff in H. destruct H as [Hd _]. apply Ascii.eqb_eq in Hd. subst d.
    cbn [Strings.existsByte] in Hq. rewrite Hh in Hq. discriminate Hq.
  - destruct q as [|d q]; [apply HasPrefix_nil|].
    cbn [append] in H. rewrite HasPrefix_cons in *.
    apply andb_true_iff in H. destruct H as [-> H]. cbn [andb].
    cbn [Strings.existsByte] in Hq. apply orb_false_iff in Hq. destruct Hq as [_ Hq].
    now apply IH.
Qed.

(** No rune begins inside a text that starts with none and ends where
    another rune is appended. *)
Lemma matchLen_straddle runes u r :
  prefixFree runes = true ->
  forallb wellFormedRune runes = true ->
  In r runes ->
  u <> EmptyString ->
  Strings.matchLen runes u = 0 ->
  Strings.matchLen runes (u ++ r) = 0.
Proof.
  intros Hfree Hwf Hin Hu Hnone.
  pose proof (prefixFree_no_empty runes Hfree) as Hne.
  rewrite matchLen_none in * by exact Hne.
  intros ri Hri. specialize (Hnone ri Hri).
  destruct (Strings.HasPrefix (u ++ r) ri) eqn:E; [|reflexivity].
  rewrite forallb_forall in Hwf.
  pose proof (Hwf r Hin) as Hr. pose proof (Hwf ri Hri) as Hi.
  destruct u as [|c u]; [congruence|].
  destruct ri as [|d ri]; [discriminate Hi|].
  destruct r as [|h r0]; [discriminate Hr|].
  cbn [wellFormedRune] in Hr, Hi.
  apply andb_true_iff in Hr. destruct Hr as [Hh _]. apply negb_true_iff in Hh.
  apply andb_true_iff in Hi. destruct Hi as [_ Hcont]. apply negb_true_iff in Hcont.
  cbn [append] in E. rewrite HasPrefix_cons in E, Hnone.
  apply andb_true_iff in E. destruct E as [Hd E].
  rewrite Hd in Hnone. cbn [andb] in Hnone.
  rewrite (HasPrefix_continuation u h r0 ri Hh Hcont E) in Hnone. discriminate Hnone.
Qed.

Lemma matchLen_empty runes :
  prefixFree runes = true -> Strings.matchLen runes EmptyString = 0.
Proof.
  intros Hfree. apply matchLen_none; [now apply prefixFree_no_empty|].
  intros r Hin. destruct r; [|reflexivity].
  now destruct (prefixFree_no_empty runes Hfree EmptyString Hin).
Qed.

(** What the scan returns starts with no rune. *)
Lemma trimLeft_stops runes :
  prefixFree runes = true ->
  forall n s, (String.length s <= n)%nat ->
    Strings.matchLen runes (Strings.trimLeft_from runes 0 s) = 0.
Proof.
  intros Hfree. induction n as [|n IH]; intros s Hlen.
  - destruct s; [|simpl in Hlen; lia]. now apply matchLen_empty.
  - rewrite trimLeft_step. destruct (Strings.matchLen runes s) as [|k] eqn:E; [exact E|].
    destruct (matchLen_found _ _ _ E) as (r & Hin & Hr & Hs).
    apply IH. apply (f_equal String.length) in Hs. rewrite length_sapp, Hr in Hs. lia.
Qed.

Lemma TrimLeftSpace_rune r y :
  In r Strings.spaceRunes ->
  Strings.TrimLeftSpace (r ++ y) = Strings.TrimLeftSpace y.
Proof.
  intros Hin. apply trimLeft_absorb_rune; [exact prefixFree_spaceRunes|exact Hin].
Qed.

Lemma TrimRightSpace_rune r y :
  In r Strings.spaceRunes ->
  Strings.TrimRightSpace (y ++ r) = Strings.TrimRightSpace y.
Proof.
  intros Hin. unfold Strings.TrimRightSpace. rewrite reverse_app.
  rewrite trimLeft_absorb_rune; [reflexivity|exact prefixFree_reversed|].
  now apply in_map.
Qed.

(** A white-space rune in front of a line or behind it does not change the
    trimmed line. *)
Lemma TrimSpace_rune_l r y :
  In r Strings.spaceRunes -> Strings.TrimSpace (r ++ y) = Strings.TrimSpace y.
Proof. intros Hin. unfold Strings.TrimSpace. now rewrite TrimLeftSpace_rune. Qed.

Lemma TrimSpace_rune_r r y :
  In r Strings.spaceRunes -> Strings.TrimSpace (y ++ r) = Strings.TrimSpace y.
Proof.
  intros Hin. unfold Strings.TrimSpace.
  destruct (trimLeft_decompose Strings.spaceRunes _ y (Nat.le_refl _)) as (a & Ha & Hy).
  fold (Strings.TrimLeftSpace y) in Hy.
  pose proof (trimLeft_stops Strings.spaceRunes prefixFree_spaceRunes _ y (Nat.le_refl _))
    as Hstop.
  fold (Strings.TrimLeftSpace y) in Hstop.
  assert (Hleft : Strings.TrimLeftSpace (y ++ r) =
                  Strings.TrimLeftSpace (Strings.TrimLeftSpace y ++ r)).
  { rewrite Hy at 1. rewrite sapp_assoc. unfold Strings.TrimLeftSpace at 1.
    rewrite trimLeft_absorb by (exact prefixFree_spaceRunes || exact Ha). reflexivity. }
  rewrite Hleft. destruct (Strings.TrimLeftSpace y) as [|c u] eqn:Eu.
  - cbn [append]. rewrite <- (sapp_nil_r r), TrimLeftSpace_rune by exact Hin. reflexivity.
  - unfold Strings.TrimLeftSpace at 1. rewrite trimLeft_step.
    rewrite matchLen_straddle;
      [|exact prefixFree_spaceRunes|exact spaceRunes_wellFormed|exact Hin|discriminate|exact Hstop].
    now apply TrimRightSpace_rune.
Qed.

Lemma spaceRunes_LF :
  forallb (fun r => String.eqb r nl || noLF r) Strings.spaceRunes = true.
Proof. vm_compute. reflexivity. Qed.

Lemma hasPackageLine_rune_l r x :
  In r Strings.spaceRunes -> hasPackageLine (r ++ x) = hasPackageLine x.
Proof.
  intros Hin. pose proof spaceRunes_LF as H. rewrite forallb_forall in H.
  specialize (H r Hin). apply orb_true_iff in H. unfold hasPackageLine.
  destruct H as [H|H].
  - apply String.eqb_eq in H. subst r. cbn [nl append Strings.Split].
    rewrite Ascii.eqb_refl. reflexivity.
  - destruct (Split_app_noLF r x H) as (p & rest & Hx & Hrx).
    rewrite Hx, Hrx. cbn [existsb]. unfold isPackageLine at 1 3.
    now rewrite TrimSpace_rune_l.
Qed.

Lemma hasPackageLine_rune_r r x :
  In r Strings.spaceRunes -> hasPackageLine (x ++ r) = hasPackageLine x.
Proof.
  intros Hin. pose proof spaceRunes_LF as H. rewrite forallb_forall in H.
  specialize (H r Hin). apply orb_true_iff in H. unfold hasPackageLine.
  destruct H as [H|H].
  - apply String.eqb_eq in H. subst r. unfold nl. rewrite Split_app_LF, existsb_app.
    cbn [Strings.Split existsb]. rewrite isPackageLine_empty. now rewrite !orb_false_r.
  - destruct (Split_app_noLF_r x r H) as (init & final & Hx & Hxr).
    rewrite Hx, Hxr, !existsb_app. cbn [existsb]. unfold isPackageLine at 2 4.
    now rewrite TrimSpace_rune_r.
Qed.

Lemma hasPackageLine_runs_l a x :
  Runs Strings.spaceRunes a -> hasPackageLine (a ++ x) = hasPackageLine x.
Proof.
  intros Ha. induction Ha as [|r s Hin _ IH]; [reflexivity|].
  now rewrite sapp_assoc, hasPackageLine_rune_l.
Qed.

Lemma hasPackageLine_runs_r b :
  Runs (map Strings.reverse Strings.spaceRunes) b ->
  forall x, hasPackageLine (x ++ Strings.reverse b) = hasPackageLine x.
Proof.
  intros Hb. induction Hb as [|r s Hin _ IH]; intros x.
  - cbn [Strings.reverse]. now rewrite sapp_nil_r.
  - rewrite reverse_app, <- sapp_assoc.
    apply in_map_iff in Hin. destruct Hin as (r0 & <- & Hr0).
    rewrite reverse_involutive, hasPackageLine_rune_r by exact Hr0. apply IH.
Qed.

(** Trimming the text neither adds nor removes a package line. *)
Lemma hasPackageLine_TrimSpace t :
  hasPackageLine (Strings.TrimSpace t) = hasPackageLine t.
Proof.
  destruct (TrimSpace_decompose t) as (a & b & Ht & Ha & Hb).
  rewrite Ht at 2. rewrite hasPackageLine_runs_l by exact Ha.
  rewrite <- (reverse_involutive b). now rewrite hasPackageLine_runs_r.
Qed.

(** *** The clean-up as a whole *)

Lemma cleanup_unfold raw packageName imports :
  TestGenerator.cleanupGeneratedCode raw packageName imports =
  Strings.TrimSpace
    (if Strings.Contains (withPackage raw packageName) TestGenerator.quotedTesting
     then withPackage raw packageName
     else TestGenerator.insertImport (Strings.Split (withPackage raw packageName) LF) false).
Proof.
  unfold TestGenerator.cleanupGeneratedCode, withPackage, stripFences. cbv zeta.
  destruct (Strings.Contains _ "package "); cbn [negb];
    destruct (Strings.Contains _ TestGenerator.quotedTesting); reflexivity.
Qed.

Lemma stripFences_fence_free raw : Strings.Contains (stripFences raw) fence = false.
Proof. apply ReplaceAll_fence_free. Qed.

Lemma withPackage_fence_free raw packageName :
  Strings.Contains packageName fence = false ->
  Strings.Contains (withPackage raw packageName) fence = false.
Proof.
  intros Hname. unfold withPackage.
  destruct (Strings.Contains (stripFences raw) "package ");
    [apply stripFences_fence_free|].
  change ("package " ++ packageName ++ nl ++ nl ++ stripFences raw)
    with ("package" ++ String " " (packageName ++
            String LF (EmptyString ++ String LF (stripFences raw)))).
  rewrite Contains_fence_sep by reflexivity.
  rewrite !Contains_fence_sep by exact tick_not_LF.
  now rewrite Hname, stripFences_fence_free.
Qed.

Lemma cleanup_fence_free raw packageName imports :
  Strings.Contains packageName fence = false ->
  Strings.Contains (TestGenerator.cleanupGeneratedCode raw packageName imports) fence = false.
Proof.
  intros Hname. rewrite cleanup_unfold. apply TrimSpace_fence_free.
  pose proof (withPackage_fence_free raw packageName Hname) as Htext.
  destruct (Strings.Contains (withPackage raw packageName) TestGenerator.quotedTesting);
    [exact Htext|].
  apply insertImport_fence_free.
  now rewrite <- Contains_fence_concat, concat_Split.
Qed.

Lemma cleanup_keeps_package_line raw packageName imports :
  hasPackageLine (withPackage raw packageName) = true ->
  hasPackageLine (TestGenerator.cleanupGeneratedCode raw packageName imports) = true.
Proof.
  intros H. rewrite cleanup_unfold, hasPackageLine_TrimSpace.
  destruct (Strings.Contains (withPackage raw packageName) TestGenerator.quotedTesting);
    [exact H|].
  apply insertImport_keeps_package_line; [apply Split_lines_noLF|exact H].
Qed.

Lemma cleanup_has_testing raw packageName imports :
  hasPackageLine (withPackage raw packageName) = true ->
  Strings.Contains (TestGenerator.cleanupGeneratedCode raw packageName imports)
    TestGenerator.quotedTesting = true.
Proof.
  intros H. rewrite cleanup_unfold. apply quotedTesting_TrimSpace.
  destruct (Strings.Contains (withPackage raw packageName) TestGenerator.quotedTesting) eqn:E;
    [exact E|].
  now apply insertImport_has_import.
Qed.

Lemma cleanup_import_position raw packageName imports pre line post :
  Strings.Contains (withPackage raw packageName) TestGenerator.quotedTesting = false ->
  Strings.Split (withPackage raw packageName) LF = (pre ++ line :: post)%list ->
  existsb isPackageLine pre = false ->
  isPackageLine line = true ->
  TestGenerator.cleanupGeneratedCode raw packageName imports =
  Strings.TrimSpace
    (unlines pre ++ line ++ nl ++ nl ++ importLine ++ nl ++ unlines post).
Proof.
  intros Htesting Hsplit Hpre Hline.
  rewrite cleanup_unfold, Htesting, Hsplit.
  now rewrite (insertImport_position pre line post Hpre Hline).
Qed.

Lemma existsByte_reverse p s :
  Strings.existsByte p (Strings.reverse s) = Strings.existsByte p s.
Proof.
  induction s as [|c s IH]; [reflexivity|].
  cbn [Strings.reverse]. rewrite existsByte_app, IH. cbn [Strings.existsByte].
  rewrite orb_false_r. apply orb_comm.
Qed.

Lemma matchLen_first_byte runes c x :
  (forall r, In r runes -> Strings.existsByte (Ascii.eqb c) r = false) ->
  Strings.matchLen runes (String c x) = 0.
Proof.
  induction runes as [|r runes IH]; intros H; [reflexivity|].
  cbn [Strings.matchLen]. destruct r as [|d r].
  - rewrite HasPrefix_nil. reflexivity.
  - pose proof (H _ (or_introl eq_refl)) as Hd. cbn [Strings.existsByte] in Hd.
    apply orb_false_iff in Hd. destruct Hd as [Hd _].
    rewrite HasPrefix_cons, Ascii.eqb_sym, Hd. cbn [andb].
    apply IH. intros r' Hr'. apply H. now right.
Qed.

Lemma wordByte_in_no_rune c r :
  wordByte c = true -> In r Strings.spaceRunes ->
  Strings.existsByte (Ascii.eqb c) r = false.
Proof.
  unfold wordByte. intros H Hin. apply negb_true_iff in H.
  destruct (Strings.existsByte (Ascii.eqb c) r) eqn:E; [|reflexivity].
  rewrite <- H. symmetry. apply existsb_exists. now exists r.
Qed.

Lemma TrimLeftSpace_word c x :
  wordByte c = true -> Strings.TrimLeftSpace (String c x) = String c x.
Proof.
  intros H. unfold Strings.TrimLeftSpace. rewrite trimLeft_step, matchLen_first_byte.
  - reflexivity.
  - intros r Hin. now apply wordByte_in_no_rune.
Qed.

Lemma TrimRightSpace_word y c :
  wordByte c = true ->
  Strings.TrimRightSpace (y ++ String c EmptyString) = y ++ String c EmptyString.
Proof.
  intros H. unfold Strings.TrimRightSpace. rewrite reverse_app. cbn [Strings.reverse append].
  rewrite trimLeft_step, matchLen_first_byte.
  - change (String c (Strings.reverse y))
      with (Strings.reverse (String c EmptyString) ++ Strings.reverse y).
    now rewrite <- reverse_app, reverse_involutive.
  - intros r Hin. apply in_map_iff in Hin. destruct Hin as (r0 & <- & Hr0).
    rewrite existsByte_reverse. now apply wordByte_in_no_rune.
Qed.

(** A non-empty text ends with one of its bytes. *)
Lemma last_byte p s :
  s <> EmptyString ->
  Strings.existsByte (fun c => negb (p c)) s = false ->
  exists y z, s = y ++ String z EmptyString /\ p z = true.
Proof.
  induction s as [|c s IH]; intros Hne Hall; [congruence|].
  cbn [Strings.existsByte] in Hall. apply orb_false_iff in Hall. destruct Hall as [Hc Hs].
  destruct s as [|c' s].
  - exists EmptyString, c. split; [reflexivity|]. now apply negb_false_iff in Hc.
  - destruct (IH ltac:(discriminate) Hs) as (y & z & Heq & Hz).
    exists (String c y), z. split; [|exact Hz]. cbn [append]. now rewrite <- Heq.
Qed.

(** The line [package name] is a package line when [name] is a word. *)
Lemma isPackageLine_declaration name :
  isWord name = true -> isPackageLine ("package " ++ name) = true.
Proof.
  unfold isWord. intros H. apply andb_true_iff in H. destruct H as [Hne Hall].
  apply negb_true_iff in Hne, Hall. apply String.eqb_neq in Hne.
  destruct (last_byte wordByte name Hne Hall) as (y & z & -> & Hz).
  unfold isPackageLine, Strings.TrimSpace.
  change ("package " ++ y ++ String z EmptyString)
    with (String "p" ("ackage " ++ y ++ String z EmptyString)).
  rewrite TrimLeftSpace_word by reflexivity.
  change (String "p" ("ackage " ++ y ++ String z EmptyString))
    with ("package " ++ y ++ String z EmptyString).
  rewrite <- sapp_assoc, TrimRightSpace_word by exact Hz.
  rewrite sapp_assoc. apply HasPrefix_app.
Qed.

Lemma word_noLF name : isWord name = true -> noLF name = true.
Proof.
  unfold isWord, noLF. intros H. apply andb_true_iff in H. destruct H as [_ Hall].
  apply negb_true_iff in Hall. apply negb_true_iff.
  induction name as [|c name IH]; [reflexivity|].
  cbn [Strings.existsByte] in *. apply orb_false_iff in Hall. destruct Hall as [Hc Hall].
  rewrite (IH Hall), orb_false_r.
  destruct (Ascii.eqb LF c) eqn:E; [|reflexivity].
  apply Ascii.eqb_eq in E. subst c. discriminate Hc.
Qed.

(** When the stripped text has no [package ] in it and the package name is
    a word, the prepended line is a package line. *)
Lemma withPackage_declares raw packageName :
  Strings.Contains (stripFences raw) "package " = false ->
  isWord packageName = true ->
  hasPackageLine (withPackage raw packageName) = true.
Proof.
  intros Hnone Hword. unfold withPackage, hasPackageLine. rewrite Hnone.
  change ("package " ++ packageName ++ nl ++ nl ++ stripFences raw)
    with ("package " ++ (packageName ++ String LF (nl ++ stripFences raw))).
  rewrite <- sapp_assoc, Split_app_LF, existsb_app.
  rewrite Split_noLF.
  - cbn [existsb]. now rewrite isPackageLine_declaration.
  - unfold noLF. rewrite existsByte_app.
    pose proof (word_noLF packageName Hword) as Hlf. unfold noLF in Hlf.
    apply negb_true_iff in Hlf. rewrite Hlf. reflexivity.
Qed.

Lemma filter_exists {A} (p : A -> bool) l :
  existsb p l = true -> (1 <= List.length (filter p l))%nat.
Proof.
  induction l as [|x l IH]; [discriminate|].
  cbn [existsb filter]. destruct (p x); [intros _; cbn [List.length]; lia|exact IH].
Qed.

(** C3, as amended.  For every generated text and package name:
    the output holds no code fence unless the package name holds one;
    the line [package name] is prepended, and is a package declaration for
    a name that is a word, exactly when the stripped text has no
    [package ] anywhere; whenever the text then has a line that starts with
    [package ] the output has at least one package declaration (their
    number is not brought down to one) and at least one reference to the
    quoted [testing] import; and when the import is inserted, it is
    inserted immediately after the first such line. *)
Theorem cleanupGeneratedCode_ensures :
  forall raw packageName imports,
    let text := withPackage raw packageName in
    let out := TestGenerator.cleanupGeneratedCode raw packageName imports in
    (Strings.Contains packageName fence = false -> Strings.Contains out fence = false) /\
    (Strings.Contains (stripFences raw) "package " = false ->
     isWord packageName = true ->
     hasPackageLine text = true) /\
    (hasPackageLine text = true ->
     (1 <= countPackageLines out)%nat /\
     Strings.Contains out TestGenerator.quotedTesting = true) /\
    (Strings.Contains text TestGenerator.quotedTesting = false ->
     forall pre line post,
       Strings.Split text LF = (pre ++ line :: post)%list ->
       existsb isPackageLine pre = false ->
       isPackageLine line = true ->
       out = Strings.TrimSpace
               (unlines pre ++ line ++ nl ++ nl ++ importLine ++ nl ++ unlines post)).
Proof.
  intros raw packageName imports text out. subst text out.
  split; [|split; [|split]].
  - apply cleanup_fence_free.
  - apply withPackage_declares.
  - intros H. split.
    + apply filter_exists. now apply cleanup_keeps_package_line.
    + now apply cleanup_has_testing.
  - intros Htesting pre line post. now apply cleanup_import_position.
Qed.

(** The clean-up leaves both package declarations in place. *)
Lemma cleanupGeneratedCode_two_package_lines :
  countPackageLines (TestGenerator.cleanupGeneratedCode two_clauses "x" []) <> 1.
Proof. vm_compute. discriminate. Qed.

Lemma cleanupGeneratedCode_ensures_witness :
  let out := TestGenerator.cleanupGeneratedCode fenced_answer "calculator" [] in
  Strings.Contains out fence = false /\
  hasPackageLine (withPackage fenced_answer "calculator") = true /\
  (1 <= countPackageLines out)%nat /\
  Strings.Contains out TestGenerator.quotedTesting = true /\
  out = Strings.TrimSpace
          (unlines [] ++ "package calculator" ++ nl ++ nl ++ importLine ++ nl ++
           unlines [EmptyString; EmptyString; "func TestAdd(t *testing.T) {}"; EmptyString]).
Proof.
  cbv zeta.
  destruct (cleanupGeneratedCode_ensures fenced_answer "calculator" [])
    as (Hfence & Hdeclares & Hkeeps & Hposition).
  assert (Hline : hasPackageLine (withPackage fenced_answer "calculator") = true).
  { apply Hdeclares; vm_compute; reflexivity. }
  split; [apply Hfence; vm_compute; reflexivity|].
  split; [exact Hline|].
  split; [apply (Hkeeps Hline)|].
  split; [apply (Hkeeps Hline)|].
  apply Hposition; vm_compute; reflexivity.
Defined.

(** ** The coverage pattern *)

Lemma allDigits_cons c s :
  allDigits (String c s) = Regexp.isDigit c && allDigits s.
Proof.
  unfold allDigits. cbn [Strings.existsByte]. now rewrite negb_orb, negb_involutive.
Qed.

Lemma allDigits_app a b : allDigits (a ++ b) = allDigits a && allDigits b.
Proof. unfold allDigits. now rewrite existsByte_app, negb_orb. Qed.

Lemma takeDigits_spec s :
  s = fst (Regexp.takeDigits s) ++ snd (Regexp.takeDigits s) /\
  allDigits (fst (Regexp.takeDigits s)) = true /\
  stopsDigits (snd (Regexp.takeDigits s)) = true.
Proof.
  induction s as [|c s IH]; [now repeat split|].
  cbn [Regexp.takeDigits]. destruct (Regexp.isDigit c) eqn:E.
  - destruct (Regexp.takeDigits s) as [ds after]. cbn [fst snd] in *.
    destruct IH as (Hs & Hd & Hstop). repeat split.
    + cbn [append]. now rewrite <- Hs.
    + now rewrite allDigits_cons, E, Hd.
    + exact Hstop.
  - cbn [fst snd]. repeat split. cbn [stopsDigits]. now rewrite E.
Qed.

Lemma takeDigits_app d r :
  allDigits d = true -> stopsDigits r = true -> Regexp.takeDigits (d ++ r) = (d, r).
Proof.
  intros Hd Hr. induction d as [|c d IH].
  - destruct r as [|c r]; [reflexivity|].
    cbn [append Regexp.takeDigits]. cbn [stopsDigits] in Hr.
    apply negb_true_iff in Hr. now rewrite Hr.
  - rewrite allDigits_cons in Hd. apply andb_true_iff in Hd. destruct Hd as [Hc Hd].
    cbn [append Regexp.takeDigits]. now rewrite Hc, (IH Hd).
Qed.

Lemma stripPrefix_spec p s r : Regexp.stripPrefix p s = Some r <-> s = p ++ r.
Proof.
  revert s. induction p as [|a p IH]; intros s.
  - cbn [Regexp.stripPrefix append]. split; [now intros [= ->]|now intros ->].
  - destruct s as [|b s]; cbn [Regexp.stripPrefix append].
    + split; discriminate.
    + destruct (Ascii.eqb a b) eqn:E.
      * apply Ascii.eqb_eq in E. subst b. rewrite IH. split; [now intros ->|now intros [= ->]].
      * apply Ascii.eqb_neq in E. split; [discriminate|]. intros [= -> _]. now elim E.
Qed.

(** The matcher at one place is the pattern at that place. *)
Lemma matchHere_sound s g : Regexp.matchHere s = Some g -> matchesAt s g.
Proof.
  unfold Regexp.matchHere.
  destruct (Regexp.stripPrefix "coverage: " s) as [r1|] eqn:Hp; [|discriminate].
  apply stripPrefix_spec in Hp.
  destruct (takeDigits_spec r1) as (H1 & Hd1 & _).
  destruct (Regexp.takeDigits r1) as [d1 r2]. cbn [fst snd] in *.
  destruct d1 as [|c1 d1]; [discriminate|].
  set (pick := match r2 with
               | EmptyString => (EmptyString, r2)
               | String c r => if Ascii.eqb c "." then (".", r) else (EmptyString, r2)
               end).
  assert (Hpick : r2 = fst pick ++ snd pick /\ (fst pick = EmptyString \/ fst pick = ".")).
  { subst pick. destruct r2 as [|c r]; [now split; [|left]|].
    destruct (Ascii.eqb c ".") eqn:E; [|now split; [|left]].
    apply Ascii.eqb_eq in E. subst c. now split; [|right]. }
  destruct pick as [dot r3]. cbn [fst snd] in Hpick. destruct Hpick as [H2 Hdot].
  destruct (takeDigits_spec r3) as (H3 & Hd2 & _).
  destruct (Regexp.takeDigits r3) as [d2 r4]. cbn [fst snd] in *.
  destruct (Strings.HasPrefix r4 "% of statements") eqn:H4; [|discriminate].
  intros [= <-]. apply HasPrefix_split in H4.
  split.
  - exists (String c1 d1), d2. split; [discriminate|]. split; [exact Hd1|]. split; [exact Hd2|].
    destruct Hdot as [->| ->]; [left|right]; reflexivity.
  - exists (sdrop (String.length "% of statements") r4).
    rewrite Hp, H1, H2, H3, H4 at 1.
    change (String c1 (d1 ++ dot ++ d2)) with (String c1 d1 ++ dot ++ d2).
    now rewrite !sapp_assoc.
Qed.

Lemma matchHere_complete s g : matchesAt s g -> Regexp.matchHere s = Some g.
Proof.
  intros [(d1 & d2 & Hne & Hd1 & Hd2 & Hg) (post & Hs)].
  unfold Regexp.matchHere.
  assert (Hp : Regexp.stripPrefix "coverage: " s = Some (g ++ "% of statements" ++ post))
    by now apply stripPrefix_spec.
  rewrite Hp. destruct Hg as [-> | ->].
  - rewrite (takeDigits_app (d1 ++ d2) ("% of statements" ++ post));
      [|now rewrite allDigits_app, Hd1, Hd2|reflexivity].
    destruct (d1 ++ d2) as [|c d] eqn:E; [now destruct d1|].
    cbn [append Ascii.eqb Bool.eqb]. cbn [Regexp.takeDigits Regexp.isDigit].
    change (Regexp.isDigit "%") with false. cbv iota.
    change (Strings.HasPrefix _ "% of statements")
      with (Strings.HasPrefix ("% of statements" ++ post) "% of statements").
    rewrite HasPrefix_app. now rewrite !sapp_nil_r.
  - replace ((d1 ++ "." ++ d2) ++ "% of statements" ++ post)
      with (d1 ++ String "." (d2 ++ "% of statements" ++ post))
      by (now rewrite !sapp_assoc).
    rewrite (takeDigits_app d1 (String "." (d2 ++ "% of statements" ++ post)));
      [|exact Hd1|reflexivity].
    destruct d1 as [|c d]; [congruence|].
    rewrite Ascii.eqb_refl.
    rewrite (takeDigits_app d2 ("% of statements" ++ post)); [|exact Hd2|reflexivity].
    rewrite HasPrefix_app. reflexivity.
Qed.

(** [FindStringSubmatch] finds a match whenever the text has one. *)
Lemma FindStringSubmatch_complete pre t g :
  matchesAt t g ->
  exists whole group, Regexp.FindStringSubmatch (pre ++ t) = [whole; group].
Proof.
  intros H. induction pre as [|c pre IH].
  - cbn [append]. destruct t; cbn [Regexp.FindStringSubmatch];
      rewrite (matchHere_complete _ _ H); now eexists; eexists.
  - cbn [append Regexp.FindStringSubmatch].
    destruct (Regexp.matchHere (String c (pre ++ t))); [now eexists; eexists|exact IH].
Qed.

(** What it returns is the leftmost match and its group. *)
Lemma FindStringSubmatch_leftmost s whole group :
  Regexp.FindStringSubmatch s = [whole; group] ->
  whole = "coverage: " ++ group ++ "% of statements" /\
  exists pre t,
    s = pre ++ t /\ matchesAt t group /\
    forall pre1 t1 g1, s = pre1 ++ t1 -> matchesAt t1 g1 ->
                       (String.length pre <= String.length pre1)%nat.
Proof.
  induction s as [|c s IH]; cbn [Regexp.FindStringSubmatch].
  - destruct (Regexp.matchHere EmptyString) eqn:E; [|discriminate].
    intros [= <- <-]. split; [reflexivity|].
    exists EmptyString, EmptyString. split; [reflexivity|]. split; [now apply matchHere_sound|].
    intros; cbn; lia.
  - destruct (Regexp.matchHere (String c s)) as [g|] eqn:E.
    + intros [= <- <-]. split; [reflexivity|].
      exists EmptyString, (String c s). split; [reflexivity|].
      split; [now apply matchHere_sound|]. intros; cbn; lia.
    + intros H. destruct (IH H) as (Hw & pre & t & -> & Hm & Hleft).
      split; [exact Hw|]. exists (String c pre), t. split; [reflexivity|]. split; [exact Hm|].
      intros pre1 t1 g1 Hs Hm1. destruct pre1 as [|c1 pre1].
      * cbn [append] in Hs. subst t1. apply matchHere_complete in Hm1. congruence.
      * cbn [append] in Hs. injection Hs as _ Hs. cbn [String.length].
        apply le_n_S. now apply (Hleft pre1 t1 g1).
Qed.

(** ** The revision that changes directory *)

(** The deferred function runs on the state the body leaves, and the
    result of the body is returned. *)
Lemma deferring_run {W A} (cleanup : M W unit) (body : M W A) q v q1 :
  body q = (v, q1) -> deferring cleanup body q = (v, snd (cleanup q1)).
Proof.
  intros H. unfold deferring, bind, ret. rewrite H.
  destruct (cleanup q1) as [[] q2]. reflexivity.
Qed.

Lemma bind_run {W A B} (m : M W A) (k : A -> M W B) p a p1 :
  m p = (a, p1) -> bind m k p = k a p1.
Proof. intros H. unfold bind. now rewrite H. Qed.

Lemma bind_perform {W A B} (c : Call) (op : W -> A * W) (k : A -> M W B) w l a w1 :
  op w = (a, w1) ->
  bind (perform c op) k (mkProc w l) = k a (mkProc w1 (l ++ [c])%list).
Proof. intros H. unfold bind, perform. cbn [world calls]. now rewrite H. Qed.

Section ProberResolved.

Context {W : Type}.
Variable os : OS W.

Lemma resolveFilePath_run filePath p :
  CoverageAnalyzerResolved.resolveFilePath os filePath p =
    (resolvedFrom os (fst (os_Getwd os (world p))) filePath,
     mkProc (snd (os_Getwd os (world p))) (calls p ++ [CallGetwd])).
Proof.
  unfold CoverageAnalyzerResolved.resolveFilePath, resolvedFrom, bind, perform, ret.
  destruct (os_Getwd os (world p)) as [[wd e] w1]. cbn [fst snd].
  destruct e; [reflexivity|].
  now destruct (Strings.HasSuffix wd "/scripts" || Strings.HasSuffix wd "\scripts").
Qed.

(** Once the process has changed into the package directory, the test
    command runs and the deferred function follows it on every path: the
    working directory is set back first, and [coverage.out] is removed
    after that, relative to the directory set back to. *)
Lemma AnalyzeFile_resolved_calls filePath threshold p
    wd w1 statErr w2 originalDir w3 absPackageDir w4 w5 output err w6 :
  let resolvedPath := resolvedFrom os wd filePath in
  let testFile := Strings.TrimSuffix resolvedPath ".go" ++ "_test.go" in
  let packageDir :=
    if String.eqb (filepath_Dir os resolvedPath) EmptyString then "."
    else filepath_Dir os resolvedPath in
  let argv := ["go"; "test"; "-cover"; "-coverprofile=coverage.out"; "."] in
  os_Getwd os (world p) = (wd, w1) ->
  os_Stat os testFile w1 = (statErr, w2) ->
  os_IsNotExist os statErr = false ->
  os_Getwd os w2 = ((originalDir, None), w3) ->
  filepath_Abs os packageDir w3 = ((absPackageDir, None), w4) ->
  os_Chdir os absPackageDir w4 = (None, w5) ->
  exec_CombinedOutput os argv w5 = ((output, err), w6) ->
  let r := CoverageAnalyzerResolved.AnalyzeFile os filePath threshold p in
  calls (snd r) =
    (calls p ++
     [CallGetwd; CallStat testFile; CallGetwd; CallAbs packageDir;
      CallChdir absPackageDir; CallRun argv;
      CallChdir originalDir; CallRemove "coverage.out"])%list /\
  world (snd r) =
    snd (os_Remove os "coverage.out" (snd (os_Chdir os originalDir w6))).
Proof.
  intros resolvedPath testFile packageDir argv Hwd Hstat Hexists Hgetwd Habs Hchdir Hrun r.
  subst r. unfold CoverageAnalyzerResolved.AnalyzeFile. cbv zeta.
  assert (Hresolve : CoverageAnalyzerResolved.resolveFilePath os filePath p =
                     (resolvedPath, mkProc w1 (calls p ++ [CallGetwd])%list)).
  { rewrite resolveFilePath_run, Hwd. reflexivity. }
  rewrite (bind_run _ _ _ _ _ Hresolve). cbv beta.
  fold testFile.
  rewrite (bind_perform (CallStat testFile) _ _ _ _ _ _ Hstat). cbv beta.
  rewrite Hexists. fold packageDir.
  rewrite (bind_perform CallGetwd _ _ _ _ _ _ Hgetwd). cbv beta.
  cbn [fst snd].
  rewrite (bind_perform (CallAbs packageDir) _ _ _ _ _ _ Habs). cbv beta.
  cbn [fst snd].
  rewrite (bind_perform (CallChdir absPackageDir) _ _ _ _ _ _ Hchdir).
  cbv beta. fold argv.
  match goal with
  | |- context [deferring ?c ?b ?q] =>
      assert (Hbody : exists v, b q = (v, mkProc w6 (calls q ++ [CallRun argv])%list))
  end.
  { rewrite (bind_perform (CallRun argv) _ _ _ _ _ _ Hrun). cbv beta.
    cbn [fst snd].
    destruct err as [e|].
    - destruct (Strings.Contains output "no test files"); eexists; reflexivity.
    - destruct (CoverageAnalyzer.parseCoverageOutput os output) as [coverage [pe|]];
        eexists; reflexivity. }
  destruct Hbody as [v Hbody].
  rewrite (deferring_run _ _ _ _ _ Hbody).
  unfold CoverageAnalyzerResolved.restore, bind, perform, ret. cbn [world calls snd].
  destruct (os_Chdir os originalDir w6) as [e1 w7]. cbn [world calls snd].
  destruct (os_Remove os "coverage.out" w7) as [e2 w8]. cbn [world calls snd].
  split; [|reflexivity]. rewrite <- !app_assoc. reflexivity.
Qed.

End ProberResolved.

(** * Further properties of the sources *)

(** ** Descriptors in source order *)

Lemma unexported_no_reserved_prefix up name :
  Token.IsExported up name = false ->
  Strings.HasPrefix name "Test" || Strings.HasPrefix name "Benchmark" = false.
Proof.
  intros H. destruct (Strings.HasPrefix name "Test" || Strings.HasPrefix name "Benchmark") eqn:E;
    [|reflexivity].
  apply (reserved_prefix_exported up) in E. congruence.
Qed.

Lemma selected_kept env fn name :
  Ast.Name fn = Some name ->
  Token.IsExported (upperNonASCII env) name || CoverageAnalyzer.shouldIncludeFunction fn =
  kept env fn.
Proof.
  intros Hn. unfold kept, CoverageAnalyzer.shouldIncludeFunction. rewrite Hn.
  destruct (Token.IsExported (upperNonASCII env) name) eqn:He; [reflexivity|].
  rewrite (unexported_no_reserved_prefix _ _ He). cbn [orb].
  destruct (Ast.Body fn) as [stmts|]; [|reflexivity].
  destruct (Nat.ltb_spec (List.length stmts) 3), (Nat.leb_spec 3 (List.length stmts));
    try reflexivity; lia.
Qed.

Lemma funcContent_linesOf content first last text :
  CoverageAnalyzer.funcContent (Strings.Split content LF) first last = Returns text ->
  text = linesOf content first
           (Z.min last (Z.of_nat (List.length (Strings.Split content LF)))).
Proof.
  unfold CoverageAnalyzer.funcContent, linesOf, unlines.
  destruct ((first - 1 <? 0)%Z && _); [discriminate|].
  intros H. now inversion H.
Qed.

Lemma visit_describes env content fn acc fns :
  CoverageAnalyzer.visitFuncDecl env content fn acc = Returns fns ->
  if kept env fn
  then exists info, describes content fn info /\ fns = (acc ++ [info])%list
  else fns = acc.
Proof.
  unfold CoverageAnalyzer.visitFuncDecl.
  destruct (Ast.Name fn) as [name|] eqn:Hn; [|discriminate].
  rewrite (selected_kept env fn name Hn).
  destruct (kept env fn).
  - destruct (CoverageAnalyzer.funcContent _ _ _) as [text|r] eqn:Hc; [|discriminate].
    intros H. inversion H. eexists. split; [|reflexivity].
    repeat split; cbn; try assumption; try reflexivity.
    now apply funcContent_linesOf.
  - intros H. now inversion H.
Qed.

Lemma inspect_describes env content ds :
  forall acc fns,
    CoverageAnalyzer.inspect env content ds acc = Returns fns ->
    exists added,
      fns = (acc ++ added)%list /\
      Forall2 (describes content) (filter (kept env) (funcDecls ds)) added.
Proof.
  induction ds as [|d ds IH]; intros acc fns H; simpl in H.
  - inversion H. exists []. split; [now rewrite app_nil_r|constructor].
  - destruct d as [fn|src]; [|apply IH; exact H].
    destruct (CoverageAnalyzer.visitFuncDecl env content fn acc) as [acc1|] eqn:Hv;
      [|discriminate].
    apply visit_describes in Hv.
    destruct (IH _ _ H) as (added & -> & Hall).
    cbn [funcDecls filter]. destruct (kept env fn).
    + destruct Hv as (info & Hd & ->).
      exists (info :: added). split; [now rewrite <- app_assoc|now constructor].
    + subst acc1. exists added. now split.
Qed.

(** X1.  For a file that reads and parses, the extractor returns one
    descriptor for every function declaration that is exported, has no
    body, or has three statements or more, and for no other: the
    descriptors stand in source order, and each carries the name, the line
    span and the lines of its declaration.  The test of the reserved
    prefixes changes nothing, for a name that has one is exported. *)
Theorem extract_in_source_order :
  forall env filePath content node,
    os_ReadFile env filePath = inl content ->
    parser_ParseFile env filePath content = inl node ->
    Forall parsed_decl (Ast.Decls node) ->
    exists fns,
      CoverageAnalyzer.ExtractModifiedFunctions env filePath = Returns (fns, None) /\
      Forall2 (describes content) (filter (kept env) (funcDecls (Ast.Decls node))) fns.
Proof.
  intros env filePath content node Hread Hparse Hwf.
  destruct (inspect_returns env content _ Hwf []) as [fns Hfns].
  exists fns. unfold CoverageAnalyzer.ExtractModifiedFunctions.
  rewrite Hread, Hparse, Hfns. split; [reflexivity|].
  destruct (inspect_describes _ _ _ _ _ Hfns) as (added & -> & Hall). exact Hall.
Qed.

Lemma extract_in_source_order_witness :
  exists fns,
    CoverageAnalyzer.ExtractModifiedFunctions netutil_env "pkg/netutil.go" = Returns (fns, None) /\
    Forall2 (describes netutil_go)
      (filter (kept netutil_env) (funcDecls (Ast.Decls netutil_ast))) fns.
Proof.
  apply (extract_in_source_order netutil_env "pkg/netutil.go" netutil_go netutil_ast).
  - reflexivity.
  - reflexivity.
  - repeat constructor; simpl; try discriminate; try lia.
Defined.

(** ** Line spans *)

Lemma unlines_app a b : unlines (a ++ b)%list = unlines a ++ unlines b.
Proof.
  induction a as [|l a IH]; [reflexivity|].
  cbn [app]. rewrite !unlines_cons, IH. now rewrite sapp_assoc.
Qed.

Lemma unlines_concat lines :
  lines <> [] -> unlines lines = String.concat nl lines ++ nl.
Proof.
  induction lines as [|l lines IH]; [congruence|]. intros _.
  rewrite unlines_cons. destruct lines as [|l' lines].
  - reflexivity.
  - rewrite IH by discriminate.
    change (String.concat nl (l :: l' :: lines)) with (l ++ nl ++ String.concat nl (l' :: lines)).
    now rewrite !sapp_assoc.
Qed.

Lemma unlines_Split content : unlines (Strings.Split content LF) = content ++ nl.
Proof.
  rewrite unlines_concat, concat_Split; [reflexivity|].
  destruct (Split_cons content LF) as (p & r & ->). discriminate.
Qed.

(** X2.  The text copied for a span that starts on line 1 or later is
    made of whole lines of the file, each with its newline, and lies in the
    file where the span says: in front of it are the lines before the
    first line of the span, and a span that runs past the end of the file
    is cut at the last line.  No index is out of range. *)
Theorem funcContent_in_file :
  forall content first last,
    (1 <= first)%Z ->
    exists pre mid post,
      Strings.Split content LF = (pre ++ mid ++ post)%list /\
      Z.of_nat (List.length pre) =
        Z.min (first - 1) (Z.of_nat (List.length (Strings.Split content LF))) /\
      Z.of_nat (List.length mid) =
        Z.max 0 (Z.min last (Z.of_nat (List.length (Strings.Split content LF))) - (first - 1)) /\
      CoverageAnalyzer.funcContent (Strings.Split content LF) first last = Returns (unlines mid) /\
      content ++ nl = unlines pre ++ unlines mid ++ unlines post.
Proof.
  intros content first last Hfirst.
  set (lines := Strings.Split content LF).
  set (n := Z.of_nat (List.length lines)).
  set (i0 := Z.to_nat (first - 1)).
  set (k := Z.to_nat (Z.min last n - (first - 1))).
  exists (firstn i0 lines), (firstn k (skipn i0 lines)), (skipn k (skipn i0 lines)).
  split; [|split; [|split; [|split]]].
  - now rewrite !firstn_skipn.
  - rewrite length_firstn. unfold i0, n. lia.
  - rewrite length_firstn, length_skipn. unfold k, i0, n. lia.
  - unfold CoverageAnalyzer.funcContent.
    replace (first - 1 <? 0)%Z with false by (symmetry; apply Z.ltb_ge; lia).
    reflexivity.
  - rewrite <- !unlines_app, !firstn_skipn. unfold lines. now rewrite unlines_Split.
Qed.

Lemma funcContent_in_file_witness :
  exists pre mid post,
    Strings.Split netutil_go LF = (pre ++ mid ++ post)%list /\
    Z.of_nat (List.length pre) =
      Z.min (3 - 1) (Z.of_nat (List.length (Strings.Split netutil_go LF))) /\
    Z.of_nat (List.length mid) =
      Z.max 0 (Z.min 5 (Z.of_nat (List.length (Strings.Split netutil_go LF))) - (3 - 1)) /\
    CoverageAnalyzer.funcContent (Strings.Split netutil_go LF) 3 5 = Returns (unlines mid) /\
    netutil_go ++ nl = unlines pre ++ unlines mid ++ unlines post.
Proof. apply (funcContent_in_file netutil_go 3 5). lia. Defined.

(** A span that starts before the first line is read at a negative index. *)
Lemma funcContent_panics content first last :
  (first <= 0)%Z -> (first <= last)%Z ->
  CoverageAnalyzer.funcContent (Strings.Split content LF) first last = Panics "index out of range".
Proof.
  intros H0 Hl. unfold CoverageAnalyzer.funcContent.
  destruct (Split_cons content LF) as (p & r & ->).
  replace (first - 1 <? 0)%Z with true by (symmetry; apply Z.ltb_lt; lia).
  replace (first - 1 <? Z.min last (Z.of_nat (List.length (p :: r))))%Z with true; [reflexivity|].
  symmetry; apply Z.ltb_lt. cbn [List.length]. lia.
Qed.

(** ** Edges of the prober *)

Lemma FindStringSubmatch_none s :
  (forall pre t g, s = pre ++ t -> ~ matchesAt t g) ->
  Regexp.FindStringSubmatch s = [].
Proof.
  induction s as [|c s IH]; intros H.
  - cbn [Regexp.FindStringSubmatch].
    destruct (Regexp.matchHere EmptyString) as [g|] eqn:E; [|reflexivity].
    apply matchHere_sound in E. now destruct (H EmptyString EmptyString g eq_refl).
  - cbn [Regexp.FindStringSubmatch].
    destruct (Regexp.matchHere (String c s)) as [g|] eqn:E.
    + apply matchHere_sound in E. now destruct (H EmptyString (String c s) g eq_refl).
    + apply IH. intros pre t g -> Hm. apply (H (String c pre) t g); [reflexivity|exact Hm].
Qed.

Lemma no_match_of_none s :
  Regexp.FindStringSubmatch s = [] ->
  forall pre t g, s = pre ++ t -> ~ matchesAt t g.
Proof.
  intros H pre t g -> Hm.
  destruct (FindStringSubmatch_complete pre t g Hm) as (whole & group & E). congruence.
Qed.

Section ProberEdges.

Context {W : Type}.
Variable os : OS W.

(** X3.  When the test file is there and the test command succeeds but
    its output has no match of the coverage pattern, the coverage is taken
    to be 0: [AnalyzeFile] returns [needsTests = (0 < threshold)],
    [coverage = 0] and no error, after removing [coverage.out]. *)
Theorem AnalyzeFile_no_coverage_line :
  forall filePath threshold p output,
    os_IsNotExist os (statError os filePath p) = false ->
    runResult os filePath p = (output, None) ->
    (forall pre t g, output = pre ++ t -> ~ matchesAt t g) ->
    fst (CoverageAnalyzer.AnalyzeFile os filePath threshold p) =
      (PrimFloat.ltb 0%float threshold, 0%float, None) /\
    calls (snd (CoverageAnalyzer.AnalyzeFile os filePath threshold p)) =
      (calls p ++ [CallStat (testFileOf filePath); CallRun (runArgv os filePath);
                   CallRemove "coverage.out"])%list.
Proof.
  intros filePath threshold p output Hstat Hrun Hnone.
  rewrite (AnalyzeFile_run os filePath threshold p Hstat), Hrun. cbn [fst snd].
  unfold CoverageAnalyzer.parseCoverageOutput.
  rewrite (FindStringSubmatch_none output Hnone). cbn [List.length Nat.ltb Nat.leb].
  unfold bind, perform, afterRun.
  destruct (os_Remove os "coverage.out" _) as [e w']. cbn [fst snd calls ret].
  split; [reflexivity|]. now rewrite <- app_assoc.
Qed.

End ProberEdges.

Lemma AnalyzeFile_no_coverage_line_witness :
  fst (CoverageAnalyzer.AnalyzeFile SimpleOS.os "pkg/calculator.go" 40%float silent_run) =
    (PrimFloat.ltb 0%float 40%float, 0%float, None) /\
  calls (snd (CoverageAnalyzer.AnalyzeFile SimpleOS.os "pkg/calculator.go" 40%float silent_run)) =
    (calls silent_run ++
     [CallStat (testFileOf "pkg/calculator.go");
      CallRun (runArgv SimpleOS.os "pkg/calculator.go");
      CallRemove "coverage.out"])%list.
Proof.
  apply (AnalyzeFile_no_coverage_line SimpleOS.os "pkg/calculator.go" 40%float silent_run
           (SimpleOS.run_output (world silent_run))).
  - vm_compute; reflexivity.
  - vm_compute; reflexivity.
  - apply no_match_of_none. vm_compute; reflexivity.
Defined.

(** ** Paths of plain elements *)

Lemma concat_cons2 sep a b l :
  String.concat sep (a :: b :: l) = a ++ sep ++ String.concat sep (b :: l).
Proof. reflexivity. Qed.

Lemma Split_byte_free s sep :
  Strings.existsByte (Ascii.eqb sep) s = false -> Strings.Split s sep = [s].
Proof.
  induction s as [|c s IH]; [reflexivity|].
  cbn [Strings.existsByte Strings.Split]. intros H. apply orb_false_iff in H.
  destruct H as [Hc Hs]. rewrite Ascii.eqb_sym, Hc, (IH Hs). reflexivity.
Qed.

Lemma Split_app_sep x y sep :
  Strings.existsByte (Ascii.eqb sep) x = false ->
  Strings.Split (x ++ String sep y) sep = x :: Strings.Split y sep.
Proof.
  induction x as [|c x IH]; intros H.
  - cbn [append Strings.Split]. now rewrite Ascii.eqb_refl.
  - cbn [Strings.existsByte] in H. apply orb_false_iff in H. destruct H as [Hc Hx].
    cbn [append Strings.Split]. rewrite Ascii.eqb_sym, Hc, (IH Hx). reflexivity.
Qed.

Lemma plain_no_slash e : plain e = true -> Strings.existsByte (Ascii.eqb Filepath.slash) e = false.
Proof.
  unfold plain. intros H. repeat (apply andb_true_iff in H; destruct H as [H ?]).
  now apply negb_true_iff.
Qed.

Lemma Split_pathOf elems :
  elems <> [] -> forallb plain elems = true ->
  Strings.Split (pathOf elems) Filepath.slash = elems.
Proof.
  induction elems as [|e elems IH]; [congruence|]. intros _ H.
  cbn [forallb] in H. apply andb_true_iff in H. destruct H as [He Hes].
  destruct elems as [|e' elems].
  - cbn. apply Split_byte_free. now apply plain_no_slash.
  - unfold pathOf in *. rewrite concat_cons2.
    change ("/" ++ String.concat "/" (e' :: elems))
      with (String Filepath.slash (String.concat "/" (e' :: elems))).
    rewrite Split_app_sep by now apply plain_no_slash.
    rewrite IH; [reflexivity|discriminate|exact Hes].
Qed.

Lemma cleanStep_plain rooted stack e :
  plain e = true -> Filepath.cleanStep rooted stack e = e :: stack.
Proof.
  unfold plain, Filepath.cleanStep. intros H.
  repeat (apply andb_true_iff in H; destruct H as [H ?]).
  apply negb_true_iff in H. apply negb_true_iff in H1. apply negb_true_iff in H2.
  now rewrite H, H2, H1.
Qed.

Lemma fold_cleanStep_plain rooted elems :
  forall stack, forallb plain elems = true ->
    fold_left (Filepath.cleanStep rooted) elems stack = (rev elems ++ stack)%list.
Proof.
  induction elems as [|e elems IH]; intros stack H; [reflexivity|].
  cbn [forallb] in H. apply andb_true_iff in H. destruct H as [He Hes].
  cbn [fold_left rev]. rewrite (cleanStep_plain _ _ _ He), (IH _ Hes).
  now rewrite <- app_assoc.
Qed.

Lemma plain_first e :
  plain e = true -> exists c rest, e = String c rest /\ Ascii.eqb c Filepath.slash = false.
Proof.
  intros H. pose proof (plain_no_slash e H) as Hs.
  unfold plain in H. repeat (apply andb_true_iff in H; destruct H as [H ?]).
  destruct e as [|c rest]; [discriminate|].
  exists c, rest. split; [reflexivity|].
  cbn [Strings.existsByte] in Hs. apply orb_false_iff in Hs. now rewrite Ascii.eqb_sym.
Qed.

Lemma Clean_relative p stack :
  (exists c tail, p = String c tail /\ Ascii.eqb c Filepath.slash = false) ->
  fold_left (Filepath.cleanStep false) (Strings.Split p Filepath.slash) [] = stack ->
  stack <> [] ->
  Filepath.Clean p = String.concat "/" (rev stack).
Proof.
  intros (c & tail & -> & Hc) Hfold Hne. unfold Filepath.Clean.
  rewrite Hc, Hfold. destruct stack; [congruence|reflexivity].
Qed.

Lemma pathOf_first elems :
  elems <> [] -> forallb plain elems = true ->
  exists c tail, pathOf elems = String c tail /\ Ascii.eqb c Filepath.slash = false.
Proof.
  intros Hne H. destruct elems as [|e elems]; [congruence|].
  cbn [forallb] in H. apply andb_true_iff in H. destruct H as [He _].
  destruct (plain_first e He) as (c & rest & -> & Hc).
  exists c. destruct elems; cbn; eexists; (split; [reflexivity|exact Hc]).
Qed.

(** A relative path of plain elements is clean already. *)
Lemma Clean_plain elems :
  elems <> [] -> forallb plain elems = true -> Filepath.Clean (pathOf elems) = pathOf elems.
Proof.
  intros Hne H.
  rewrite (Clean_relative (pathOf elems) (rev elems)).
  - now rewrite rev_involutive.
  - now apply pathOf_first.
  - rewrite (Split_pathOf elems Hne H), (fold_cleanStep_plain false _ [] H). apply app_nil_r.
  - intros E. apply (f_equal (@List.length string)) in E. rewrite length_rev in E.
    destruct elems; [congruence|discriminate].
Qed.

(** [..] in front of such a path stays in front. *)
Lemma Clean_parent elems :
  elems <> [] -> forallb plain elems = true ->
  Filepath.Clean ("../" ++ pathOf elems) = "../" ++ pathOf elems.
Proof.
  intros Hne H.
  assert (Hsplit : Strings.Split ("../" ++ pathOf elems) Filepath.slash = ".." :: elems).
  { change ("../" ++ pathOf elems) with (".." ++ String Filepath.slash (pathOf elems)).
    rewrite Split_app_sep by reflexivity. now rewrite Split_pathOf. }
  rewrite (Clean_relative ("../" ++ pathOf elems) (rev elems ++ [".."])%list).
  - rewrite rev_app_distr, rev_involutive. cbn [rev app].
    destruct elems as [|e elems]; [congruence|reflexivity].
  - exists "."%char. eexists. split; reflexivity.
  - rewrite Hsplit. cbn [fold_left].
    change (Filepath.cleanStep false [] "..") with [".."].
    apply (fold_cleanStep_plain false _ _ H).
  - intros E. apply (f_equal (@List.length string)) in E. rewrite length_app in E. cbn in E. lia.
Qed.

Lemma Join_parent elems :
  elems <> [] -> forallb plain elems = true ->
  Filepath.Join ".." (pathOf elems) = "../" ++ pathOf elems.
Proof.
  intros Hne H. unfold Filepath.Join.
  destruct (pathOf_first elems Hne H) as (c & tail & Hshape & _).
  replace (String.eqb (pathOf elems) EmptyString) with false by (now rewrite Hshape).
  cbn [String.eqb Ascii.eqb Bool.eqb].
  now apply Clean_parent.
Qed.


Lemma Clean_parent_rooted elems :
  elems <> [] -> forallb plain elems = true ->
  Filepath.Clean ("..//" ++ pathOf elems) = "../" ++ pathOf elems.
Proof.
  intros Hne H.
  assert (Hsplit : Strings.Split ("..//" ++ pathOf elems) Filepath.slash =
                   ".." :: EmptyString :: elems).
  { change ("..//" ++ pathOf elems)
      with (".." ++ String Filepath.slash (EmptyString ++ String Filepath.slash (pathOf elems))).
    rewrite !Split_app_sep by reflexivity. now rewrite Split_pathOf. }
  rewrite (Clean_relative ("..//" ++ pathOf elems) (rev elems ++ [".."])%list).
  - rewrite rev_app_distr, rev_involutive. cbn [rev app].
    destruct elems as [|e elems]; [congruence|reflexivity].
  - exists "."%char. eexists. split; reflexivity.
  - rewrite Hsplit. cbn [fold_left].
    change (Filepath.cleanStep false [] "..") with [".."].
    change (Filepath.cleanStep false [".."] EmptyString) with [".."].
    apply (fold_cleanStep_plain false _ _ H).
  - intros E. apply (f_equal (@List.length string)) in E. rewrite length_app in E. cbn in E. lia.
Qed.

Lemma Join_parent_rooted elems :
  elems <> [] -> forallb plain elems = true ->
  Filepath.Join ".." ("/" ++ pathOf elems) = "../" ++ pathOf elems.
Proof.
  intros Hne H. unfold Filepath.Join. cbn [String.eqb Ascii.eqb Bool.eqb append].
  now apply (Clean_parent_rooted elems).
Qed.

Lemma pathOf_snoc dirs base :
  dirs <> [] -> pathOf (dirs ++ [base]) = pathOf dirs ++ String Filepath.slash base.
Proof.
  induction dirs as [|d dirs IH]; [congruence|]. intros _.
  destruct dirs as [|d' dirs].
  - reflexivity.
  - cbn [app]. unfold pathOf in *. rewrite !concat_cons2.
    change ((d' :: dirs) ++ [base])%list with (d' :: dirs ++ [base])%list in IH.
    rewrite IH by discriminate. now rewrite !sapp_assoc.
Qed.

Lemma uptoLastSlash_none s :
  Strings.existsByte (Ascii.eqb Filepath.slash) s = false -> Filepath.uptoLastSlash s = EmptyString.
Proof. destruct s as [|c s]; [reflexivity|]. cbn [Filepath.uptoLastSlash]. now intros ->. Qed.

Lemma uptoLastSlash_last x base :
  Strings.existsByte (Ascii.eqb Filepath.slash) base = false ->
  Filepath.uptoLastSlash (x ++ String Filepath.slash base) = x ++ "/".
Proof.
  intros Hb. induction x as [|c x IH].
  - cbn [append Filepath.uptoLastSlash Strings.existsByte].
    rewrite Ascii.eqb_refl. cbn [orb]. now rewrite (uptoLastSlash_none base Hb).
  - cbn [append Filepath.uptoLastSlash].
    replace (Strings.existsByte (Ascii.eqb Filepath.slash)
               (String c (x ++ String Filepath.slash base))) with true.
    + now rewrite IH.
    + symmetry. cbn [Strings.existsByte]. rewrite existsByte_app.
      cbn [Strings.existsByte]. rewrite Ascii.eqb_refl. now rewrite !orb_true_r.
Qed.

(** The directory of a file under plain directories is the path of the
    directories; the directory of a bare file name is [.]. *)
Lemma Dir_plain dirs base :
  forallb plain dirs = true ->
  Strings.existsByte (Ascii.eqb Filepath.slash) base = false ->
  Filepath.Dir (pathOf (dirs ++ [base])) =
  match dirs with
  | [] => "."
  | _ => pathOf dirs
  end.
Proof.
  intros Hd Hb. unfold Filepath.Dir. destruct dirs as [|d dirs].
  - cbn [app pathOf String.concat]. now rewrite (uptoLastSlash_none base Hb).
  - rewrite pathOf_snoc by discriminate. rewrite (uptoLastSlash_last _ base Hb).
    set (ds := d :: dirs) in *.
    assert (Hne : ds <> []) by discriminate.
    rewrite (Clean_relative (pathOf ds ++ "/") (rev ds)).
    + now rewrite rev_involutive.
    + destruct (pathOf_first ds Hne Hd) as (c & tail & -> & Hc).
      exists c. eexists. split; [reflexivity|exact Hc].
    + change (pathOf ds ++ "/") with (pathOf ds ++ String Filepath.slash EmptyString).
      assert (Hsplit : Strings.Split (pathOf ds ++ String Filepath.slash EmptyString)
                         Filepath.slash = (ds ++ [EmptyString])%list).
      { rewrite <- (pathOf_snoc ds EmptyString Hne).
        clear Hb. induction ds as [|e es IH]; [congruence|].
        cbn [forallb] in Hd. apply andb_true_iff in Hd. destruct Hd as [He Hes].
        destruct es as [|e' es].
        - cbn [app pathOf String.concat].
          change (e ++ "/" ++ EmptyString) with (e ++ String Filepath.slash EmptyString).
          rewrite Split_app_sep by now apply plain_no_slash. reflexivity.
        - cbn [app]. unfold pathOf. rewrite concat_cons2.
          change ("/" ++ String.concat "/" (e' :: es ++ [EmptyString]))
            with (String Filepath.slash (pathOf ((e' :: es) ++ [EmptyString]))).
          rewrite Split_app_sep by now apply plain_no_slash.
          rewrite IH; [reflexivity|exact Hes|discriminate]. }
      rewrite Hsplit, fold_left_app, (fold_cleanStep_plain false _ [] Hd), app_nil_r.
      reflexivity.
    + intros E. apply (f_equal (@List.length string)) in E. rewrite length_rev in E.
      discriminate.
Qed.

Lemma cleanStep_nonempty rooted stack elem :
  Forall (fun e => e <> EmptyString) stack ->
  Forall (fun e => e <> EmptyString) (Filepath.cleanStep rooted stack elem).
Proof.
  intros H. unfold Filepath.cleanStep.
  destruct (String.eqb elem EmptyString) eqn:E0; [exact H|]. cbn [orb].
  apply String.eqb_neq in E0.
  destruct (String.eqb elem "."); [exact H|].
  destruct (String.eqb elem Filepath.dotdot).
  - destruct stack as [|top below].
    + destruct rooted; [constructor|now repeat constructor].
    + destruct (String.eqb top Filepath.dotdot); [now constructor|now inversion H].
  - now constructor.
Qed.

Lemma fold_cleanStep_nonempty rooted elems :
  forall stack,
    Forall (fun e => e <> EmptyString) stack ->
    Forall (fun e => e <> EmptyString) (fold_left (Filepath.cleanStep rooted) elems stack).
Proof.
  induction elems as [|e elems IH]; intros stack H; [exact H|].
  cbn [fold_left]. apply IH. now apply cleanStep_nonempty.
Qed.

Lemma concat_nonempty sep l :
  l <> [] -> Forall (fun e => e <> EmptyString) l -> String.concat sep l <> EmptyString.
Proof.
  intros Hne H. destruct l as [|e l]; [congruence|].
  inversion H as [|? ? He _]; subst.
  destruct e as [|c e]; [congruence|]. destruct l; discriminate.
Qed.

(** [Clean] never returns the empty string. *)
Lemma Clean_nonempty p : Filepath.Clean p <> EmptyString.
Proof.
  unfold Filepath.Clean. destruct p as [|c p]; [discriminate|].
  destruct (Ascii.eqb c Filepath.slash); [discriminate|].
  destruct (fold_left _ _ _) as [|e stack] eqn:E; [discriminate|].
  apply concat_nonempty.
  - intros H. apply (f_equal (@List.length string)) in H. rewrite length_rev in H. discriminate.
  - apply Forall_rev. rewrite <- E. apply fold_cleanStep_nonempty. constructor.
Qed.

Lemma Dir_nonempty p : Filepath.Dir p <> EmptyString.
Proof. apply Clean_nonempty. Qed.

(** ** The package directory and the test file *)

Section PackageDir.

Context {W : Type}.
Variable os : OS W.
Hypothesis standard_Dir : filepath_Dir os = Filepath.Dir.

(** X4.  With [filepath.Dir] as Go defines it, the test command is
    always run on [filepath.Dir(filePath)]: that directory is never the
    empty string, so the fallback to [.] is never taken. *)
Theorem AnalyzeFile_package_directory :
  forall filePath threshold p,
    os_IsNotExist os (statError os filePath p) = false ->
    exists more,
      calls (snd (CoverageAnalyzer.AnalyzeFile os filePath threshold p)) =
        (calls p ++
         [CallStat (testFileOf filePath);
          CallRun ["go"; "test"; "-cover"; "-coverprofile=coverage.out";
                   Filepath.Dir filePath]] ++ more)%list /\
      Filepath.Dir filePath <> EmptyString.
Proof.
  intros filePath threshold p Hstat.
  assert (Hargv : runArgv os filePath =
                  ["go"; "test"; "-cover"; "-coverprofile=coverage.out"; Filepath.Dir filePath]).
  { unfold runArgv, packageDirOf. rewrite standard_Dir.
    destruct (String.eqb (Filepath.Dir filePath) EmptyString) eqn:E; [|reflexivity].
    apply String.eqb_eq in E. now destruct (Dir_nonempty filePath). }
  rewrite (AnalyzeFile_run os filePath threshold p Hstat). cbv zeta.
  destruct (runResult os filePath p) as [output [e|]]; cbn [fst snd].
  - exists []. split; [|apply Dir_nonempty].
    destruct (Strings.Contains output "no test files"); cbn [ret snd afterRun calls];
      now rewrite Hargv, app_nil_r.
  - destruct (CoverageAnalyzer.parseCoverageOutput os output) as [coverage [pe|]].
    + exists []. split; [|apply Dir_nonempty]. cbn [ret snd afterRun calls].
      now rewrite Hargv, app_nil_r.
    + exists [CallRemove "coverage.out"]. split; [|apply Dir_nonempty].
      unfold bind, perform, ret, afterRun.
      destruct (os_Remove os "coverage.out" _) as [e w']. cbn [snd calls].
      rewrite Hargv. now rewrite <- app_assoc.
Qed.

End PackageDir.

Lemma AnalyzeFile_package_directory_witness :
  exists more,
    calls (snd (CoverageAnalyzer.AnalyzeFile SimpleOS.os "pkg/calculator.go" 40%float
                  passing_run)) =
      (calls passing_run ++
       [CallStat (testFileOf "pkg/calculator.go");
        CallRun ["go"; "test"; "-cover"; "-coverprofile=coverage.out";
                 Filepath.Dir "pkg/calculator.go"]] ++ more)%list /\
    Filepath.Dir "pkg/calculator.go" <> EmptyString.
Proof.
  apply (AnalyzeFile_package_directory SimpleOS.os eq_refl "pkg/calculator.go" 40%float
           passing_run).
  vm_compute; reflexivity.
Defined.

Lemma TrimSuffix_app s suffix : Strings.TrimSuffix (s ++ suffix) suffix = s.
Proof.
  induction s as [|c s IH].
  - cbn [append]. destruct suffix; cbn [Strings.TrimSuffix]; now rewrite String.eqb_refl.
  - cbn [append Strings.TrimSuffix].
    replace (String.eqb (String c (s ++ suffix)) suffix) with false; [now rewrite IH|].
    symmetry. apply String.eqb_neq. intros E.
    apply (f_equal String.length) in E. cbn [String.length] in E.
    rewrite length_sapp in E. lia.
Qed.

Section ProbedFile.
Context {W : Type}.
Variable os : OS W.

(** X5.  For a source file [base.go] the first call of [AnalyzeFile] is
    [os.Stat] of [base_test.go], whatever follows. *)
Theorem AnalyzeFile_probes_test_file :
  forall base threshold p,
    exists more,
      calls (snd (CoverageAnalyzer.AnalyzeFile os (base ++ ".go") threshold p)) =
        (calls p ++ CallStat (base ++ "_test.go") :: more)%list.
Proof.
  intros base threshold p.
  assert (Hname : testFileOf (base ++ ".go") = base ++ "_test.go").
  { unfold testFileOf. now rewrite TrimSuffix_app. }
  destruct (os_IsNotExist os (statError os (base ++ ".go") p)) eqn:Hstat.
  - exists []. rewrite (AnalyzeFile_stat os _ threshold p Hstat).
    cbn [snd afterStat calls]. now rewrite Hname.
  - rewrite (AnalyzeFile_run os _ threshold p Hstat). cbv zeta.
    destruct (runResult os (base ++ ".go") p) as [output [e|]]; cbn [fst snd].
    + exists [CallRun (runArgv os (base ++ ".go"))].
      destruct (Strings.Contains output "no test files"); cbn [ret snd afterRun calls];
        now rewrite Hname.
    + destruct (CoverageAnalyzer.parseCoverageOutput os output) as [coverage [pe|]].
      * exists [CallRun (runArgv os (base ++ ".go"))]. cbn [ret snd afterRun calls].
        now rewrite Hname.
      * exists [CallRun (runArgv os (base ++ ".go")); CallRemove "coverage.out"].
        unfold bind, perform, ret, afterRun.
        destruct (os_Remove os "coverage.out" _) as [e w']. cbn [snd calls].
        rewrite Hname. now rewrite <- app_assoc.
Qed.
End ProbedFile.

(** ** The revision that changes directory, on all its paths *)

Section ResolvedEdges.

Context {W : Type}.
Variable os : OS W.

(** What the body of [AnalyzeFile] returns once the command has run. *)
Lemma resolved_body_run threshold q output err w6 :
  let argv := ["go"; "test"; "-cover"; "-coverprofile=coverage.out"; "."] in
  exec_CombinedOutput os argv (world q) = ((output, err), w6) ->
  forall filePath' p',
    os_IsNotExist os (statError os filePath' p') = false ->
    runResult os filePath' p' = (output, err) ->
    (r <- perform (CallRun argv) (exec_CombinedOutput os argv) ;;
     let output := fst r in
     let err := snd r in
     match err with
     | Some _ =>
         if Strings.Contains output "no test files"
         then ret (true, 0%float, None)
         else ret (false, 0%float,
                   Some ("failed to run coverage: " ++ errText err ++
                         ", output: " ++ output))
     | None =>
         let (coverage, perr) := CoverageAnalyzer.parseCoverageOutput os output in
         match perr with
         | Some _ =>
             ret (false, 0%float,
                  Some ("failed to parse coverage output: " ++ errText perr))
         | None =>
             ret (PrimFloat.ltb coverage threshold, coverage, None)
         end
     end) q =
    (fst (CoverageAnalyzer.AnalyzeFile os filePath' threshold p'),
     mkProc w6 (calls q ++ [CallRun argv])%list).
Proof.
  intros argv Hrun filePath' p' Hstat' Hrun'.
  destruct q as [w l]. cbn [world] in Hrun.
  rewrite (bind_perform (CallRun argv) _ _ _ _ _ _ Hrun). cbv beta. cbn [fst snd calls].
  rewrite (AnalyzeFile_run os filePath' threshold p' Hstat'), Hrun'. cbn [fst snd].
  destruct err as [e|].
  - now destruct (Strings.Contains output "no test files").
  - destruct (CoverageAnalyzer.parseCoverageOutput os output) as [coverage [pe|]];
      [reflexivity|].
    unfold bind, perform, ret.
    now destruct (os_Remove os "coverage.out" _).
Qed.

(** X6.  Once the revision that changes directory has entered the
    package directory, it returns what the first revision returns for a
    run with the same output and error, and on every such path its last
    two calls are [os.Chdir] back to the original directory and
    [os.Remove] of [coverage.out], in this order. *)
Theorem AnalyzeFile_revisions_agree :
  forall filePath threshold p wd w1 statErr w2 originalDir w3 absPackageDir w4 w5
         output err w6 filePath' p',
    os_Getwd os (world p) = (wd, w1) ->
    os_Stat os (testFileOf (resolvedFrom os wd filePath)) w1 = (statErr, w2) ->
    os_IsNotExist os statErr = false ->
    os_Getwd os w2 = ((originalDir, None), w3) ->
    filepath_Abs os (packageDirOf os (resolvedFrom os wd filePath)) w3 =
      ((absPackageDir, None), w4) ->
    os_Chdir os absPackageDir w4 = (None, w5) ->
    exec_CombinedOutput os ["go"; "test"; "-cover"; "-coverprofile=coverage.out"; "."] w5 =
      ((output, err), w6) ->
    os_IsNotExist os (statError os filePath' p') = false ->
    runResult os filePath' p' = (output, err) ->
    CoverageAnalyzerResolved.AnalyzeFile os filePath threshold p =
      (fst (CoverageAnalyzer.AnalyzeFile os filePath' threshold p'),
       mkProc (snd (os_Remove os "coverage.out" (snd (os_Chdir os originalDir w6))))
         (calls p ++
          [CallGetwd; CallStat (testFileOf (resolvedFrom os wd filePath)); CallGetwd;
           CallAbs (packageDirOf os (resolvedFrom os wd filePath));
           CallChdir absPackageDir;
           CallRun ["go"; "test"; "-cover"; "-coverprofile=coverage.out"; "."];
           CallChdir originalDir; CallRemove "coverage.out"])%list).
Proof.
  intros filePath threshold p wd w1 statErr w2 originalDir w3 absPackageDir w4 w5
         output err w6 filePath' p' Hwd Hstat Hexists Hgetwd Habs Hchdir Hrun Hstat' Hrun'.
  unfold testFileOf, packageDirOf in *.
  unfold CoverageAnalyzerResolved.AnalyzeFile. cbv zeta.
  assert (Hresolve : CoverageAnalyzerResolved.resolveFilePath os filePath p =
                     (resolvedFrom os wd filePath, mkProc w1 (calls p ++ [CallGetwd])%list)).
  { rewrite resolveFilePath_run, Hwd. reflexivity. }
  rewrite (bind_run _ _ _ _ _ Hresolve). cbv beta.
  rewrite (bind_perform (CallStat _) _ _ _ _ _ _ Hstat). cbv beta.
  rewrite Hexists.
  rewrite (bind_perform CallGetwd _ _ _ _ _ _ Hgetwd). cbv beta. cbn [fst snd].
  rewrite (bind_perform (CallAbs _) _ _ _ _ _ _ Habs). cbv beta. cbn [fst snd].
  rewrite (bind_perform (CallChdir absPackageDir) _ _ _ _ _ _ Hchdir). cbv beta.
  erewrite deferring_run;
    [|apply (resolved_body_run threshold _ output err w6); [exact Hrun|exact Hstat'|exact Hrun']].
  unfold CoverageAnalyzerResolved.restore, bind, perform, ret. cbn [world calls snd].
  destruct (os_Chdir os originalDir w6) as [e1 w7]. cbn [world calls snd].
  destruct (os_Remove os "coverage.out" w7) as [e2 w8]. cbn [world calls snd].
  rewrite <- !app_assoc. reflexivity.
Qed.

(** X7.  In the revision that resolves the path, a missing test file
    gives [(true, 0, nil)] after [os.Getwd] and [os.Stat] alone: the
    working directory is not changed and the test command is not run. *)
Theorem AnalyzeFile_resolved_without_test_file :
  forall filePath threshold p wd w1 statErr w2,
    os_Getwd os (world p) = (wd, w1) ->
    os_Stat os (testFileOf (resolvedFrom os wd filePath)) w1 = (statErr, w2) ->
    os_IsNotExist os statErr = true ->
    CoverageAnalyzerResolved.AnalyzeFile os filePath threshold p =
      ((true, 0%float, None),
       mkProc w2 (calls p ++ [CallGetwd; CallStat (testFileOf (resolvedFrom os wd filePath))])%list).
Proof.
  intros filePath threshold p wd w1 statErr w2 Hwd Hstat Hmissing.
  unfold testFileOf in *.
  unfold CoverageAnalyzerResolved.AnalyzeFile. cbv zeta.
  assert (Hresolve : CoverageAnalyzerResolved.resolveFilePath os filePath p =
                     (resolvedFrom os wd filePath, mkProc w1 (calls p ++ [CallGetwd])%list)).
  { rewrite resolveFilePath_run, Hwd. reflexivity. }
  rewrite (bind_run _ _ _ _ _ Hresolve). cbv beta.
  rewrite (bind_perform (CallStat _) _ _ _ _ _ _ Hstat). cbv beta.
  rewrite Hmissing. unfold ret. now rewrite <- app_assoc.
Qed.

(** X8.  When the package directory cannot be entered, [AnalyzeFile]
    returns the error of [os.Chdir] with [needsTests = false]; the test
    command is not run, and nothing is deferred: no directory is restored
    and no file is removed. *)
Theorem AnalyzeFile_resolved_chdir_failure :
  forall filePath threshold p wd w1 statErr w2 originalDir w3 absPackageDir w4 e w5,
    os_Getwd os (world p) = (wd, w1) ->
    os_Stat os (testFileOf (resolvedFrom os wd filePath)) w1 = (statErr, w2) ->
    os_IsNotExist os statErr = false ->
    os_Getwd os w2 = ((originalDir, None), w3) ->
    filepath_Abs os (packageDirOf os (resolvedFrom os wd filePath)) w3 =
      ((absPackageDir, None), w4) ->
    os_Chdir os absPackageDir w4 = (Some e, w5) ->
    CoverageAnalyzerResolved.AnalyzeFile os filePath threshold p =
      ((false, 0%float, Some ("failed to change to package directory: " ++ e)),
       mkProc w5
         (calls p ++
          [CallGetwd; CallStat (testFileOf (resolvedFrom os wd filePath)); CallGetwd;
           CallAbs (packageDirOf os (resolvedFrom os wd filePath));
           CallChdir absPackageDir])%list).
Proof.
  intros filePath threshold p wd w1 statErr w2 originalDir w3 absPackageDir w4 e w5
         Hwd Hstat Hexists Hgetwd Habs Hchdir.
  unfold testFileOf, packageDirOf in *.
  unfold CoverageAnalyzerResolved.AnalyzeFile. cbv zeta.
  assert (Hresolve : CoverageAnalyzerResolved.resolveFilePath os filePath p =
                     (resolvedFrom os wd filePath, mkProc w1 (calls p ++ [CallGetwd])%list)).
  { rewrite resolveFilePath_run, Hwd. reflexivity. }
  rewrite (bind_run _ _ _ _ _ Hresolve). cbv beta.
  rewrite (bind_perform (CallStat _) _ _ _ _ _ _ Hstat). cbv beta.
  rewrite Hexists.
  rewrite (bind_perform CallGetwd _ _ _ _ _ _ Hgetwd). cbv beta. cbn [fst snd].
  rewrite (bind_perform (CallAbs _) _ _ _ _ _ _ Habs). cbv beta. cbn [fst snd].
  rewrite (bind_perform (CallChdir absPackageDir) _ _ _ _ _ _ Hchdir). cbv beta.
  unfold ret. cbn [errText]. rewrite <- !app_assoc. reflexivity.
Qed.

End ResolvedEdges.

Lemma AnalyzeFile_revisions_agree_witness :
  CoverageAnalyzerResolved.AnalyzeFile SimpleOS.os "pkg/calculator.go" 40%float passing_run =
    (fst (CoverageAnalyzer.AnalyzeFile SimpleOS.os "pkg/calculator.go" 40%float passing_run),
     mkProc
       (snd (os_Remove SimpleOS.os "coverage.out"
               (snd (os_Chdir SimpleOS.os "/repo"
                       (snd (SimpleOS.run [] (snd (SimpleOS.chdir "/repo/pkg"
                                                     (world passing_run)))))))))
       (calls passing_run ++
        [CallGetwd;
         CallStat (testFileOf (resolvedFrom SimpleOS.os ("/repo", None) "pkg/calculator.go"));
         CallGetwd;
         CallAbs (packageDirOf SimpleOS.os
                    (resolvedFrom SimpleOS.os ("/repo", None) "pkg/calculator.go"));
         CallChdir "/repo/pkg";
         CallRun ["go"; "test"; "-cover"; "-coverprofile=coverage.out"; "."];
         CallChdir "/repo"; CallRemove "coverage.out"])%list).
Proof.
  apply (AnalyzeFile_revisions_agree SimpleOS.os "pkg/calculator.go" 40%float passing_run
           ("/repo", None) (world passing_run) None (world passing_run)
           "/repo" (world passing_run) "/repo/pkg" (world passing_run)
           (snd (SimpleOS.chdir "/repo/pkg" (world passing_run)))
           (SimpleOS.run_output (world passing_run)) None
           (snd (SimpleOS.run [] (snd (SimpleOS.chdir "/repo/pkg" (world passing_run)))))
           "pkg/calculator.go" passing_run).
  - vm_compute; reflexivity.
  - vm_compute; reflexivity.
  - vm_compute; reflexivity.
  - vm_compute; reflexivity.
  - vm_compute; reflexivity.
  - vm_compute; reflexivity.
  - vm_compute; reflexivity.
  - vm_compute; reflexivity.
  - vm_compute; reflexivity.
Defined.

Lemma AnalyzeFile_resolved_without_test_file_witness :
  CoverageAnalyzerResolved.AnalyzeFile SimpleOS.os "pkg/factorial.go" 40%float passing_run =
    ((true, 0%float, None),
     mkProc (world passing_run)
       (calls passing_run ++
        [CallGetwd;
         CallStat (testFileOf (resolvedFrom SimpleOS.os ("/repo", None) "pkg/factorial.go"))])%list).
Proof.
  apply (AnalyzeFile_resolved_without_test_file SimpleOS.os "pkg/factorial.go" 40%float
           passing_run ("/repo", None) (world passing_run) (Some SimpleOS.ENOENT)).
  - vm_compute; reflexivity.
  - vm_compute; reflexivity.
  - vm_compute; reflexivity.
Defined.

Lemma AnalyzeFile_resolved_chdir_failure_witness :
  CoverageAnalyzerResolved.AnalyzeFile SimpleOS.os "pkg/calculator.go" 40%float locked_run =
    ((false, 0%float, Some ("failed to change to package directory: " ++ SimpleOS.ENOENT)),
     mkProc (world locked_run)
       (calls locked_run ++
        [CallGetwd;
         CallStat (testFileOf (resolvedFrom SimpleOS.os ("/repo", None) "pkg/calculator.go"));
         CallGetwd;
         CallAbs (packageDirOf SimpleOS.os
                    (resolvedFrom SimpleOS.os ("/repo", None) "pkg/calculator.go"));
         CallChdir "/repo/pkg"])%list).
Proof.
  apply (AnalyzeFile_resolved_chdir_failure SimpleOS.os "pkg/calculator.go" 40%float locked_run
           ("/repo", None) (world locked_run) None (world locked_run)
           "/repo" (world locked_run) "/repo/pkg" (world locked_run)).
  - vm_compute; reflexivity.
  - vm_compute; reflexivity.
  - vm_compute; reflexivity.
  - vm_compute; reflexivity.
  - vm_compute; reflexivity.
  - vm_compute; reflexivity.
Defined.

(** ** The path from the scripts directory *)

Lemma HasSuffix_app a suffix : Strings.HasSuffix (a ++ suffix) suffix = true.
Proof. unfold Strings.HasSuffix. rewrite reverse_app. apply HasPrefix_app. Qed.

Section Resolve.

Context {W : Type}.
Variable os : OS W.
Hypothesis standard_Join : filepath_Join os = Filepath.Join.

(** X9.  Started in a directory whose name ends in [/scripts],
    [resolveFilePath] turns a relative path of plain elements into the
    same path under the parent directory, and it turns the absolute path
    of the same elements into that relative path as well; its one call is
    [os.Getwd]. *)
Theorem resolveFilePath_from_scripts :
  forall elems root p w1,
    elems <> [] ->
    forallb plain elems = true ->
    os_Getwd os (world p) = ((root ++ "/scripts", None), w1) ->
    CoverageAnalyzerResolved.resolveFilePath os (pathOf elems) p =
      ("../" ++ pathOf elems, mkProc w1 (calls p ++ [CallGetwd])%list) /\
    CoverageAnalyzerResolved.resolveFilePath os ("/" ++ pathOf elems) p =
      ("../" ++ pathOf elems, mkProc w1 (calls p ++ [CallGetwd])%list).
Proof.
  intros elems root p w1 Hne Hplain Hwd.
  rewrite !resolveFilePath_run, Hwd. unfold resolvedFrom. cbn [fst snd].
  rewrite (HasSuffix_app root "/scripts"). cbn [orb].
  rewrite standard_Join, (Join_parent elems Hne Hplain), (Join_parent_rooted elems Hne Hplain).
  now split.
Qed.

End Resolve.


Lemma resolveFilePath_from_scripts_witness :
  CoverageAnalyzerResolved.resolveFilePath SimpleOS.os (pathOf ["pkg"; "calculator.go"])
      scripts_run =
    ("../" ++ pathOf ["pkg"; "calculator.go"],
     mkProc (world scripts_run) (calls scripts_run ++ [CallGetwd])%list) /\
  CoverageAnalyzerResolved.resolveFilePath SimpleOS.os ("/" ++ pathOf ["pkg"; "calculator.go"])
      scripts_run =
    ("../" ++ pathOf ["pkg"; "calculator.go"],
     mkProc (world scripts_run) (calls scripts_run ++ [CallGetwd])%list).
Proof.
  apply (resolveFilePath_from_scripts SimpleOS.os eq_refl ["pkg"; "calculator.go"] "/repo"
           scripts_run (world scripts_run)).
  - discriminate.
  - vm_compute; reflexivity.
  - vm_compute; reflexivity.
Defined.

(** ** The requests of the publisher *)

Section PublisherRequests.

Import Github.
Context {R : Type}.
Variable pc : PRCreator R.

(** The look-up of [createOrUpdateFile] and what follows it, case by
    case. *)
Lemma createOrUpdateFile_cases :
  forall filePath content branchName s,
    let owner := repoOwner pc in
    let repo := repoName pc in
    let got := fst (Repositories_GetContents (client pc) owner repo filePath branchName (remote s)) in
    let r := Publisher.createOrUpdateFile pc filePath content branchName s in
    exists more,
      requests (snd r) =
        (requests s ++ GetContents owner repo filePath branchName :: more)%list /\
      match snd got, snd (fst got), fst (fst got) with
      | Some _, Some rsp, _ =>
          if (StatusCode rsp =? 404)%Z
          then more = [CreateFile owner repo filePath (addOptions filePath content branchName)]
          else more = [] /\
               fst r = Returns (Some ("failed to check file existence: " ++ errText (snd got)))
      | Some _, None, _ => more = [] /\ fst r = Panics "nil pointer dereference"
      | None, _, Some file =>
          more = [UpdateFile owner repo filePath
                    (updateOptions filePath content branchName (ContentSHA file))]
      | None, _, None => more = [] /\ fst r = Panics "nil pointer dereference"
      end.
Proof.
  intros filePath content branchName s owner repo got r. subst got r owner repo.
  unfold Publisher.createOrUpdateFile, gbind, request, greturn, gpanic. cbv zeta.
  destruct (Repositories_GetContents _ _ _ _ _ _) as [[[file resp] err] r1]. cbn [fst snd].
  destruct err as [e|].
  - destruct resp as [rsp|].
    + destruct (StatusCode rsp =? 404)%Z.
      * unfold addOptions.
        destruct (Repositories_CreateFile _ _ _ _ _ _) as [cerr r2].
        eexists. split; [|reflexivity].
        destruct cerr; cbn [snd requests remote]; now rewrite <- app_assoc.
      * exists []. cbn [snd fst requests]. now repeat split.
    + exists []. cbn [snd fst requests]. now repeat split.
  - destruct file as [file|].
    + unfold updateOptions.
      destruct (Repositories_UpdateFile _ _ _ _ _ _) as [uerr r2].
      eexists. split; [|reflexivity].
      destruct uerr; cbn [snd requests remote]; now rewrite <- app_assoc.
    + exists []. cbn [snd fst requests]. now repeat split.
Qed.

(** X10.  [createOrUpdateFile] always looks the file up first and
    follows with at most one write: [CreateFile] without a hash exactly
    when the look-up failed with status 404, [UpdateFile] with the hash of
    the file found exactly when the look-up returned a file and no error.
    Every other failed look-up is returned as an error or, without a
    response, ends in a nil dereference, and so does a look-up that
    succeeds without a file, as it does for a directory; none of these
    writes anything. *)
Theorem createOrUpdateFile_requests :
  forall filePath content branchName s,
    let owner := repoOwner pc in
    let repo := repoName pc in
    let got := fst (Repositories_GetContents (client pc) owner repo filePath branchName (remote s)) in
    let r := Publisher.createOrUpdateFile pc filePath content branchName s in
    exists more,
      requests (snd r) =
        (requests s ++ GetContents owner repo filePath branchName :: more)%list /\
      match snd got, snd (fst got), fst (fst got) with
      | Some _, Some rsp, _ =>
          if (StatusCode rsp =? 404)%Z
          then more = [CreateFile owner repo filePath (addOptions filePath content branchName)]
          else more = [] /\
               fst r = Returns (Some ("failed to check file existence: " ++ errText (snd got)))
      | Some _, None, _ => more = [] /\ fst r = Panics "nil pointer dereference"
      | None, _, Some file =>
          more = [UpdateFile owner repo filePath
                    (updateOptions filePath content branchName (ContentSHA file))]
      | None, _, None => more = [] /\ fst r = Panics "nil pointer dereference"
      end.
Proof. exact createOrUpdateFile_cases. Qed.

(** X11.  Whenever [CreateTestPR] returns no error, its requests were,
    in this order: the look-up of [main], the look-up of the branch, the
    deletion of the branch if it was there, the creation of the branch at
    the hash read from [main], the look-up of the test file on the branch,
    one write of the file, and the pull request from the branch into
    [main]. *)
Theorem CreateTestPR_success_log :
  forall originalFile testFileName testContent branchName coverage s s',
    Publisher.CreateTestPR pc originalFile testFileName testContent branchName coverage s =
      (Returns None, s') ->
    let owner := repoOwner pc in
    let repo := repoName pc in
    let branchRef := "refs/heads/" ++ branchName in
    exists stale sha put,
      requests s' =
        (requests s ++
         [GetRef owner repo "refs/heads/main"; GetRef owner repo branchRef] ++ stale ++
         [CreateRef owner repo (branchReference branchName sha);
          GetContents owner repo testFileName branchName;
          put;
          CreatePullRequest owner repo (pullRequest pc originalFile branchName coverage)])%list /\
      (stale = [] \/ stale = [DeleteRef owner repo branchRef]) /\
      (put = CreateFile owner repo testFileName (addOptions testFileName testContent branchName) \/
       exists fileSha,
         put = UpdateFile owner repo testFileName
                 (updateOptions testFileName testContent branchName fileSha)).
Proof.
  intros originalFile testFileName testContent branchName coverage s s' H owner repo branchRef.
  unfold Publisher.CreateTestPR in H. cbv zeta in H. fold owner repo branchRef in H.
  unfold gbind at 1 in H. unfold request at 1 in H.
  destruct (Git_GetRef (client pc) owner repo "refs/heads/main" (remote s))
    as [[[mainRef mainResp] merr] r1]. cbn [fst snd] in H.
  destruct merr as [e|]; [discriminate H|].
  unfold gbind at 1 in H. unfold request at 1 in H. cbn [remote requests] in H.
  destruct (Git_GetRef (client pc) owner repo branchRef r1) as [[[found resp] err] r2].
  cbn [fst snd] in H.
  unfold gbind at 1 in H.
  match type of H with
  | context [match ?chk ?st with _ => _ end] =>
      assert (Hchk : (exists e st', chk st = (Returns (Some e), st')) \/
                     (exists st', chk st = (Panics "nil pointer dereference", st')) \/
                     (exists stale r3, chk st =
                        (Returns None,
                         mkSession r3
                           ((requests s ++ [GetRef owner repo "refs/heads/main"]) ++
                            [GetRef owner repo branchRef] ++ stale)%list) /\
                        (stale = [] \/ stale = [DeleteRef owner repo branchRef])))
  end.
  { destruct err as [e|].
    - destruct resp as [rsp|]; [|right; left; eexists; reflexivity].
      destruct (negb (StatusCode rsp =? 404)%Z).
      + left. eexists. eexists. reflexivity.
      + right. right. exists [], r2. split; [reflexivity|now left].
    - unfold gbind, request. cbn [remote requests].
      destruct (Git_DeleteRef (client pc) owner repo branchRef r2) as [[dresp derr] r3].
      cbn [snd]. destruct derr as [e|].
      + left. eexists. eexists. reflexivity.
      + right. right. exists [DeleteRef owner repo branchRef], r3.
        split; [unfold greturn; now rewrite <- app_assoc|now right]. }
  destruct Hchk as [(e & st' & Hchk)|[(st' & Hchk)|(stale & r3 & Hchk & Hstale)]];
    rewrite Hchk in H; try discriminate H.
  destruct mainRef as [mref|]; [|discriminate H].
  destruct (Object mref) as [obj|]; [|discriminate H].
  unfold gbind at 1 in H. unfold request at 1 in H. cbn [remote requests] in H.
  destruct (Git_CreateRef _ _ _ _ _) as [cerr r4]. destruct cerr as [e|]; [discriminate H|].
  unfold gbind at 1 in H.
  pose proof (createOrUpdateFile_cases testFileName testContent branchName
                (mkSession r4
                   ((((requests s ++ [GetRef owner repo "refs/heads/main"]) ++
                      [GetRef owner repo branchRef] ++ stale) ++
                     [CreateRef owner repo
                        (mkReference (Some branchRef) (Some (mkGitObject (ObjectSHA obj))))]))%list))
    as Hfile.
  cbv zeta in Hfile. fold owner repo in Hfile.
  destruct Hfile as (more & Hlog & Htable).
  destruct (Publisher.createOrUpdateFile pc testFileName testContent branchName _)
    as [[ferr|r] s5]; [|discriminate H].
  destruct ferr as [e|]; [discriminate H|].
  unfold gbind, request in H.
  destruct (PullRequests_Create _ _ _ _ _) as [perr r6]. destruct perr as [e|]; [discriminate H|].
  unfold greturn in H. injection H as <-.
  cbn [snd fst requests remote] in *.
  assert (Hput : more = [CreateFile owner repo testFileName
                            (addOptions testFileName testContent branchName)] \/
                 exists fileSha,
                   more = [UpdateFile owner repo testFileName
                             (updateOptions testFileName testContent branchName fileSha)]).
  { destruct (Repositories_GetContents _ _ _ _ _ _) as [[[file fresp] gerr] r7].
    cbn [fst snd] in Htable.
    destruct gerr as [e|].
    - destruct fresp as [rsp|].
      + destruct (StatusCode rsp =? 404)%Z; [now left|].
        destruct Htable as [_ Hbad]. discriminate Hbad.
      + destruct Htable as [_ Hbad]. discriminate Hbad.
    - destruct file as [file|].
      + right. now exists (ContentSHA file).
      + destruct Htable as [_ Hbad]. discriminate Hbad. }
  exists stale, (ObjectSHA obj).
  destruct Hput as [Hput|(fileSha & Hput)]; subst more.
  - eexists. split; [|split; [exact Hstale|left; reflexivity]].
    rewrite Hlog. unfold branchReference, pullRequest. fold branchRef.
    rewrite <- !app_assoc. reflexivity.
  - eexists. split; [|split; [exact Hstale|right; exists fileSha; reflexivity]].
    rewrite Hlog. unfold branchReference, pullRequest. fold branchRef.
    rewrite <- !app_assoc. reflexivity.
Qed.

End PublisherRequests.

Lemma CreateTestPR_success_log_witness :
  exists stale sha put,
    Github.requests
      (snd (Publisher.CreateTestPR SimpleRemote.creator "pkg/calculator.go"
              "pkg/calculator_test.go" "package pkg" "auto-tests-pkg" 0%float fresh_session)) =
      (Github.requests fresh_session ++
       [Github.GetRef "owner" "repo" "refs/heads/main";
        Github.GetRef "owner" "repo" ("refs/heads/" ++ "auto-tests-pkg")] ++ stale ++
       [Github.CreateRef "owner" "repo" (branchReference "auto-tests-pkg" sha);
        Github.GetContents "owner" "repo" "pkg/calculator_test.go" "auto-tests-pkg";
        put;
        Github.CreatePullRequest "owner" "repo"
          (pullRequest SimpleRemote.creator "pkg/calculator.go" "auto-tests-pkg" 0%float)])%list /\
    (stale = [] \/
     stale = [Github.DeleteRef "owner" "repo" ("refs/heads/" ++ "auto-tests-pkg")]) /\
    (put = Github.CreateFile "owner" "repo" "pkg/calculator_test.go"
             (addOptions "pkg/calculator_test.go" "package pkg" "auto-tests-pkg") \/
     exists fileSha,
       put = Github.UpdateFile "owner" "repo" "pkg/calculator_test.go"
               (updateOptions "pkg/calculator_test.go" "package pkg" "auto-tests-pkg" fileSha)).
Proof.
  apply (CreateTestPR_success_log SimpleRemote.creator "pkg/calculator.go"
           "pkg/calculator_test.go" "package pkg" "auto-tests-pkg" 0%float fresh_session).
  vm_compute; reflexivity.
Defined.

(** ** Branch names of ordinary paths *)

Lemma ReplaceAll_byte_app c new a b :
  Strings.ReplaceAll (a ++ b) (String c EmptyString) new =
  Strings.ReplaceAll a (String c EmptyString) new ++
  Strings.ReplaceAll b (String c EmptyString) new.
Proof.
  unfold Strings.ReplaceAll. induction a as [|x a IH]; [reflexivity|].
  cbn [append]. rewrite !replace_byte_cons, IH.
  destruct (Ascii.eqb c x); [now rewrite sapp_assoc|reflexivity].
Qed.

Lemma ReplaceAll_byte_free c new s :
  Strings.existsByte (Ascii.eqb c) s = false ->
  Strings.ReplaceAll s (String c EmptyString) new = s.
Proof.
  unfold Strings.ReplaceAll. induction s as [|x s IH]; [reflexivity|].
  cbn [Strings.existsByte]. intros H. apply orb_false_iff in H. destruct H as [Hx Hs].
  now rewrite replace_byte_cons, Hx, (IH Hs).
Qed.

Lemma ReplaceAll_slashes dirs :
  forallb plain dirs = true ->
  Strings.ReplaceAll (pathOf dirs) "/" "-" = String.concat "-" dirs.
Proof.
  induction dirs as [|d dirs IH]; [reflexivity|]. intros H.
  cbn [forallb] in H. apply andb_true_iff in H. destruct H as [Hd Hds].
  destruct dirs as [|d' dirs].
  - cbn. apply ReplaceAll_byte_free. now apply plain_no_slash.
  - unfold pathOf in *. rewrite !concat_cons2, !ReplaceAll_byte_app, (IH Hds).
    rewrite (ReplaceAll_byte_free "/" "-" d) by now apply plain_no_slash.
    reflexivity.
Qed.

Lemma pathOf_not_dot dirs :
  dirs <> [] -> forallb plain dirs = true -> String.eqb (pathOf dirs) "." = false.
Proof.
  intros Hne H. destruct dirs as [|d dirs]; [congruence|].
  cbn [forallb] in H. apply andb_true_iff in H. destruct H as [Hd Hds].
  destruct dirs as [|d' dirs].
  - cbn. unfold plain in Hd. repeat (apply andb_true_iff in Hd; destruct Hd as [Hd ?]).
    now apply negb_true_iff.
  - unfold pathOf. rewrite concat_cons2.
    destruct (plain_first d Hd) as (c & rest & -> & Hc).
    apply String.eqb_neq. intros E. cbn [append] in E. injection E as -> E.
    destruct rest; discriminate E.
Qed.

Lemma lowerASCII_fixed c : Strings.isUpperASCII c = false -> Strings.lowerASCII c = c.
Proof. unfold Strings.lowerASCII. now intros ->. Qed.

Lemma ToLower_fixed mapToLower s :
  Strings.existsByte (fun c => Strings.nonASCII c || Strings.isUpperASCII c) s = false ->
  Strings.ToLower mapToLower s = s.
Proof.
  intros H. unfold Strings.ToLower.
  assert (Hn : Strings.existsByte Strings.nonASCII s = false /\
               Strings.mapBytes Strings.lowerASCII s = s).
  { induction s as [|c s IH]; [now split|].
    cbn [Strings.existsByte] in H. apply orb_false_iff in H. destruct H as [Hc Hs].
    apply orb_false_iff in Hc. destruct Hc as [Hc1 Hc2].
    destruct (IH Hs) as [IH1 IH2]. cbn [Strings.existsByte Strings.mapBytes].
    now rewrite Hc1, IH1, IH2, (lowerASCII_fixed c Hc2). }
  destruct Hn as [-> ->]. reflexivity.
Qed.

Lemma existsByte_concat p sep l :
  Strings.existsByte p sep = false ->
  forallb (fun e => negb (Strings.existsByte p e)) l = true ->
  Strings.existsByte p (String.concat sep l) = false.
Proof.
  intros Hsep. induction l as [|e l IH]; [reflexivity|]. intros H.
  cbn [forallb] in H. apply andb_true_iff in H. destruct H as [He Hl].
  apply negb_true_iff in He. destruct l as [|e' l]; [exact He|].
  rewrite concat_cons2, !existsByte_app, He, Hsep, (IH Hl). reflexivity.
Qed.

Lemma existsByte_weaken (p q : ascii -> bool) s :
  (forall c, q c = true -> p c = true) ->
  Strings.existsByte p s = false -> Strings.existsByte q s = false.
Proof.
  intros Hpq. induction s as [|c s IH]; [reflexivity|].
  cbn [Strings.existsByte]. intros H. apply orb_false_iff in H. destruct H as [Hc Hs].
  rewrite (IH Hs), orb_false_r.
  destruct (q c) eqn:E; [|reflexivity]. apply Hpq in E. congruence.
Qed.

Section BranchFormula.

Variable mapToLower : string -> string.

Lemma createBranchName_plain dirs base :
  dirs <> [] ->
  forallb plain dirs = true ->
  Strings.existsByte (Ascii.eqb Filepath.slash) base = false ->
  Driver.createBranchName Filepath.Dir mapToLower (pathOf (dirs ++ [base])) =
    "auto-tests-" ++
    Strings.ToLower mapToLower (Strings.ReplaceAll (String.concat "-" dirs) "_" "-").
Proof.
  intros Hne Hplain Hbase. unfold Driver.createBranchName. cbv zeta.
  rewrite (Dir_plain dirs base Hplain Hbase).
  destruct dirs as [|d dirs]; [congruence|].
  rewrite (pathOf_not_dot _ Hne Hplain), (ReplaceAll_slashes _ Hplain). reflexivity.
Qed.

(** X12.  For a file under directories whose names are plain, of ASCII
    bytes and without capital or underscore, [createBranchName] returns
    [auto-tests-] followed by the directory names joined by hyphens,
    whatever the name of the file. *)
Theorem createBranchName_of_directories :
  forall dirs base,
    dirs <> [] ->
    forallb simple dirs = true ->
    Strings.existsByte (Ascii.eqb Filepath.slash) base = false ->
    Driver.createBranchName Filepath.Dir mapToLower (pathOf (dirs ++ [base])) =
      "auto-tests-" ++ String.concat "-" dirs.
Proof.
  intros dirs base Hne Hsimple Hbase.
  assert (Hplain : forallb plain dirs = true).
  { apply forallb_forall. intros d Hd.
    apply (proj1 (forallb_forall _ _) Hsimple) in Hd.
    unfold simple in Hd. now apply andb_true_iff in Hd. }
  assert (Hbytes : Strings.existsByte
                     (fun c => Strings.nonASCII c || Strings.isUpperASCII c || Ascii.eqb "_" c)
                     (String.concat "-" dirs) = false).
  { apply existsByte_concat; [reflexivity|].
    apply forallb_forall. intros d Hd.
    apply (proj1 (forallb_forall _ _) Hsimple) in Hd.
    unfold simple in Hd. now apply andb_true_iff in Hd. }
  rewrite (createBranchName_plain dirs base Hne Hplain Hbase).
  rewrite ReplaceAll_byte_free.
  - rewrite ToLower_fixed; [reflexivity|].
    revert Hbytes. apply existsByte_weaken. intros c Hc. now rewrite Hc.
  - revert Hbytes. apply existsByte_weaken. intros c Hc. rewrite Hc. apply orb_true_r.
Qed.

(** X13.  The branch name does not tell a separator from an
    underscore: a file under [a/b] and a file under [a_b] get the same
    branch name. *)
Theorem createBranchName_collides :
  forall a b base,
    plain a = true -> plain b = true ->
    Strings.existsByte (Ascii.eqb Filepath.slash) base = false ->
    Driver.createBranchName Filepath.Dir mapToLower (pathOf [a; b; base]) =
    Driver.createBranchName Filepath.Dir mapToLower (pathOf [a ++ "_" ++ b; base]).
Proof.
  intros a b base Ha Hb Hbase.
  assert (Hab : plain (a ++ "_" ++ b) = true).
  { pose proof (plain_no_slash a Ha) as Hsa. pose proof (plain_no_slash b Hb) as Hsb.
    destruct (plain_first a Ha) as (c & rest & -> & Hc).
    unfold plain. rewrite !existsByte_app, Hsa, Hsb. cbn [append].
    cbn [Strings.existsByte Ascii.eqb Bool.eqb Filepath.slash orb negb andb].
    rewrite !andb_true_r. apply andb_true_iff. split; [apply andb_true_iff; split|].
    - reflexivity.
    - apply negb_true_iff, String.eqb_neq. intros E. injection E as _ E.
      destruct rest; discriminate E.
    - apply negb_true_iff, String.eqb_neq. unfold Filepath.dotdot. intros E.
      injection E as -> E. destruct rest as [|c' rest]; [discriminate E|].
      injection E as -> E. destruct rest; discriminate E. }
  change (pathOf [a; b; base]) with (pathOf ([a; b] ++ [base])).
  change (pathOf [a ++ "_" ++ b; base]) with (pathOf ([a ++ "_" ++ b] ++ [base])).
  rewrite !createBranchName_plain; try discriminate; try assumption.
  - cbn [String.concat]. now rewrite !ReplaceAll_byte_app.
  - cbn [forallb]. now rewrite Hab.
  - cbn [forallb]. now rewrite Ha, Hb.
Qed.

End BranchFormula.

Lemma createBranchName_of_directories_witness :
  Driver.createBranchName Filepath.Dir (Strings.mapBytes Strings.lowerASCII)
    (pathOf (["pkg"; "util"] ++ ["strings.go"])) =
  "auto-tests-" ++ String.concat "-" ["pkg"; "util"].
Proof.
  apply (createBranchName_of_directories (Strings.mapBytes Strings.lowerASCII)
           ["pkg"; "util"] "strings.go").
  - discriminate.
  - vm_compute; reflexivity.
  - vm_compute; reflexivity.
Defined.

Lemma createBranchName_collides_witness :
  Driver.createBranchName Filepath.Dir (Strings.mapBytes Strings.lowerASCII)
    (pathOf ["pkg"; "util"; "strings.go"]) =
  Driver.createBranchName Filepath.Dir (Strings.mapBytes Strings.lowerASCII)
    (pathOf ["pkg" ++ "_" ++ "util"; "strings.go"]).
Proof.
  apply (createBranchName_collides (Strings.mapBytes Strings.lowerASCII)
           "pkg" "util" "strings.go").
  - vm_compute; reflexivity.
  - vm_compute; reflexivity.
  - vm_compute; reflexivity.
Defined.

(** ** The encoded content *)

Lemma digits_ok : forallb digit_ok (seq 0 64) = true.
Proof. vm_compute. reflexivity. Qed.

Lemma digit_sextet n :
  n < 64 ->
  exists c, Base64.digit n = String c EmptyString /\ sextet c = Some n /\
            Ascii.eqb c "=" = false.
Proof.
  intros Hn.
  assert (Hin : In n (seq 0 64)) by (apply in_seq; lia).
  pose proof (proj1 (forallb_forall _ _) digits_ok n Hin) as H.
  unfold digit_ok in H.
  destruct (Base64.digit n) as [|c [|]]; try discriminate.
  apply andb_true_iff in H. destruct H as [Hpad H].
  destruct (sextet c) as [m|] eqn:Hs; [|discriminate].
  apply Nat.eqb_eq in H. subst m. apply negb_true_iff in Hpad.
  now exists c.
Qed.

Lemma byte_bound a : nat_of_ascii a < 256.
Proof. apply nat_ascii_bounded. Qed.

Lemma string_ind3 (P : string -> Prop) :
  P EmptyString ->
  (forall a, P (String a EmptyString)) ->
  (forall a b, P (String a (String b EmptyString))) ->
  (forall a b c rest, P rest -> P (String a (String b (String c rest)))) ->
  forall s, P s.
Proof.
  intros H0 H1 H2 H3.
  fix IH 1. intros s.
  destruct s as [|a [|b [|c rest]]]; [exact H0|apply H1|apply H2|].
  apply H3. apply IH.
Qed.

(** Arithmetic with quotients and remainders by constants. *)
Ltac divmod := zify; Z.to_euclidean_division_equations; lia.

Lemma EncodeToString_one a :
  DecodeString (Base64.EncodeToString (String a EmptyString)) = Some (String a EmptyString).
Proof.
  cbn [Base64.EncodeToString].
  pose proof (byte_bound a) as Ha. set (x := nat_of_ascii a) in *.
  assert (B0 : x / 4 < 64) by divmod.
  assert (B1 : x mod 4 * 16 < 64) by divmod.
  destruct (digit_sextet _ B0) as (c0 & -> & V0 & P0).
  destruct (digit_sextet _ B1) as (c1 & -> & V1 & P1).
  cbn [append DecodeString]. rewrite V0, V1.
  cbn [Ascii.eqb Bool.eqb String.eqb andb].
  replace (Nat.eqb (x mod 4 * 16 mod 16) 0) with true by (symmetry; apply Nat.eqb_eq; divmod).
  replace (x / 4 * 4 + x mod 4 * 16 / 16) with x by divmod.
  unfold x. now rewrite ascii_nat_embedding.
Qed.

Lemma EncodeToString_two a b :
  DecodeString (Base64.EncodeToString (String a (String b EmptyString))) =
  Some (String a (String b EmptyString)).
Proof.
  cbn [Base64.EncodeToString].
  pose proof (byte_bound a) as Ha. set (x := nat_of_ascii a) in *.
  pose proof (byte_bound b) as Hb. set (y := nat_of_ascii b) in *.
  assert (B0 : x / 4 < 64) by divmod.
  assert (B1 : x mod 4 * 16 + y / 16 < 64) by divmod.
  assert (B2 : y mod 16 * 4 < 64) by divmod.
  destruct (digit_sextet _ B0) as (c0 & -> & V0 & P0).
  destruct (digit_sextet _ B1) as (c1 & -> & V1 & P1).
  destruct (digit_sextet _ B2) as (c2 & -> & V2 & P2).
  cbn [append DecodeString]. rewrite V0, V1, P2, V2.
  cbn [Ascii.eqb Bool.eqb String.eqb andb].
  replace (Nat.eqb (y mod 16 * 4 mod 4) 0) with true by (symmetry; apply Nat.eqb_eq; divmod).
  replace (x / 4 * 4 + (x mod 4 * 16 + y / 16) / 16) with x by divmod.
  replace ((x mod 4 * 16 + y / 16) mod 16 * 16 + y mod 16 * 4 / 4) with y by divmod.
  unfold x, y. now rewrite !ascii_nat_embedding.
Qed.

Lemma EncodeToString_three a b c rest :
  DecodeString (Base64.EncodeToString rest) = Some rest ->
  DecodeString (Base64.EncodeToString (String a (String b (String c rest)))) =
  Some (String a (String b (String c rest))).
Proof.
  intros IH. cbn [Base64.EncodeToString].
  pose proof (byte_bound a) as Ha. set (x := nat_of_ascii a) in *.
  pose proof (byte_bound b) as Hb. set (y := nat_of_ascii b) in *.
  pose proof (byte_bound c) as Hc. set (z := nat_of_ascii c) in *.
  assert (B0 : x / 4 < 64) by divmod.
  assert (B1 : x mod 4 * 16 + y / 16 < 64) by divmod.
  assert (B2 : y mod 16 * 4 + z / 64 < 64) by divmod.
  assert (B3 : z mod 64 < 64) by divmod.
  destruct (digit_sextet _ B0) as (c0 & -> & V0 & P0).
  destruct (digit_sextet _ B1) as (c1 & -> & V1 & P1).
  destruct (digit_sextet _ B2) as (c2 & -> & V2 & P2).
  destruct (digit_sextet _ B3) as (c3 & -> & V3 & P3).
  cbn [append DecodeString]. rewrite V0, V1, P2, V2, P3, V3, IH.
  replace (x / 4 * 4 + (x mod 4 * 16 + y / 16) / 16) with x by divmod.
  replace ((x mod 4 * 16 + y / 16) mod 16 * 16 + (y mod 16 * 4 + z / 64) / 4) with y by divmod.
  replace ((y mod 16 * 4 + z / 64) mod 4 * 64 + z mod 64) with z by divmod.
  unfold x, y, z. now rewrite !ascii_nat_embedding.
Qed.

(** X14.  The content that [createOrUpdateFile] hands to the client is
    the standard base64 encoding of the test text: decoding it gives the
    text back, and it has four digits for every three bytes begun. *)
Theorem EncodeToString_decodes :
  forall content,
    DecodeString (Base64.EncodeToString content) = Some content /\
    String.length (Base64.EncodeToString content) = 4 * ((String.length content + 2) / 3).
Proof.
  induction content as [|a|a b|a b c rest IH] using string_ind3.
  - split; reflexivity.
  - split; [apply EncodeToString_one|].
    cbn [Base64.EncodeToString].
    destruct (digit_sextet (nat_of_ascii a / 4)) as (c0 & -> & _); [pose proof (byte_bound a); divmod|].
    destruct (digit_sextet (nat_of_ascii a mod 4 * 16)) as (c1 & -> & _); [divmod|].
    reflexivity.
  - split; [apply EncodeToString_two|].
    cbn [Base64.EncodeToString].
    destruct (digit_sextet (nat_of_ascii a / 4)) as (c0 & -> & _); [pose proof (byte_bound a); divmod|].
    destruct (digit_sextet (nat_of_ascii a mod 4 * 16 + nat_of_ascii b / 16)) as (c1 & -> & _);
      [pose proof (byte_bound b); divmod|].
    destruct (digit_sextet (nat_of_ascii b mod 16 * 4)) as (c2 & -> & _); [divmod|].
    reflexivity.
  - destruct IH as [IH Hlen]. split; [now apply EncodeToString_three|].
    cbn [Base64.EncodeToString].
    destruct (digit_sextet (nat_of_ascii a / 4)) as (c0 & -> & _); [pose proof (byte_bound a); divmod|].
    destruct (digit_sextet (nat_of_ascii a mod 4 * 16 + nat_of_ascii b / 16)) as (c1 & -> & _);
      [pose proof (byte_bound b); divmod|].
    destruct (digit_sextet (nat_of_ascii b mod 16 * 4 + nat_of_ascii c / 64)) as (c2 & -> & _);
      [pose proof (byte_bound c); divmod|].
    destruct (digit_sextet (nat_of_ascii c mod 64)) as (c3 & -> & _); [divmod|].
    cbn [append String.length]. rewrite Hlen. divmod.
Qed.

(** ** White space and fields *)

Lemma flush_nonempty field : Forall (fun f => f <> EmptyString) (StringsMore.flush field).
Proof.
  unfold StringsMore.flush. destruct (String.eqb field EmptyString) eqn:E; constructor.
  - now apply String.eqb_neq.
  - constructor.
Qed.

(** No field is empty. *)
Lemma fields_nonempty s :
  forall skip field,
    Forall (fun f => f <> EmptyString) (StringsMore.fields_from skip field s).
Proof.
  induction s as [|c s IH]; intros skip field; cbn [StringsMore.fields_from].
  - apply flush_nonempty.
  - destruct skip as [|k]; [|apply IH].
    destruct (Strings.matchLen Strings.spaceRunes (String c s)) as [|k]; [apply IH|].
    apply Forall_app. split; [apply flush_nonempty|apply IH].
Qed.

Lemma fields_skip s :
  forall k field,
    StringsMore.fields_from k field s = StringsMore.fields_from 0 field (sdrop k s).
Proof.
  induction s as [|c s IH]; intros k field.
  - destruct k; reflexivity.
  - destruct k as [|k]; [reflexivity|]. cbn [StringsMore.fields_from sdrop]. apply IH.
Qed.

(** A white-space rune ends the field and is dropped. *)
Lemma fields_rune r s field :
  In r Strings.spaceRunes ->
  StringsMore.fields_from 0 field (r ++ s) =
  (StringsMore.flush field ++ StringsMore.fields_from 0 EmptyString s)%list.
Proof.
  intros Hr.
  pose proof (matchLen_prefix_free _ r s prefixFree_spaceRunes Hr) as Hlen.
  destruct (prefixFree_nonempty _ r prefixFree_spaceRunes Hr) as [k Hk].
  destruct r as [|c r]; [discriminate|]. cbn [append] in *.
  cbn [StringsMore.fields_from]. rewrite Hlen, Hk.
  rewrite fields_skip. cbn [String.length] in Hk. injection Hk as <-.
  now rewrite sdrop_app.
Qed.

(** A byte at which no white-space rune starts goes into the field. *)
Lemma fields_byte c s field :
  Strings.matchLen Strings.spaceRunes (String c s) = 0 ->
  StringsMore.fields_from 0 field (String c s) =
  StringsMore.fields_from 0 (field ++ String c EmptyString) s.
Proof. intros H. cbn [StringsMore.fields_from]. now rewrite H. Qed.

(** A word is read into the field as a whole. *)
Lemma fields_word w s field :
  Strings.existsByte (fun c => negb (wordByte c)) w = false ->
  StringsMore.fields_from 0 field (w ++ s) = StringsMore.fields_from 0 (field ++ w) s.
Proof.
  revert field. induction w as [|c w IH]; intros field H.
  - now rewrite sapp_nil_r.
  - cbn [Strings.existsByte] in H. apply orb_false_iff in H. destruct H as [Hc Hw].
    apply negb_false_iff in Hc. cbn [append].
    rewrite fields_byte.
    + rewrite (IH _ Hw). now rewrite sapp_assoc.
    + apply matchLen_first_byte. intros r Hr. now apply wordByte_in_no_rune.
Qed.

Lemma flush_field field : field <> EmptyString -> StringsMore.flush field = [field].
Proof. intros H. unfold StringsMore.flush. apply String.eqb_neq in H. now rewrite H. Qed.

(** With bytes in the field, the scan returns a field. *)
Lemma fields_started s :
  forall skip field, field <> EmptyString -> StringsMore.fields_from skip field s <> [].
Proof.
  induction s as [|c s IH]; intros skip field Hf; cbn [StringsMore.fields_from].
  - now rewrite flush_field.
  - destruct skip as [|k]; [|now apply IH].
    destruct (Strings.matchLen Strings.spaceRunes (String c s)) as [|k].
    + apply IH. destruct field; discriminate.
    + now rewrite flush_field.
Qed.

(** The scan returns no field only for a run of white-space runes. *)
Lemma fields_none :
  forall n s, (String.length s <= n)%nat ->
    StringsMore.fields_from 0 EmptyString s = [] -> Runs Strings.spaceRunes s.
Proof.
  induction n as [|n IH]; intros s Hlen H.
  - destruct s; [constructor|cbn in Hlen; lia].
  - destruct s as [|c s]; [constructor|].
    destruct (Strings.matchLen Strings.spaceRunes (String c s)) as [|k] eqn:Hm.
    + rewrite (fields_byte _ _ _ Hm) in H.
      now destruct (fields_started s 0 (String c EmptyString) ltac:(discriminate)).
    + destruct (matchLen_found _ _ _ Hm) as (r & Hr & Hrlen & Hs).
      rewrite Hs in H |- *. rewrite (fields_rune _ _ _ Hr) in H. cbn [StringsMore.flush String.eqb app] in H.
      constructor; [exact Hr|]. apply IH; [|exact H].
      cbn [String.length] in Hlen.
      assert (String.length (String c s) = String.length r + String.length (sdrop (S k) (String c s)))
        by (rewrite Hs at 1; apply length_sapp).
      cbn [String.length] in H0. lia.
Qed.

Lemma Runs_last runes x :
  (forall r, In r runes -> r <> EmptyString) ->
  Runs runes x -> x <> EmptyString ->
  exists y r, x = y ++ r /\ In r runes.
Proof.
  intros Hne. induction 1 as [|r s Hr Hs IH]; intros Hx; [congruence|].
  destruct s as [|c s].
  - exists EmptyString, r. now rewrite sapp_nil_r.
  - destruct (IH ltac:(discriminate)) as (y & r' & Hy & Hr').
    exists (r ++ y), r'. split; [|exact Hr']. now rewrite Hy, sapp_assoc.
Qed.

Lemma length_reverse s : String.length (Strings.reverse s) = String.length s.
Proof.
  induction s as [|c s IH]; [reflexivity|].
  cbn [Strings.reverse]. rewrite length_sapp, IH. cbn. lia.
Qed.

Lemma trimLeft_idempotent runes s :
  prefixFree runes = true ->
  Strings.trimLeft_from runes 0 (Strings.trimLeft_from runes 0 s) =
  Strings.trimLeft_from runes 0 s.
Proof.
  intros Hpf. rewrite (trimLeft_step runes (Strings.trimLeft_from runes 0 s)).
  now rewrite (trimLeft_stops runes Hpf (String.length s) s (le_n _)).
Qed.

Lemma trimLeft_length runes s :
  (String.length (Strings.trimLeft_from runes 0 s) <= String.length s)%nat.
Proof.
  destruct (trimLeft_decompose runes (String.length s) s (le_n _)) as (a & _ & Hs).
  rewrite Hs at 2. rewrite length_sapp. lia.
Qed.

Lemma TrimRightSpace_length s :
  (String.length (Strings.TrimRightSpace s) <= String.length s)%nat.
Proof.
  unfold Strings.TrimRightSpace. rewrite length_reverse.
  rewrite <- (length_reverse s). apply trimLeft_length.
Qed.

Lemma TrimRightSpace_idempotent s :
  Strings.TrimRightSpace (Strings.TrimRightSpace s) = Strings.TrimRightSpace s.
Proof.
  unfold Strings.TrimRightSpace. rewrite reverse_involutive.
  now rewrite (trimLeft_idempotent _ _ prefixFree_reversed).
Qed.

(** A trimmed line does not end with a white-space rune. *)
Lemma TrimSpace_no_trailing_rune raw y r :
  In r Strings.spaceRunes -> Strings.TrimSpace raw <> y ++ r.
Proof.
  intros Hr E.
  assert (Hfix : Strings.TrimRightSpace (y ++ r) = y ++ r).
  { rewrite <- E. unfold Strings.TrimSpace. apply TrimRightSpace_idempotent. }
  rewrite (TrimRightSpace_rune r y Hr) in Hfix.
  pose proof (TrimRightSpace_length y) as Hlen. rewrite Hfix, length_sapp in Hlen.
  destruct (prefixFree_nonempty _ r prefixFree_spaceRunes Hr) as [k Hk]. lia.
Qed.

Lemma space_rune : In " " Strings.spaceRunes.
Proof. cbn. tauto. Qed.

(** The fields of a trimmed line that starts with [package ]. *)
Lemma package_line_fields raw :
  isPackageLine raw = true ->
  exists second rest,
    StringsMore.Fields (Strings.TrimSpace raw) = "package" :: second :: rest /\
    second <> EmptyString.
Proof.
  unfold isPackageLine. intros H.
  pose proof (HasPrefix_split _ _ H) as Hline. cbn [String.length] in Hline.
  set (x := sdrop 8 (Strings.TrimSpace raw)) in *.
  assert (Hfields : StringsMore.Fields (Strings.TrimSpace raw) =
                    "package" :: StringsMore.fields_from 0 EmptyString x).
  { rewrite Hline. unfold StringsMore.Fields.
    change ("package " ++ x) with ("package" ++ (" " ++ x)).
    rewrite fields_word by reflexivity.
    rewrite (fields_rune " " x _ space_rune). reflexivity. }
  destruct (StringsMore.fields_from 0 EmptyString x) as [|second rest] eqn:Hx.
  - exfalso. apply (fields_none (String.length x) x (le_n _)) in Hx.
    destruct x as [|c x'] eqn:Ex.
    + apply (TrimSpace_no_trailing_rune raw "package" " " space_rune). exact Hline.
    + destruct (Runs_last _ _ (prefixFree_no_empty _ prefixFree_spaceRunes) Hx
                  ltac:(discriminate)) as (y & r & Hy & Hr).
      apply (TrimSpace_no_trailing_rune raw ("package " ++ y) r Hr).
      rewrite Hline, Hy. now rewrite sapp_assoc.
  - exists second, rest. split; [exact Hfields|].
    pose proof (fields_nonempty x 0 EmptyString) as Hall. rewrite Hx in Hall.
    now inversion Hall.
Qed.

(** The fields of a package clause with a word for a name. *)
Lemma package_clause_fields name :
  isWord name = true ->
  StringsMore.Fields ("package " ++ name) = ["package"; name].
Proof.
  intros Hw. unfold isWord in Hw. apply andb_true_iff in Hw. destruct Hw as [Hne Hbytes].
  apply negb_true_iff in Hne. apply negb_true_iff in Hbytes.
  unfold StringsMore.Fields.
  change ("package " ++ name) with ("package" ++ (" " ++ name)).
  rewrite fields_word by reflexivity.
  rewrite (fields_rune " " name _ space_rune).
  rewrite <- (sapp_nil_r name) at 1. rewrite (fields_word name EmptyString _ Hbytes).
  cbn [append StringsMore.fields_from StringsMore.flush String.eqb app].
  unfold StringsMore.flush. now rewrite Hne.
Qed.

(** The package name after one line. *)
Lemma scanLine_name packageName imports inImportBlock raw :
  fst (fst (Generator.scanLine (packageName, imports, inImportBlock) raw)) =
  if isPackageLine raw then
    match StringsMore.Fields (Strings.TrimSpace raw) with
    | _ :: second :: _ => second
    | _ => packageName
    end
  else packageName.
Proof.
  unfold Generator.scanLine, isPackageLine.
  destruct (Strings.HasPrefix (Strings.TrimSpace raw) "import ("); [reflexivity|].
  destruct inImportBlock.
  - destruct (String.eqb (Strings.TrimSpace raw) ")"); [reflexivity|].
    now destruct (negb (String.eqb (Strings.TrimSpace raw) EmptyString) &&
                  negb (Strings.HasPrefix (Strings.TrimSpace raw) "//")).
  - now destruct (Strings.HasPrefix (Strings.TrimSpace raw) "import ").
Qed.

Lemma scan_name lines :
  forall st,
    fst (fst (fold_left Generator.scanLine lines st)) <> EmptyString <->
    (fst (fst st) <> EmptyString \/ existsb isPackageLine lines = true).
Proof.
  induction lines as [|raw lines IH]; intros st; cbn [fold_left existsb].
  - split; [now left|]. intros [H|H]; [exact H|discriminate].
  - rewrite IH. destruct st as [[packageName imports] inImportBlock].
    rewrite scanLine_name. cbn [fst].
    destruct (isPackageLine raw) eqn:Hp; cbn [orb].
    + destruct (package_line_fields raw Hp) as (second & rest & -> & Hne). tauto.
    + tauto.
Qed.

Lemma scan_keeps_name lines :
  forall st,
    existsb isPackageLine lines = false ->
    fst (fst (fold_left Generator.scanLine lines st)) = fst (fst st).
Proof.
  induction lines as [|raw lines IH]; intros st H; cbn [fold_left existsb] in *;
    [reflexivity|].
  apply orb_false_iff in H. destruct H as [Hraw Hlines].
  rewrite (IH _ Hlines). destruct st as [[packageName imports] inImportBlock].
  now rewrite scanLine_name, Hraw.
Qed.

Lemma extractPackageInfo_name content :
  fst (Generator.extractPackageInfo content) =
  fst (fst (fold_left Generator.scanLine (Strings.Split content LF) (EmptyString, [], false))).
Proof.
  unfold Generator.extractPackageInfo.
  now destruct (fold_left _ _ _) as [[packageName imports] inImportBlock].
Qed.

(** X15.  [extractPackageInfo] returns a package name that is not empty
    exactly when some line of the file, once trimmed, starts with
    [package ]: such a line always has a second field. *)
Theorem extractPackageInfo_finds_package :
  forall content,
    fst (Generator.extractPackageInfo content) <> EmptyString <->
    hasPackageLine content = true.
Proof.
  intros content. rewrite extractPackageInfo_name, scan_name. cbn [fst].
  unfold hasPackageLine. split; [intros [H|H]; [congruence|exact H]|now right].
Qed.

(** X16.  The package name [extractPackageInfo] returns is the name of
    the last package clause: for a line that trims to [package name], with
    a word for a name and no line after it that starts with [package ],
    the result is that name. *)
Theorem extractPackageInfo_last_clause :
  forall content pre line post name,
    Strings.Split content LF = (pre ++ line :: post)%list ->
    Strings.TrimSpace line = "package " ++ name ->
    isWord name = true ->
    existsb isPackageLine post = false ->
    fst (Generator.extractPackageInfo content) = name.
Proof.
  intros content pre line post name Hsplit Hline Hword Hpost.
  rewrite extractPackageInfo_name, Hsplit, fold_left_app. cbn [fold_left].
  rewrite (scan_keeps_name post _ Hpost).
  destruct (fold_left Generator.scanLine pre _) as [[packageName imports] inImportBlock].
  rewrite scanLine_name. unfold isPackageLine. rewrite Hline, HasPrefix_app.
  now rewrite (package_clause_fields name Hword).
Qed.

(** ** The prompt *)

Lemma Contains_self s : Strings.Contains s s = true.
Proof. apply Contains_spec. exists EmptyString, EmptyString. now rewrite sapp_nil_r. Qed.

Lemma Contains_concat_member sub l :
  In sub l -> Strings.Contains (String.concat EmptyString l) sub = true.
Proof.
  induction l as [|x l IH]; [contradiction|]. intros [->|Hin].
  - destruct l; [apply Contains_self|]. cbn [String.concat append].
    apply Contains_app_r, Contains_self.
  - destruct l as [|y l]; [contradiction|]. cbn [String.concat append].
    apply Contains_app_l. now apply IH.
Qed.

Lemma Contains_trans s t sub :
  Strings.Contains s t = true -> Strings.Contains t sub = true ->
  Strings.Contains s sub = true.
Proof.
  intros Hs Ht. apply Contains_spec in Hs. apply Contains_spec in Ht.
  destruct Hs as (a & b & ->). destruct Ht as (a' & b' & ->).
  apply Contains_spec. exists (a ++ a'), (b' ++ b). now rewrite !sapp_assoc.
Qed.

(** X17.  The prompt holds the content of the original file and, for
    every function handed over, a section with its name and its content
    between code fences. *)
Theorem buildPrompt_shows_functions :
  forall filePath originalContent functions packageName,
    Strings.Contains (Generator.buildPrompt filePath originalContent functions packageName)
      originalContent = true /\
    forall fn, In fn functions ->
      Strings.Contains (Generator.buildPrompt filePath originalContent functions packageName)
        (Generator.functionSection fn) = true.
Proof.
  intros filePath originalContent functions packageName. split.
  - unfold Generator.buildPrompt. apply Contains_concat_member. cbn. tauto.
  - intros fn Hin. unfold Generator.buildPrompt.
    apply (Contains_trans _ (String.concat EmptyString (map Generator.functionSection functions))).
    + apply Contains_concat_member. cbn. tauto.
    + apply Contains_concat_member. now apply in_map.
Qed.

(** ** The validation of generated tests *)

Import Tool.

Lemma tbind_run {W R A B} (m : T W R A) (k : A -> T W R B) st a st1 :
  m st = (Returns a, st1) -> tbind m k st = k a st1.
Proof. intros H. unfold tbind. now rewrite H. Qed.

Lemma tbind_onSys {W R A B} (e : Effect) (op : W -> A * W) (k : A -> T W R B) w r l a w1 :
  op w = (a, w1) ->
  tbind (onSys e op) k (mkState w r l) = k a (mkState w1 r (l ++ [e])).
Proof. intros H. unfold tbind, onSys. cbn [sys hub effects]. now rewrite H. Qed.

Lemma tdeferring_run {W R A} (cleanup : T W R unit) (body : T W R A) st o st1 :
  body st = (o, st1) -> deferring cleanup body st = (o, snd (cleanup st1)).
Proof. intros H. unfold deferring. now rewrite H. Qed.

Section Validate.

Context {W R : Type}.
Variable m : Machine W.

Abbreviation os := (machine_os m).

(** X18.  [validateGeneratedCode] accepts every text: when the temporary
    file can be written and the package directory entered, it returns no
    error whatever the text is.  Its effects are the write of
    [base_test_temp.go], [filepath.Abs], [os.Getwd], [os.Chdir] into the
    package directory, [os.Chdir] back and, last, the removal of the
    temporary file. *)
Theorem validateGeneratedCode_accepts :
  forall originalFilePath testContent (w : W) (r : R) l
         w1 absPackageDir w2 originalDir w3 w4,
    os_WriteFile m (tempFileOf originalFilePath) testContent 420 w = (None, w1) ->
    filepath_Abs os (packageDirOf os originalFilePath) w1 = ((absPackageDir, None), w2) ->
    os_Getwd os w2 = ((originalDir, None), w3) ->
    os_Chdir os absPackageDir w3 = (None, w4) ->
    GeneratorIO.validateGeneratedCode m originalFilePath testContent (mkState w r l) =
      (Returns None,
       mkState
         (snd (os_Remove os (tempFileOf originalFilePath) (snd (os_Chdir os originalDir w4))))
         r
         (l ++ [WriteFile (tempFileOf originalFilePath) testContent 420;
                OsCall (CallAbs (packageDirOf os originalFilePath));
                OsCall CallGetwd;
                OsCall (CallChdir absPackageDir);
                OsCall (CallChdir originalDir);
                OsCall (CallRemove (tempFileOf originalFilePath))])).
Proof.
  intros originalFilePath testContent w r l w1 absPackageDir w2 originalDir w3 w4
         Hwrite Habs Hgetwd Hchdir.
  unfold tempFileOf, packageDirOf in *.
  unfold GeneratorIO.validateGeneratedCode. cbv zeta.
  rewrite (tbind_onSys _ _ _ _ _ _ _ _ Hwrite). cbv beta.
  erewrite tdeferring_run.
  2:{ unfold GeneratorIO.osCall.
      rewrite (tbind_onSys _ _ _ _ _ _ _ _ Habs). cbv beta. cbn [fst snd].
      rewrite (tbind_onSys _ _ _ _ _ _ _ _ Hgetwd). cbv beta. cbn [fst snd].
      rewrite (tbind_onSys _ _ _ _ _ _ _ _ Hchdir). cbv beta.
      erewrite tdeferring_run; [|reflexivity]. reflexivity. }
  unfold GeneratorIO.osCall, tbind, onSys, tret. cbn [sys hub effects snd].
  destruct (os_Chdir os originalDir w4) as [e1 w5]. cbn [sys hub effects snd].
  destruct (os_Remove os _ w5) as [e2 w6]. cbn [sys hub effects snd].
  rewrite <- !app_assoc. reflexivity.
Qed.

(** X19.  Once the temporary file is written, [validateGeneratedCode]
    returns without panic and the last thing it does is remove that file,
    whichever of the steps in between fails; no command is run in
    between. *)
Theorem validateGeneratedCode_removes_temp_file :
  forall originalFilePath testContent (st : State W R) w1,
    os_WriteFile m (tempFileOf originalFilePath) testContent 420 (sys st) = (None, w1) ->
    exists result between,
      fst (GeneratorIO.validateGeneratedCode m originalFilePath testContent st) =
        Returns result /\
      effects (snd (GeneratorIO.validateGeneratedCode m originalFilePath testContent st)) =
        (effects st ++ [WriteFile (tempFileOf originalFilePath) testContent 420] ++
         map OsCall between ++ [OsCall (CallRemove (tempFileOf originalFilePath))])%list /\
      Forall (fun c => match c with CallRun _ => False | _ => True end) between.
Proof.
  intros originalFilePath testContent [w r l] w1 Hwrite. cbn [sys] in Hwrite.
  unfold tempFileOf in *.
  unfold GeneratorIO.validateGeneratedCode. cbv zeta.
  rewrite (tbind_onSys _ _ _ _ _ _ _ _ Hwrite). cbv beta.
  match goal with
  | |- context [deferring ?cleanup ?b ?q] =>
      assert (Hbody : exists result between st1,
                 b q = (Returns result, st1) /\
                 effects st1 = (effects q ++ map OsCall between)%list /\
                 Forall (fun c => match c with CallRun _ => False | _ => True end) between)
  end.
  { unfold GeneratorIO.osCall, tbind, onSys, tret, deferring. cbn [sys hub effects].
    set (packageDir := if String.eqb (filepath_Dir os originalFilePath) EmptyString
                       then "." else filepath_Dir os originalFilePath).
    destruct (filepath_Abs os packageDir w1) as [[absPackageDir aerr] w2]. cbn [fst snd].
    destruct aerr as [e|].
    - eexists. exists [CallAbs packageDir]. eexists. split; [reflexivity|].
      split; [reflexivity|]. repeat constructor.
    - cbn [sys hub effects].
      destruct (os_Getwd os w2) as [[originalDir gerr] w3]. cbn [fst snd].
      destruct gerr as [e|].
      + eexists. exists [CallAbs packageDir; CallGetwd]. eexists. split; [reflexivity|].
        cbn [effects map]. split; [now rewrite <- app_assoc|]. repeat constructor.
      + cbn [sys hub effects].
        destruct (os_Chdir os absPackageDir w3) as [cerr w4].
        destruct cerr as [e|].
        * eexists. exists [CallAbs packageDir; CallGetwd; CallChdir absPackageDir]. eexists.
          split; [reflexivity|]. cbn [effects map].
          split; [now rewrite <- !app_assoc|]. repeat constructor.
        * cbn [sys hub effects snd].
          destruct (os_Chdir os originalDir w4) as [e1 w5]. cbn [sys hub effects snd].
          eexists.
          exists [CallAbs packageDir; CallGetwd; CallChdir absPackageDir; CallChdir originalDir].
          eexists. split; [reflexivity|]. cbn [effects map].
          split; [now rewrite <- !app_assoc|]. repeat constructor. }
  destruct Hbody as (result & between & st1 & Hbody & Heff & Hno).
  rewrite (tdeferring_run _ _ _ _ _ Hbody).
  exists result, between. cbn [fst snd]. split; [reflexivity|]. split; [|exact Hno].
  unfold GeneratorIO.osCall, tbind, onSys, tret.
  destruct (os_Remove os _ (sys st1)) as [e2 w6]. cbn [effects snd].
  rewrite Heff. cbn [effects]. now rewrite <- !app_assoc.
Qed.

End Validate.

(** ** The generation of tests *)

Lemma resolveFilePath_T {W R} (m : Machine W) filePath (w : W) (r : R) l wd w1 :
  os_Getwd (machine_os m) w = (wd, w1) ->
  GeneratorIO.resolveFilePath m filePath (mkState w r l) =
    (Returns (resolvedFrom (machine_os m) wd filePath),
     mkState w1 r (l ++ [OsCall CallGetwd])).
Proof.
  intros H. unfold GeneratorIO.resolveFilePath, ofM. cbn [sys hub effects].
  rewrite resolveFilePath_run. cbn [world calls]. now rewrite H.
Qed.

Section Generate.

Context {W R : Type}.
Variable m : Machine W.

Abbreviation os := (machine_os m).

(** X20.  When the original file cannot be read, [GenerateTests] returns
    the empty text and the error of the read, wrapped; the model is not
    asked and nothing is written. *)
Theorem GenerateTests_read_failure :
  forall filePath functions (w : W) (r : R) l wd w1 content e w2,
    os_Getwd os w = (wd, w1) ->
    os_ReadFileAt m (resolvedFrom os wd filePath) w1 = ((content, Some e), w2) ->
    GeneratorIO.GenerateTests m filePath functions (mkState w r l) =
      (Returns (EmptyString, Some ("failed to read original file: " ++ e)),
       mkState w2 r
         (l ++ [OsCall CallGetwd; ReadFile (resolvedFrom os wd filePath)])%list).
Proof.
  intros filePath functions w r l wd w1 content e w2 Hwd Hread.
  unfold GeneratorIO.GenerateTests.
  rewrite (tbind_run _ _ _ _ _ (resolveFilePath_T m filePath w r l wd w1 Hwd)).
  rewrite (tbind_onSys _ _ _ _ _ _ _ _ Hread). cbn [fst snd errText].
  unfold tret. now rewrite <- app_assoc.
Qed.

(** X21.  When the model answers without candidates, [GenerateTests]
    returns the error [no content generated], and nothing is written. *)
Theorem GenerateTests_no_candidates :
  forall filePath functions (w : W) (r : R) l wd w1 content w2 resp w3,
    os_Getwd os w = (wd, w1) ->
    os_ReadFileAt m (resolvedFrom os wd filePath) w1 = ((content, None), w2) ->
    genai_GenerateContent m "gemini-1.5-flash" "0.3"
      (promptFor filePath content functions) w2 = ((Some resp, None), w3) ->
    Genai.Candidates resp = [] ->
    GeneratorIO.GenerateTests m filePath functions (mkState w r l) =
      (Returns (EmptyString, Some "no content generated"),
       mkState w3 r
         (l ++ [OsCall CallGetwd; ReadFile (resolvedFrom os wd filePath);
                GenerateContent "gemini-1.5-flash" "0.3"
                  (promptFor filePath content functions)])%list).
Proof.
  intros filePath functions w r l wd w1 content w2 resp w3 Hwd Hread Hgen Hnone.
  unfold promptFor in *. unfold GeneratorIO.GenerateTests.
  rewrite (tbind_run _ _ _ _ _ (resolveFilePath_T m filePath w r l wd w1 Hwd)).
  rewrite (tbind_onSys _ _ _ _ _ _ _ _ Hread). cbn [fst snd].
  destruct (Generator.extractPackageInfo content) as [packageName imports]. cbn [fst] in Hgen.
  rewrite (tbind_onSys _ _ _ _ _ _ _ _ Hgen). cbn [fst snd]. rewrite Hnone.
  unfold tret. now rewrite <- !app_assoc.
Qed.

(** X22.  When the first candidate of the answer has no content,
    [GenerateTests] does not return an error: it ends in a nil
    dereference, after the prompt was sent. *)
Theorem GenerateTests_candidate_without_content :
  forall filePath functions (w : W) (r : R) l wd w1 content w2 resp candidate others w3,
    os_Getwd os w = (wd, w1) ->
    os_ReadFileAt m (resolvedFrom os wd filePath) w1 = ((content, None), w2) ->
    genai_GenerateContent m "gemini-1.5-flash" "0.3"
      (promptFor filePath content functions) w2 = ((Some resp, None), w3) ->
    Genai.Candidates resp = Some candidate :: others ->
    Genai.CandidateContent candidate = None ->
    GeneratorIO.GenerateTests m filePath functions (mkState w r l) =
      (Panics "nil pointer dereference",
       mkState w3 r
         (l ++ [OsCall CallGetwd; ReadFile (resolvedFrom os wd filePath);
                GenerateContent "gemini-1.5-flash" "0.3"
                  (promptFor filePath content functions)])%list).
Proof.
  intros filePath functions w r l wd w1 content w2 resp candidate others w3
         Hwd Hread Hgen Hfirst Hnil.
  unfold promptFor in *. unfold GeneratorIO.GenerateTests.
  rewrite (tbind_run _ _ _ _ _ (resolveFilePath_T m filePath w r l wd w1 Hwd)).
  rewrite (tbind_onSys _ _ _ _ _ _ _ _ Hread). cbn [fst snd].
  destruct (Generator.extractPackageInfo content) as [packageName imports]. cbn [fst] in Hgen.
  rewrite (tbind_onSys _ _ _ _ _ _ _ _ Hgen). cbn [fst snd]. rewrite Hfirst, Hnil.
  unfold tpanic. now rewrite <- !app_assoc.
Qed.

(** X23.  When the file is read, the model answers and the validation
    passes, [GenerateTests] returns the text parts of the first candidate,
    joined in order and cleaned up with the package name and imports of
    the original file; other parts and other candidates are not used.  The
    prompt is the one built for the path as given, not as resolved.  The
    text returned holds no code fence unless the package name does. *)
Theorem GenerateTests_returns_cleaned_answer :
  forall filePath functions (w : W) (r : R) l wd w1 content w2 resp candidate others body w3 st4,
    os_Getwd os w = (wd, w1) ->
    os_ReadFileAt m (resolvedFrom os wd filePath) w1 = ((content, None), w2) ->
    genai_GenerateContent m "gemini-1.5-flash" "0.3"
      (promptFor filePath content functions) w2 = ((Some resp, None), w3) ->
    Genai.Candidates resp = Some candidate :: others ->
    Genai.CandidateContent candidate = Some body ->
    GeneratorIO.validateGeneratedCode m (resolvedFrom os wd filePath)
      (testTextFor content (Genai.Parts body))
      (mkState w3 r
         (l ++ [OsCall CallGetwd; ReadFile (resolvedFrom os wd filePath);
                GenerateContent "gemini-1.5-flash" "0.3"
                  (promptFor filePath content functions)])%list) = (Returns None, st4) ->
    GeneratorIO.GenerateTests m filePath functions (mkState w r l) =
      (Returns (testTextFor content (Genai.Parts body), None), st4) /\
    (Strings.Contains (fst (Generator.extractPackageInfo content)) fence = false ->
     Strings.Contains (testTextFor content (Genai.Parts body)) fence = false).
Proof.
  intros filePath functions w r l wd w1 content w2 resp candidate others body w3 st4
         Hwd Hread Hgen Hfirst Hbody Hvalid.
  split; [|apply cleanup_fence_free].
  unfold promptFor, testTextFor in *. unfold GeneratorIO.GenerateTests.
  rewrite (tbind_run _ _ _ _ _ (resolveFilePath_T m filePath w r l wd w1 Hwd)).
  rewrite (tbind_onSys _ _ _ _ _ _ _ _ Hread). cbn [fst snd].
  destruct (Generator.extractPackageInfo content) as [packageName imports].
  cbn [fst snd] in *.
  rewrite (tbind_onSys _ _ _ _ _ _ _ _ Hgen). cbn [fst snd]. rewrite Hfirst, Hbody.
  rewrite <- !app_assoc. cbn [app].
  now rewrite (tbind_run _ _ _ _ _ Hvalid).
Qed.

End Generate.

(** ** What the tool adds to its log *)

Section Appends.

Context {W R : Type}.
Variable P : Effect -> Prop.

Lemma appends_tret {A} (a : A) : appends P (@tret W R A a).
Proof. intros st. exists []. split; [now rewrite app_nil_r|constructor]. Qed.

Lemma appends_tpanic {A} reason : appends P (@tpanic W R A reason).
Proof. intros st. exists []. split; [now rewrite app_nil_r|constructor]. Qed.

Lemma appends_pure {A} (o : outcome A) : appends P (fun st : State W R => (o, st)).
Proof. intros st. exists []. split; [now rewrite app_nil_r|constructor]. Qed.

Lemma appends_logLine text : P (LogLine text) -> appends P (@logLine W R text).
Proof. intros H st. exists [LogLine text]. split; [reflexivity|now repeat constructor]. Qed.

Lemma appends_onSys {A} e (op : W -> A * W) : P e -> appends P (@onSys W R A e op).
Proof.
  intros H st. exists [e]. unfold onSys. destruct (op (sys st)).
  split; [reflexivity|now repeat constructor].
Qed.

Lemma appends_onHub {A} e (op : R -> A * R) : P e -> appends P (@onHub W R A e op).
Proof.
  intros H st. exists [e]. unfold onHub. destruct (op (hub st)).
  split; [reflexivity|now repeat constructor].
Qed.

Lemma appends_ofM {A} (m : M W A) : (forall c, P (OsCall c)) -> appends P (@ofM W R A m).
Proof.
  intros H st. unfold ofM. destruct (m _) as [a p]. exists (map OsCall (calls p)).
  split; [reflexivity|]. apply Forall_forall. intros e He.
  apply in_map_iff in He. destruct He as (c & <- & _). apply H.
Qed.

Lemma appends_ofG {A} (m : Github.G R A) :
  (forall q, P (ApiCall q)) -> appends P (@ofG W R A m).
Proof.
  intros H st. unfold ofG. destruct (m _) as [o s]. exists (map ApiCall (Github.requests s)).
  split; [reflexivity|]. apply Forall_forall. intros e He.
  apply in_map_iff in He. destruct He as (q & <- & _). apply H.
Qed.

Lemma appends_tbind {A B} (m : T W R A) (k : A -> T W R B) :
  appends P m -> (forall a, appends P (k a)) -> appends P (tbind m k).
Proof.
  intros Hm Hk st. unfold tbind. destruct (Hm st) as (more1 & E1 & F1).
  destruct (m st) as [[a|r] st1]; cbn [snd] in *.
  - destruct (Hk a st1) as (more2 & E2 & F2). exists (more1 ++ more2)%list.
    split; [now rewrite E2, E1, app_assoc|now apply Forall_app].
  - now exists more1.
Qed.

Lemma appends_deferring {A} (cleanup : T W R unit) (body : T W R A) :
  appends P cleanup -> appends P body -> appends P (deferring cleanup body).
Proof.
  intros Hc Hb st. unfold deferring. destruct (Hb st) as (more1 & E1 & F1).
  destruct (body st) as [o st1]; cbn [snd] in *.
  destruct (Hc st1) as (more2 & E2 & F2). exists (more1 ++ more2)%list.
  split; [now rewrite E2, E1, app_assoc|now apply Forall_app].
Qed.

End Appends.

Create HintDb appends.
#[export] Hint Resolve appends_tret appends_tpanic appends_pure appends_logLine
  appends_onSys appends_onHub appends_ofM appends_ofG : appends.

(** Splits a computation at its binds and branches. *)
Ltac appends_step :=
  match goal with
  | |- appends _ (tbind _ _) => apply appends_tbind; [|intros ?]
  | |- appends _ (deferring _ _) => apply appends_deferring
  | |- appends _ (match ?x with _ => _ end) => destruct x
  | |- appends _ (if ?b then _ else _) => destruct b
  | |- appends _ (let (_, _) := ?x in _) => destruct x
  end.

Ltac appends_auto := repeat appends_step; auto with appends.

Section AppendsOfTheTool.

Context {W R : Type}.
Variable sv : Services W R.
Variable P : Effect -> Prop.
Hypothesis P_os : forall c, P (OsCall c).
Hypothesis P_read : forall name, P (ReadFile name).
Hypothesis P_write : forall name content perm, P (WriteFile name content perm).
Hypothesis P_generate : forall model temperature prompt, P (GenerateContent model temperature prompt).
Hypothesis P_api : forall q, P (ApiCall q).
Hypothesis P_log : forall text, P (LogLine text).
Hypothesis P_client : forall key, P (NewClient key).

Lemma appends_validate path content :
  appends P (@GeneratorIO.validateGeneratedCode W R (machine sv) path content).
Proof. unfold GeneratorIO.validateGeneratedCode, GeneratorIO.osCall. cbv zeta. appends_auto. Qed.

Lemma appends_resolve path :
  appends P (@GeneratorIO.resolveFilePath W R (machine sv) path).
Proof. unfold GeneratorIO.resolveFilePath. appends_auto. Qed.

Lemma appends_GenerateTests path functions :
  appends P (@GeneratorIO.GenerateTests W R (machine sv) path functions).
Proof.
  unfold GeneratorIO.GenerateTests.
  apply appends_tbind; [apply appends_resolve|intros resolvedPath].
  appends_step; [auto with appends|].
  destruct (snd a); [auto with appends|].
  destruct (Generator.extractPackageInfo (fst a)) as [packageName imports].
  appends_step; [auto with appends|].
  destruct (snd a0); [auto with appends|].
  destruct (fst a0) as [resp|]; [|auto with appends].
  destruct (Genai.Candidates resp) as [|[candidate|] others]; auto with appends.
  destruct (Genai.CandidateContent candidate); [|auto with appends].
  apply appends_tbind; [apply appends_validate|intros verr].
  destruct verr; auto with appends.
Qed.

Lemma appends_AnalyzeFile path threshold :
  appends P (Main.AnalyzeFile sv path threshold).
Proof. unfold Main.AnalyzeFile. destruct (revision sv); auto with appends. Qed.

Lemma appends_Extract path : appends P (Main.ExtractModifiedFunctions sv path).
Proof.
  unfold Main.ExtractModifiedFunctions.
  apply appends_tbind; [destruct (revision sv); [auto with appends|apply appends_resolve]|].
  intros resolvedPath. appends_step; auto with appends.
Qed.

Lemma appends_CommentOnPR_off pc message :
  appends P (Main.CommentOnPR sv pc EmptyString message).
Proof. unfold Main.CommentOnPR. cbn [String.eqb]. auto with appends. Qed.

Lemma appends_processFile config pc file :
  PRNumber config = EmptyString ->
  appends P (Main.processFile sv config pc file).
Proof.
  intros Hoff. unfold Main.processFile. cbv zeta. rewrite Hoff.
  destruct (String.eqb (Strings.TrimSpace file) EmptyString); [auto with appends|].
  appends_step; [auto with appends|].
  apply appends_tbind; [apply appends_AnalyzeFile|intros analysis].
  destruct (snd analysis).
  { repeat (apply appends_tbind; [first [apply appends_CommentOnPR_off|auto with appends]|intros ?]).
    auto with appends. }
  destruct (negb (fst (fst analysis))); [auto with appends|].
  appends_step; [auto with appends|].
  apply appends_tbind; [apply appends_Extract|intros extracted].
  destruct (snd extracted).
  { repeat (apply appends_tbind; [first [apply appends_CommentOnPR_off|auto with appends]|intros ?]).
    auto with appends. }
  destruct (fst extracted) as [|fn functions]; [auto with appends|].
  apply appends_tbind; [apply appends_GenerateTests|intros generated].
  destruct (snd generated).
  { repeat (apply appends_tbind; [first [apply appends_CommentOnPR_off|auto with appends]|intros ?]).
    auto with appends. }
  appends_step; [auto with appends|].
  destruct a1;
    repeat (apply appends_tbind; [first [apply appends_CommentOnPR_off|auto with appends]|intros ?]);
    auto with appends.
Qed.

Lemma appends_processFiles config pc files :
  PRNumber config = EmptyString ->
  appends P (Main.processFiles sv config pc files).
Proof.
  intros Hoff. induction files as [|file rest IH]; cbn [Main.processFiles];
    [auto with appends|].
  apply appends_tbind; [now apply appends_processFile|intros _; exact IH].
Qed.

Lemma appends_main config :
  PRNumber config = EmptyString -> appends P (Main.main sv config).
Proof.
  intros Hoff. unfold Main.main.
  destruct (String.eqb (ChangedFiles config) EmptyString); [auto with appends|].
  appends_step; [auto with appends|].
  destruct a; [auto with appends|].
  apply appends_tbind; [now apply appends_processFiles|intros _; auto with appends].
Qed.

End AppendsOfTheTool.

(** X24.  With an empty PR number the tool never comments: whatever the
    changed files are and whatever happens to them, no effect of [main]
    is a comment on a pull request. *)
Theorem main_without_pr_number_never_comments :
  forall {W R} (sv : Services W R) config st,
    PRNumber config = EmptyString ->
    exists more,
      effects (snd (Main.main sv config st)) = (effects st ++ more)%list /\
      Forall noComment more.
Proof.
  intros W R sv config st Hoff.
  apply (appends_main sv noComment); try exact Hoff; intros; exact I.
Qed.

(** ** Comments on the pull request *)

Lemma digitsValue_bounds s :
  forall acc,
    Strconv.onlyDigits s = true -> (0 <= acc)%Z ->
    (acc * 10 ^ Z.of_nat (String.length s) <= Strconv.digitsValue acc s <
     (acc + 1) * 10 ^ Z.of_nat (String.length s))%Z.
Proof.
  induction s as [|c s IH]; intros acc Hd Hacc.
  - cbn. lia.
  - cbn [Strconv.onlyDigits] in Hd. apply andb_true_iff in Hd. destruct Hd as [Hc Hs].
    unfold Regexp.isDigit in Hc. apply andb_true_iff in Hc. destruct Hc as [Hlo Hhi].
    apply Nat.leb_le in Hlo. apply Nat.leb_le in Hhi.
    cbn [Strconv.digitsValue String.length].
    specialize (IH (10 * acc + (Z.of_nat (nat_of_ascii c) - 48))%Z Hs ltac:(lia)).
    rewrite Nat2Z.inj_succ, Z.pow_succ_r by lia.
    assert (0 < 10 ^ Z.of_nat (String.length s))%Z by (apply Z.pow_pos_nonneg; lia).
    nia.
Qed.

Section PullRequestComments.

Context {W R : Type}.
Variable sv : Services W R.

Lemma CommentOnPR_decimal :
  forall pc prNumber message (st : State W R),
    prNumber <> EmptyString ->
    Strconv.onlyDigits prNumber = true ->
    (String.length prNumber <= 18)%nat ->
    let posted :=
      Issues_CreateComment sv (repoOwner pc) (repoName pc)
        (Strconv.digitsValue 0 prNumber) message (hub st) in
    Main.CommentOnPR sv pc prNumber message st =
      (Returns (match fst posted with
                | Some e => Some ("failed to create comment: " ++ e)
                | None => None
                end),
       mkState (sys st) (snd posted)
         (effects st ++
          [CreateComment (repoOwner pc) (repoName pc) (Strconv.digitsValue 0 prNumber)
             message])%list).
Proof.
  intros pc prNumber message st Hne Hdigits Hlen posted. subst posted.
  unfold Main.CommentOnPR. apply String.eqb_neq in Hne. rewrite Hne.
  unfold Strconv.Atoi.
  destruct prNumber as [|c rest]; [discriminate|].
  assert (Hc : Ascii.eqb c "-" = false /\ Ascii.eqb c "+" = false).
  { cbn [Strconv.onlyDigits] in Hdigits. apply andb_true_iff in Hdigits.
    destruct Hdigits as [Hc _]. split; apply Ascii.eqb_neq; intros ->; discriminate Hc. }
  destruct Hc as [-> ->]. rewrite Hne, Hdigits. cbn [orb negb].
  pose proof (digitsValue_bounds (String c rest) 0 Hdigits ltac:(lia)) as Hb.
  assert (10 ^ Z.of_nat (String.length (String c rest)) <= 10 ^ 18)%Z
    by (apply Z.pow_le_mono_r; lia).
  replace (2 ^ 63 - 1 <? Strconv.digitsValue 0 (String c rest))%Z with false
    by (symmetry; apply Z.ltb_ge; lia).
  unfold tbind, onHub, tret.
  destruct (Issues_CreateComment sv _ _ _ _ _) as [cerr r1]. cbn [fst snd].
  now destruct cerr.
Qed.

(** X25.  For a PR number of one to eighteen decimal digits,
    [CommentOnPR] makes exactly one request, the creation of a comment with
    the given message on the issue of that number, and returns. *)
Theorem CommentOnPR_posts_on_the_number :
  forall pc prNumber message (st : State W R),
    prNumber <> EmptyString ->
    Strconv.onlyDigits prNumber = true ->
    (String.length prNumber <= 18)%nat ->
    snd (Main.CommentOnPR sv pc prNumber message st) =
      commented sv pc (Strconv.digitsValue 0 prNumber) message st /\
    (0 <= Strconv.digitsValue 0 prNumber < 10 ^ 18)%Z /\
    exists result, fst (Main.CommentOnPR sv pc prNumber message st) = Returns result.
Proof.
  intros pc prNumber message st Hne Hdigits Hlen.
  rewrite (CommentOnPR_decimal pc prNumber message st Hne Hdigits Hlen). cbn [fst snd].
  split; [reflexivity|]. split; [|eexists; reflexivity].
  pose proof (digitsValue_bounds prNumber 0 Hdigits ltac:(lia)) as Hb.
  assert (10 ^ Z.of_nat (String.length prNumber) <= 10 ^ 18)%Z
    by (apply Z.pow_le_mono_r; lia).
  lia.
Qed.

(** X26.  When the PR number is empty or is not an optional sign
    followed by decimal digits, [CommentOnPR] makes no request: it returns
    no error for the empty number and the syntax error of [strconv.Atoi]
    otherwise. *)
Theorem CommentOnPR_posts_nothing :
  forall pc prNumber message (st : State W R),
    isDecimal prNumber = false ->
    Main.CommentOnPR sv pc prNumber message st =
      (Returns (if String.eqb prNumber EmptyString then None
                else Some ("invalid PR number: strconv.Atoi: parsing " ++
                           strconv_Quote sv prNumber ++ ": invalid syntax")), st).
Proof.
  intros pc prNumber message st Hbad.
  unfold Main.CommentOnPR.
  destruct (String.eqb prNumber EmptyString) eqn:Hne; [reflexivity|].
  unfold Strconv.Atoi, isDecimal in *.
  destruct prNumber as [|c rest]; [discriminate|].
  destruct (Ascii.eqb c "-"); [apply negb_false_iff in Hbad; now rewrite Hbad|].
  destruct (Ascii.eqb c "+"); [apply negb_false_iff in Hbad; now rewrite Hbad|].
  apply negb_false_iff in Hbad. now rewrite Hbad.
Qed.

End PullRequestComments.

(** ** The driver *)

Lemma tbind_logLine {W R B} text (k : unit -> T W R B) (st : State W R) :
  tbind (logLine text) k st = k tt (logged st (LogLine text)).
Proof. reflexivity. Qed.

Section DriverLoop.

Context {W R : Type}.
Variable sv : Services W R.

Lemma processFiles_blank config pc lines st :
  forallb blank lines = true ->
  Main.processFiles sv config pc lines st = (Returns tt, st).
Proof.
  induction lines as [|line rest IH]; intros H; [reflexivity|].
  cbn [forallb] in H. apply andb_true_iff in H. destruct H as [Hline Hrest].
  cbn [Main.processFiles]. unfold tbind at 1. unfold Main.processFile.
  unfold blank in Hline. cbv zeta. rewrite Hline. unfold tret at 1. now apply IH.
Qed.

(** X27.  When every line of the changed files is blank, [main]
    processes nothing: for the empty text it logs that there are no
    changed files and makes no client; otherwise it makes the client of
    the model and logs the completion, and that is all. *)
Theorem main_blank_changed_files :
  forall config (st : State W R),
    forallb blank (Strings.Split (ChangedFiles config) LF) = true ->
    (ChangedFiles config = EmptyString ->
     Main.main sv config st =
       (Returns tt, logged st (LogLine "No changed files to process"))) /\
    (ChangedFiles config <> EmptyString ->
     forall w1,
       genai_NewClient (machine sv) (GeminiAPIKey config) (sys st) = (None, w1) ->
       Main.main sv config st =
         (Returns tt,
          mkState w1 (hub st)
            (effects st ++ [NewClient (GeminiAPIKey config);
                            LogLine "Test generation process completed"])%list)).
Proof.
  intros config st Hblank. split.
  - intros E. unfold Main.main. now rewrite E.
  - intros Hne w1 Hnew. unfold Main.main. apply String.eqb_neq in Hne. rewrite Hne.
    destruct st as [w r l]. cbn [sys] in Hnew.
    rewrite (tbind_onSys _ _ _ _ _ _ _ _ Hnew). cbv beta zeta.
    unfold tbind. rewrite (processFiles_blank _ _ _ _ Hblank).
    unfold logLine. cbn [sys hub effects]. now rewrite <- app_assoc.
Qed.

(** X28.  A file for which the analysis returns [needsTests = false] is
    skipped: after the analysis the driver logs the coverage and does
    nothing else for this file. *)
Theorem processFile_skips_covered_file :
  forall config pc file coverage (st st2 : State W R),
    blank file = false ->
    Main.AnalyzeFile sv (Strings.TrimSpace file) (CoverageThreshold config)
      (logged st (LogLine ("Processing file: " ++ Strings.TrimSpace file))) =
      (Returns (false, coverage, None), st2) ->
    Main.processFile sv config pc file st =
      (Returns tt,
       logged st2
         (LogLine ("File " ++ Strings.TrimSpace file ++ " has sufficient coverage (" ++
                   Github.formatPercent (client pc) coverage ++ "%), skipping"))).
Proof.
  intros config pc file coverage st st2 Hfile Hanalysis.
  unfold Main.processFile. cbv zeta. unfold blank in Hfile. rewrite Hfile.
  rewrite tbind_logLine. rewrite (tbind_run _ _ _ _ _ Hanalysis). cbn [fst snd negb].
  unfold Main.percent. now rewrite !sapp_assoc.
Qed.

(** X29.  When the analysis of a file fails and the PR number is
    decimal, the driver logs the error, comments on that pull request
    with the file name and the error, and goes on: nothing is extracted,
    generated or published for this file. *)
Theorem processFile_reports_analysis_error :
  forall config pc file needsTests coverage e (st st2 : State W R),
    blank file = false ->
    PRNumber config <> EmptyString ->
    Strconv.onlyDigits (PRNumber config) = true ->
    (String.length (PRNumber config) <= 18)%nat ->
    Main.AnalyzeFile sv (Strings.TrimSpace file) (CoverageThreshold config)
      (logged st (LogLine ("Processing file: " ++ Strings.TrimSpace file))) =
      (Returns (needsTests, coverage, Some e), st2) ->
    Main.processFile sv config pc file st =
      (Returns tt,
       commented sv pc (Strconv.digitsValue 0 (PRNumber config))
         (Main.crossMark ++ " Failed to analyze coverage for `" ++ Strings.TrimSpace file ++
          "`: " ++ e)
         (logged st2
            (LogLine ("Error analyzing coverage for " ++ Strings.TrimSpace file ++ ": " ++ e)))).
Proof.
  intros config pc file needsTests coverage e st st2 Hfile Hne Hdigits Hlen Hanalysis.
  unfold Main.processFile. cbv zeta. unfold blank in Hfile. rewrite Hfile.
  rewrite tbind_logLine. rewrite (tbind_run _ _ _ _ _ Hanalysis). cbn [fst snd errText].
  rewrite tbind_logLine.
  unfold tbind at 1.
  rewrite (CommentOnPR_decimal sv pc (PRNumber config) _ _ Hne Hdigits Hlen).
  reflexivity.
Qed.

(** X30.  When analysis, extraction, generation and publication all
    succeed for a file, the pull request is made for the test file
    [base_test.go] on the branch [createBranchName] gives for the file, and
    the driver then logs the success and comments on the pull request it
    was started for, naming the file, the coverage and the branch. *)
Theorem processFile_publishes_tests :
  forall config pc file coverage fn fns testContent (st st2 st4 st5 st6 : State W R),
    blank file = false ->
    PRNumber config <> EmptyString ->
    Strconv.onlyDigits (PRNumber config) = true ->
    (String.length (PRNumber config) <= 18)%nat ->
    let name := Strings.TrimSpace file in
    Main.AnalyzeFile sv name (CoverageThreshold config)
      (logged st (LogLine ("Processing file: " ++ name))) =
      (Returns (true, coverage, None), st2) ->
    Main.ExtractModifiedFunctions sv name
      (logged st2 (LogLine ("File " ++ name ++ " needs tests (coverage: " ++
                            Github.formatPercent (client pc) coverage ++ "%)"))) =
      (Returns (fn :: fns, None), st4) ->
    GeneratorIO.GenerateTests (machine sv) name (fn :: fns) st4 =
      (Returns (testContent, None), st5) ->
    ofG (Publisher.CreateTestPR pc name (testFileOf name) testContent
           (Main.createBranchName sv name) coverage) st5 = (Returns None, st6) ->
    Main.processFile sv config pc file st =
      (Returns tt,
       commented sv pc (Strconv.digitsValue 0 (PRNumber config))
         (Publisher.checkMark ++ " Generated unit tests for `" ++ name ++
          "` (coverage was " ++ Github.formatPercent (client pc) coverage ++
          "%). New PR created with branch `" ++ Main.createBranchName sv name ++ "`")
         (logged st6 (LogLine ("Successfully created test PR for " ++ name)))).
Proof.
  intros config pc file coverage fn fns testContent st st2 st4 st5 st6
         Hfile Hne Hdigits Hlen name Hanalysis Hextract Hgenerate Hpublish.
  subst name. unfold testFileOf in Hpublish.
  unfold Main.processFile. cbv zeta. unfold blank in Hfile. rewrite Hfile.
  rewrite tbind_logLine. rewrite (tbind_run _ _ _ _ _ Hanalysis). cbn [fst snd negb].
  rewrite tbind_logLine. unfold Main.percent.
  rewrite (sapp_assoc (Github.formatPercent (client pc) coverage) "%" ")").
  rewrite (tbind_run _ _ _ _ _ Hextract). cbn [fst snd].
  rewrite (tbind_run _ _ _ _ _ Hgenerate). cbn [fst snd].
  rewrite (tbind_run _ _ _ _ _ Hpublish).
  rewrite tbind_logLine. unfold tbind at 1.
  rewrite (CommentOnPR_decimal sv pc (PRNumber config) _ _ Hne Hdigits Hlen).
  cbn [fst snd]. unfold tret. rewrite !sapp_assoc. reflexivity.
Qed.

End DriverLoop.

(** ** The theorems at work on the small machine *)

Lemma extractPackageInfo_last_clause_witness :
  fst (Generator.extractPackageInfo netutil_go) = "netutil".
Proof.
  apply (extractPackageInfo_last_clause netutil_go [] "package netutil"
           (List.tl (Strings.Split netutil_go LF)) "netutil").
  - vm_compute; reflexivity.
  - vm_compute; reflexivity.
  - vm_compute; reflexivity.
  - vm_compute; reflexivity.
Defined.

Lemma validateGeneratedCode_accepts_witness :
  GeneratorIO.validateGeneratedCode SimpleMachine.machine "pkg/netutil.go" "not Go at all"
    (tool_state passing_checkout) =
  (Returns None,
   mkState
     (snd (os_Remove SimpleMachine.os (tempFileOf "pkg/netutil.go")
             (snd (os_Chdir SimpleMachine.os "/repo"
                     (snd (os_Chdir SimpleMachine.os "/repo/pkg"
                             (snd (SimpleMachine.writeFile (tempFileOf "pkg/netutil.go")
                                     "not Go at all" 420 passing_checkout))))))))
     (hub (tool_state passing_checkout))
     ([] ++ [WriteFile (tempFileOf "pkg/netutil.go") "not Go at all" 420;
             OsCall (CallAbs (packageDirOf SimpleMachine.os "pkg/netutil.go"));
             OsCall CallGetwd;
             OsCall (CallChdir "/repo/pkg");
             OsCall (CallChdir "/repo");
             OsCall (CallRemove (tempFileOf "pkg/netutil.go"))])%list).
Proof.
  apply (validateGeneratedCode_accepts SimpleMachine.machine "pkg/netutil.go" "not Go at all"
           passing_checkout (hub (tool_state passing_checkout)) []
           (snd (SimpleMachine.writeFile (tempFileOf "pkg/netutil.go") "not Go at all" 420
                   passing_checkout))
           "/repo/pkg"
           (snd (SimpleMachine.writeFile (tempFileOf "pkg/netutil.go") "not Go at all" 420
                   passing_checkout))
           "/repo"
           (snd (SimpleMachine.writeFile (tempFileOf "pkg/netutil.go") "not Go at all" 420
                   passing_checkout))
           (snd (os_Chdir SimpleMachine.os "/repo/pkg"
                   (snd (SimpleMachine.writeFile (tempFileOf "pkg/netutil.go")
                           "not Go at all" 420 passing_checkout))))).
  - vm_compute; reflexivity.
  - vm_compute; reflexivity.
  - vm_compute; reflexivity.
  - vm_compute; reflexivity.
Defined.

Lemma validateGeneratedCode_removes_temp_file_witness :
  exists result between,
    fst (GeneratorIO.validateGeneratedCode SimpleMachine.machine "pkg/netutil.go"
           "not Go at all" (tool_state passing_checkout)) = Returns result /\
    effects (snd (GeneratorIO.validateGeneratedCode SimpleMachine.machine "pkg/netutil.go"
                    "not Go at all" (tool_state passing_checkout))) =
      (effects (tool_state passing_checkout) ++
       [WriteFile (tempFileOf "pkg/netutil.go") "not Go at all" 420] ++
       map OsCall between ++ [OsCall (CallRemove (tempFileOf "pkg/netutil.go"))])%list /\
    Forall (fun c => match c with CallRun _ => False | _ => True end) between.
Proof.
  apply (validateGeneratedCode_removes_temp_file SimpleMachine.machine "pkg/netutil.go"
           "not Go at all" (tool_state passing_checkout)
           (snd (SimpleMachine.writeFile (tempFileOf "pkg/netutil.go") "not Go at all" 420
                   passing_checkout))).
  vm_compute; reflexivity.
Defined.

Lemma GenerateTests_read_failure_witness :
  GeneratorIO.GenerateTests SimpleMachine.machine "pkg/netutil.go" [address_info]
    (mkState unread_checkout small_hub []) =
  (Returns (EmptyString,
            Some ("failed to read original file: " ++
                  ("open " ++ "pkg/netutil.go" ++ ": " ++ SimpleOS.ENOENT))),
   mkState unread_checkout small_hub
     ([] ++ [OsCall CallGetwd;
             ReadFile (resolvedFrom SimpleMachine.os ("/repo", None) "pkg/netutil.go")])%list).
Proof.
  apply (GenerateTests_read_failure SimpleMachine.machine "pkg/netutil.go" [address_info]
           unread_checkout small_hub [] ("/repo", None) unread_checkout EmptyString).
  - vm_compute; reflexivity.
  - vm_compute; reflexivity.
Defined.

Lemma GenerateTests_no_candidates_witness :
  let w := checkout "ok" None no_candidates in
  GeneratorIO.GenerateTests SimpleMachine.machine "pkg/netutil.go" [address_info]
    (mkState w small_hub []) =
  (Returns (EmptyString, Some "no content generated"),
   mkState w small_hub
     ([] ++ [OsCall CallGetwd;
             ReadFile (resolvedFrom SimpleMachine.os ("/repo", None) "pkg/netutil.go");
             GenerateContent "gemini-1.5-flash" "0.3"
               (promptFor "pkg/netutil.go" netutil_go [address_info])])%list).
Proof.
  apply (GenerateTests_no_candidates SimpleMachine.machine "pkg/netutil.go" [address_info]
           (checkout "ok" None no_candidates) small_hub [] ("/repo", None)
           (checkout "ok" None no_candidates) netutil_go
           (checkout "ok" None no_candidates) (Genai.mkGenerateContentResponse [])).
  - vm_compute; reflexivity.
  - vm_compute; reflexivity.
  - vm_compute; reflexivity.
  - reflexivity.
Defined.

Lemma GenerateTests_candidate_without_content_witness :
  let w := checkout "ok" None blocked_answer in
  GeneratorIO.GenerateTests SimpleMachine.machine "pkg/netutil.go" [address_info]
    (mkState w small_hub []) =
  (Panics "nil pointer dereference",
   mkState w small_hub
     ([] ++ [OsCall CallGetwd;
             ReadFile (resolvedFrom SimpleMachine.os ("/repo", None) "pkg/netutil.go");
             GenerateContent "gemini-1.5-flash" "0.3"
               (promptFor "pkg/netutil.go" netutil_go [address_info])])%list).
Proof.
  apply (GenerateTests_candidate_without_content SimpleMachine.machine "pkg/netutil.go"
           [address_info] (checkout "ok" None blocked_answer) small_hub [] ("/repo", None)
           (checkout "ok" None blocked_answer) netutil_go
           (checkout "ok" None blocked_answer)
           (Genai.mkGenerateContentResponse [Some (Genai.mkCandidate None)])
           (Genai.mkCandidate None) []).
  - vm_compute; reflexivity.
  - vm_compute; reflexivity.
  - vm_compute; reflexivity.
  - reflexivity.
  - reflexivity.
Defined.

Lemma GenerateTests_returns_cleaned_answer_witness :
  let st3 :=
    mkState passing_checkout small_hub
      ([] ++ [OsCall CallGetwd;
              ReadFile (resolvedFrom SimpleMachine.os ("/repo", None) "pkg/netutil.go");
              GenerateContent "gemini-1.5-flash" "0.3"
                (promptFor "pkg/netutil.go" netutil_go [address_info])])%list in
  GeneratorIO.GenerateTests SimpleMachine.machine "pkg/netutil.go" [address_info]
    (mkState passing_checkout small_hub []) =
  (Returns (testTextFor netutil_go good_parts, None),
   snd (GeneratorIO.validateGeneratedCode SimpleMachine.machine
          (resolvedFrom SimpleMachine.os ("/repo", None) "pkg/netutil.go")
          (testTextFor netutil_go good_parts) st3)) /\
  (Strings.Contains (fst (Generator.extractPackageInfo netutil_go)) fence = false ->
   Strings.Contains (testTextFor netutil_go good_parts) fence = false).
Proof.
  apply (GenerateTests_returns_cleaned_answer SimpleMachine.machine "pkg/netutil.go"
           [address_info] passing_checkout small_hub [] ("/repo", None) passing_checkout
           netutil_go passing_checkout
           (Genai.mkGenerateContentResponse
              [Some (Genai.mkCandidate (Some (Genai.mkContent good_parts)))])
           (Genai.mkCandidate (Some (Genai.mkContent good_parts))) []
           (Genai.mkContent good_parts) passing_checkout).
  - vm_compute; reflexivity.
  - vm_compute; reflexivity.
  - vm_compute; reflexivity.
  - reflexivity.
  - reflexivity.
  - vm_compute; reflexivity.
Defined.

Lemma CommentOnPR_posts_nothing_witness :
  Main.CommentOnPR direct SimpleRemote.creator "12a" "done" (tool_state passing_checkout) =
  (Returns (if String.eqb "12a" EmptyString then None
            else Some ("invalid PR number: strconv.Atoi: parsing " ++
                       strconv_Quote direct "12a" ++ ": invalid syntax")),
   tool_state passing_checkout).
Proof.
  apply (CommentOnPR_posts_nothing direct SimpleRemote.creator "12a" "done"
           (tool_state passing_checkout)).
  vm_compute; reflexivity.
Defined.

Lemma CommentOnPR_posts_on_the_number_witness :
  snd (Main.CommentOnPR direct SimpleRemote.creator "17" "done" (tool_state passing_checkout)) =
    commented direct SimpleRemote.creator (Strconv.digitsValue 0 "17") "done"
      (tool_state passing_checkout) /\
  (0 <= Strconv.digitsValue 0 "17" < 10 ^ 18)%Z /\
  exists result,
    fst (Main.CommentOnPR direct SimpleRemote.creator "17" "done"
           (tool_state passing_checkout)) = Returns result.
Proof.
  apply (CommentOnPR_posts_on_the_number direct SimpleRemote.creator "17" "done"
           (tool_state passing_checkout)).
  - discriminate.
  - vm_compute; reflexivity.
  - vm_compute; lia.
Defined.

Lemma main_blank_changed_files_witness :
  let config := small_config "17" (nl ++ "  " ++ nl) in
  (ChangedFiles config = EmptyString ->
   Main.main direct config (tool_state passing_checkout) =
     (Returns tt, logged (tool_state passing_checkout)
                    (LogLine "No changed files to process"))) /\
  (ChangedFiles config <> EmptyString ->
   forall w1,
     genai_NewClient (machine direct) (GeminiAPIKey config)
       (sys (tool_state passing_checkout)) = (None, w1) ->
     Main.main direct config (tool_state passing_checkout) =
       (Returns tt,
        mkState w1 (hub (tool_state passing_checkout))
          (effects (tool_state passing_checkout) ++
           [NewClient (GeminiAPIKey config);
            LogLine "Test generation process completed"])%list)).
Proof.
  apply (main_blank_changed_files direct (small_config "17" (nl ++ "  " ++ nl))
           (tool_state passing_checkout)).
  vm_compute; reflexivity.
Defined.

Lemma main_without_pr_number_never_comments_witness :
  exists more,
    effects (snd (Main.main direct (small_config EmptyString "pkg/netutil.go")
                    (tool_state passing_checkout))) =
      (effects (tool_state passing_checkout) ++ more)%list /\
    Forall noComment more.
Proof.
  apply (main_without_pr_number_never_comments direct
           (small_config EmptyString "pkg/netutil.go") (tool_state passing_checkout)).
  reflexivity.
Defined.

Lemma processFile_skips_covered_file_witness :
  let config := small_config "17" "pkg/calculator.go" in
  let st := tool_state passing_checkout in
  Main.processFile direct config SimpleRemote.creator " pkg/calculator.go " st =
    (Returns tt,
     logged
       (snd (Main.AnalyzeFile direct (Strings.TrimSpace " pkg/calculator.go ")
               (CoverageThreshold config)
               (logged st (LogLine ("Processing file: " ++
                                    Strings.TrimSpace " pkg/calculator.go ")))))
       (LogLine ("File " ++ Strings.TrimSpace " pkg/calculator.go " ++
                 " has sufficient coverage (" ++
                 Github.formatPercent (client SimpleRemote.creator) 55.5%float ++
                 "%), skipping"))).
Proof.
  apply (processFile_skips_covered_file direct (small_config "17" "pkg/calculator.go")
           SimpleRemote.creator " pkg/calculator.go " 55.5%float
           (tool_state passing_checkout)).
  - vm_compute; reflexivity.
  - vm_compute; reflexivity.
Defined.

Lemma processFile_reports_analysis_error_witness :
  let config := small_config "17" "pkg/calculator.go" in
  let st := tool_state failing_checkout in
  let e := "failed to run coverage: exit status 1, output: --- FAIL: TestAdd (0.00s)   FAIL" in
  Main.processFile direct config SimpleRemote.creator "pkg/calculator.go" st =
    (Returns tt,
     commented direct SimpleRemote.creator (Strconv.digitsValue 0 (PRNumber config))
       (Main.crossMark ++ " Failed to analyze coverage for `" ++
        Strings.TrimSpace "pkg/calculator.go" ++ "`: " ++ e)
       (logged
          (snd (Main.AnalyzeFile direct (Strings.TrimSpace "pkg/calculator.go")
                  (CoverageThreshold config)
                  (logged st (LogLine ("Processing file: " ++
                                       Strings.TrimSpace "pkg/calculator.go")))))
          (LogLine ("Error analyzing coverage for " ++
                    Strings.TrimSpace "pkg/calculator.go" ++ ": " ++ e)))).
Proof.
  apply (processFile_reports_analysis_error direct (small_config "17" "pkg/calculator.go")
           SimpleRemote.creator "pkg/calculator.go" false 0%float).
  - vm_compute; reflexivity.
  - discriminate.
  - vm_compute; reflexivity.
  - vm_compute; lia.
  - vm_compute; reflexivity.
Defined.

Lemma processFile_publishes_tests_witness :
  let config := small_config "17" "pkg/netutil.go" in
  let pc := SimpleRemote.creator in
  let name := Strings.TrimSpace "pkg/netutil.go" in
  let text := testTextFor netutil_go good_parts in
  let st := tool_state passing_checkout in
  let st2 :=
    snd (Main.AnalyzeFile direct name (CoverageThreshold config)
           (logged st (LogLine ("Processing file: " ++ name)))) in
  let st4 :=
    snd (Main.ExtractModifiedFunctions direct name
           (logged st2 (LogLine ("File " ++ name ++ " needs tests (coverage: " ++
                                 Github.formatPercent (client pc) 0%float ++ "%)")))) in
  let st5 :=
    snd (GeneratorIO.GenerateTests (machine direct) name [connection_info; address_info] st4) in
  let st6 :=
    snd (ofG (Publisher.CreateTestPR pc name (testFileOf name) text
                (Main.createBranchName direct name) 0%float) st5) in
  Main.processFile direct config pc "pkg/netutil.go" st =
    (Returns tt,
     commented direct pc (Strconv.digitsValue 0 (PRNumber config))
       (Publisher.checkMark ++ " Generated unit tests for `" ++ name ++
        "` (coverage was " ++ Github.formatPercent (client pc) 0%float ++
        "%). New PR created with branch `" ++ Main.createBranchName direct name ++ "`")
       (logged st6 (LogLine ("Successfully created test PR for " ++ name)))).
Proof.
  intros config pc name text st st2 st4 st5 st6.
  apply (processFile_publishes_tests direct config pc "pkg/netutil.go" 0%float
           connection_info [address_info] text st st2 st4 st5 st6).
  - vm_compute; reflexivity.
  - discriminate.
  - vm_compute; reflexivity.
  - vm_compute; lia.
  - vm_compute; reflexivity.
  - vm_compute; reflexivity.
  - vm_compute; reflexivity.
  - vm_compute; reflexivity.
Defined.
